(** * fs-source: OBS face-detection source switcher

    A shallow embedding of [fs_source.py] (class [FaceDetectionSwitcher])
    and [fs_source_daemon.py] (class [FaceDetectionDaemon]), and the
    properties of their visibility synchronisation, presence tracking and
    standby/active life cycle.

    The Python methods become functions in a state-and-exception monad
    over one [State] record.  The record holds the fields of the Python
    object, the two counters the methods keep in local variables, the
    remote OBS instance the websocket talks to, and a chronological
    [trace] of what the program did (requests sent, synchronisations
    invoked, log records written). *)

From Stdlib Require Import ZArith Bool Lia.
From stdpp Require Import base option list gmap strings fin_maps.

Local Open Scope Z_scope.
Local Open Scope string_scope.
Local Open Scope list_scope.

(** ** The remote OBS instance *)

(** One element of the list [GetSceneItemList] answers with: the dict keys
    [sourceName], [sceneItemId] and [sceneItemEnabled]. *)
Record SceneItem := mkItem {
  sourceName : string;
  sceneItemId : Z;
  sceneItemEnabled : bool
}.

(** What MediaPipe reports on a frame: the score of each detection, in
    thousandths.  Only their order against the threshold is ever used. *)
Definition Frame := list Z.

(** The remote as the program can observe it.  [scene_list] is the answer
    to [GetSceneList] (the [sceneName] of each entry, in order); a scene
    name without an entry in [scene_items] is a scene whose
    [GetSceneItemList] request fails.  [screenshot] is what
    [GetSourceScreenshot] of the monitored source currently decodes to,
    [None] when that request fails. *)
Record Remote := mkRemote {
  responsive : bool;
  accepting : bool;
  screenshot : option Frame;
  scene_list : list string;
  scene_items : gmap string (list SceneItem)
}.

(** [SetSceneItemEnabled] addresses an item by scene name and scene item
    id.  Names and ids are never changed by the program. *)
Definition enable_item (i : Z) (v : bool) (it : SceneItem) : SceneItem :=
  if Z.eqb (sceneItemId it) i
  then mkItem (sourceName it) (sceneItemId it) v
  else it.

Definition set_enabled (i : Z) (v : bool) (its : list SceneItem) : list SceneItem :=
  enable_item i v <$> its.

Definition remote_set (n : string) (i : Z) (v : bool) (r : Remote) : Remote :=
  mkRemote (responsive r) (accepting r) (screenshot r) (scene_list r)
           (alter (set_enabled i v) n (scene_items r)).

(** One entry of the script stands for one turn of a loop that waits.
    It says what the surroundings do while the program sleeps: OBS may
    stop or start answering, may start or stop accepting connections, and
    the monitored picture changes.  It also says what happens at the
    preview window when the pass that is about to sleep gets there (the
    window is drawn and polled just before the sleep): whether
    [cv2.putText] and [cv2.imshow] go through, and whether
    [cv2.waitKey(1)] reads the key q. *)
Record Env := MkEnv {
  env_responsive : bool;
  env_accepting : bool;
  env_screenshot : option Frame;
  env_window_ok : bool;
  env_key_q : bool
}.

(** An entry with nothing happening at the preview window: it can be
    drawn, and q is not pressed. *)
Abbreviation mkEnv r a s := (MkEnv r a s true false).

Definition remote_env (e : Env) (r : Remote) : Remote :=
  mkRemote (env_responsive e) (env_accepting e) (env_screenshot e)
           (scene_list r) (scene_items r).

(** ** Configuration ([config/obs_config.json]) *)

Record Config := MkConfig {
  monitor_source_name : option string;
  show_source_name : option string;
  hide_source_name : option string;
  detection_scene_name : option string;
  face_detection_confidence : option Z;
  show_preview : bool           (* [config.get('show_preview', False)] *)
}.

(** A configuration file without the [show_preview] key. *)
Abbreviation mkConfig m s h d c := (MkConfig m s h d c false).

(** Python truthiness of [config.get(key)] for a string value. *)
Definition truthy (o : option string) : bool :=
  match o with
  | Some s => negb (String.eqb s "")
  | None => false
  end.

(** ** The trace *)

Inductive request :=
| GetVersion
| GetSceneList
| GetSceneItemList (scene : string)
| SetSceneItemEnabled (scene : string) (item : Z) (enabled : bool)
| GetSourceScreenshot (source : string).

Inductive level := DEBUG | INFO | WARNING | ERROR.

(** The log records, with the interpolated values that matter kept. *)
Inductive message :=
| MConnected
| MConnectFailed (attempt : nat)
| MStillUnable (attempt : nat)
| MCannotContinue
| MDisconnected
| MNotResponsive
| MScreenshotFailed
| MSourceNameNotConfigured
| MSkippingExcluded (scene : string)
| MSetItem (source : string) (visible : bool) (scene : string)
| MCouldNotModify (source scene : string)
| MSetVisibility (source : string) (visible : bool) (count : nat)
| MNotFoundInAnyScene (source : string)
| MToggleFailed
| MStarting
| MStandbyMode
| MConnectionEstablished
| MObsNowActive
| MActiveMode
| MMonitorNotConfigured
| MMonitoring (source : string)
| MTarget (source : string)
| MRuleShow (source : string)
| MRuleHide (source : string)
| MRuntimeError
| MFatalError
| MWillShow (source : string)
| MWillHide (source : string)
| MKeepVisibleIn (scenes : list string)
| MFaceDetectionActive
| MObsStopped
| MFrameRetry
| MTooManyErrors
| MFaceDetected
| MFaceGone
| MStandbyFailed
| MActiveExitedWithError
| MShuttingDown
| MDaemonStopped.

Inductive event :=
| Request (r : request)
| Call (source_name : string) (visible : bool) (excluded : list string)
| Log (l : level) (m : message).

(** ** Program state *)

Record State := mkState {
  obs : Remote;                 (* the OBS instance at the other end *)
  obs_ws : bool;                (* [self.obs_ws] is not [None] *)
  face_detected : bool;         (* [self.face_detected] *)
  last_detection_time : nat;    (* [self.last_detection_time] *)
  reconnect_attempts : nat;     (* [self.reconnect_attempts] *)
  scenes_modified : nat;        (* local [scenes_modified] / [changes_made] *)
  consecutive_errors : nat;     (* local [consecutive_errors] *)
  trace : list event;           (* oldest first *)
  script : list Env;            (* what happens during the sleeps to come *)
  clock : nat                   (* number of sleeps so far *)
}.

Definition with_obs (f : Remote -> Remote) (st : State) : State :=
  mkState (f (obs st)) (obs_ws st) (face_detected st) (last_detection_time st)
          (reconnect_attempts st) (scenes_modified st) (consecutive_errors st)
          (trace st) (script st) (clock st).

Definition with_obs_ws (b : bool) (st : State) : State :=
  mkState (obs st) b (face_detected st) (last_detection_time st)
          (reconnect_attempts st) (scenes_modified st) (consecutive_errors st)
          (trace st) (script st) (clock st).

Definition with_face_detected (b : bool) (st : State) : State :=
  mkState (obs st) (obs_ws st) b (last_detection_time st)
          (reconnect_attempts st) (scenes_modified st) (consecutive_errors st)
          (trace st) (script st) (clock st).

Definition with_last_detection_time (t : nat) (st : State) : State :=
  mkState (obs st) (obs_ws st) (face_detected st) t
          (reconnect_attempts st) (scenes_modified st) (consecutive_errors st)
          (trace st) (script st) (clock st).

Definition with_reconnect_attempts (n : nat) (st : State) : State :=
  mkState (obs st) (obs_ws st) (face_detected st) (last_detection_time st)
          n (scenes_modified st) (consecutive_errors st)
          (trace st) (script st) (clock st).

Definition with_scenes_modified (n : nat) (st : State) : State :=
  mkState (obs st) (obs_ws st) (face_detected st) (last_detection_time st)
          (reconnect_attempts st) n (consecutive_errors st)
          (trace st) (script st) (clock st).

Definition with_consecutive_errors (n : nat) (st : State) : State :=
  mkState (obs st) (obs_ws st) (face_detected st) (last_detection_time st)
          (reconnect_attempts st) (scenes_modified st) n
          (trace st) (script st) (clock st).

Definition emit (e : event) (st : State) : State :=
  mkState (obs st) (obs_ws st) (face_detected st) (last_detection_time st)
          (reconnect_attempts st) (scenes_modified st) (consecutive_errors st)
          (trace st ++ [e]) (script st) (clock st).

(** One sleep: the next entry of the script happens to the remote. *)
Definition elapse (e : Env) (rest : list Env) (st : State) : State :=
  mkState (remote_env e (obs st)) (obs_ws st) (face_detected st)
          (last_detection_time st) (reconnect_attempts st) (scenes_modified st)
          (consecutive_errors st) (trace st) rest (S (clock st)).

(** ** The monad: state, and Python exceptions *)

(** [Error] stands for any instance of [Exception]; [KeyboardInterrupt]
    is not one, and passes through [except Exception] handlers. *)
Inductive exn := Error | KeyboardInterrupt.

Inductive outcome (A : Type) :=
| Return (a : A)
| Raise (e : exn).
Arguments Return {A} a.
Arguments Raise {A} e.

Definition M (A : Type) : Type := State -> outcome A * State.

Definition ret {A} (a : A) : M A := fun st => (Return a, st).

Definition raise {A} (e : exn) : M A := fun st => (Raise e, st).

Definition bind {A B} (m : M A) (k : A -> M B) : M B :=
  fun st =>
    match m st with
    | (Return a, st') => k a st'
    | (Raise e, st') => (Raise e, st')
    end.

Declare Scope py_scope.
Delimit Scope py_scope with py.
Notation "x <- m ;; k" := (bind m (fun x => k))
  (at level 100, m at next level, right associativity) : py_scope.
Notation "m ;; k" := (bind m (fun _ => k))
  (at level 100, right associativity) : py_scope.
Local Open Scope py_scope.

Definition gets {A} (f : State -> A) : M A := fun st => (Return (f st), st).

Definition modify (f : State -> State) : M unit := fun st => (Return tt, f st).

(** [try: m except Exception: h] *)
Definition try_except {A} (m : M A) (h : M A) : M A :=
  fun st =>
    match m st with
    | (Raise Error, st') => h st'
    | r => r
    end.

(** [try: m except: h], the bare handler catches everything. *)
Definition try_bare {A} (m : M A) (h : M A) : M A :=
  fun st =>
    match m st with
    | (Raise _, st') => h st'
    | r => r
    end.

(** [try: m finally: f] *)
Definition try_finally {A} (m : M A) (f : M unit) : M A :=
  fun st =>
    match m st with
    | (r, st') =>
        match f st' with
        | (Return _, st'') => (r, st'')
        | (Raise e, st'') => (Raise e, st'')
        end
    end.

(** [try: m except KeyboardInterrupt: hk except Exception: he] *)
Definition try_except_both {A} (m : M A) (hk : M A) (he : M A) : M A :=
  fun st =>
    match m st with
    | (Raise KeyboardInterrupt, st') => hk st'
    | (Raise Error, st') => he st'
    | r => r
    end.

(** [for x in l: body x] *)
Fixpoint for_each {A} (l : list A) (body : A -> M unit) : M unit :=
  match l with
  | [] => ret tt
  | x :: l' => body x ;; for_each l' body
  end.

(** At most [fuel] passes of a loop body. *)
Fixpoint loop {A} (fuel : nat) (body : M (option A)) : M A :=
  match fuel with
  | O => raise KeyboardInterrupt
  | S fuel' =>
      r <- body ;;
      match r with
      | Some a => ret a
      | None => loop fuel' body
      end
  end.

(** [while True: body], where [body] answers [Some a] when it executes
    [return a] and [None] when it reaches the end of the loop body or a
    [continue].  Every pass that goes round again sleeps, and every sleep
    consumes one entry of the script, so one more pass than there are
    entries left is all the loop can make before the stop signal
    ([loops_have_enough_fuel] below: more fuel changes nothing). *)
Definition while_true {A} (body : M (option A)) : M A :=
  fun st => loop (S (length (script st))) body st.

(** [time.sleep]: the surroundings move on; at the end of the script the
    process receives its stop signal. *)
Definition sleep : M unit :=
  fun st =>
    match script st with
    | [] => (Raise KeyboardInterrupt, st)
    | e :: rest => (Return tt, elapse e rest st)
    end.

Definition log (l : level) (m : message) : M unit := modify (emit (Log l m)).

(** ** The websocket client ([self.obs_ws.call]) *)

Definition call (r : request) : M unit :=
  ws <- gets obs_ws ;;
  if ws : bool then
    modify (emit (Request r)) ;;
    up <- gets (fun st => responsive (obs st)) ;;
    if up : bool then ret tt else raise Error
  else raise Error.

Definition call_GetVersion : M unit := call GetVersion.

Definition call_GetSceneList : M (list string) :=
  call GetSceneList ;;
  gets (fun st => scene_list (obs st)).

Definition call_GetSceneItemList (scene_name : string) : M (list SceneItem) :=
  call (GetSceneItemList scene_name) ;;
  r <- gets (fun st => scene_items (obs st) !! scene_name) ;;
  match r with
  | Some its => ret its
  | None => raise Error
  end.

Definition call_SetSceneItemEnabled (scene_name : string) (i : Z) (v : bool) : M unit :=
  call (SetSceneItemEnabled scene_name i v) ;;
  modify (with_obs (remote_set scene_name i v)).

Definition call_GetSourceScreenshot (source_name : string) : M Frame :=
  call (GetSourceScreenshot source_name) ;;
  r <- gets (fun st => screenshot (obs st)) ;;
  match r with
  | Some f => ret f
  | None => raise Error
  end.

(** [detect_face]: the loop over [results.detections].  A frame is what
    MediaPipe reports on it: [cv2.cvtColor] and the detector are taken to
    answer on every frame that was decoded, so the [try] the daemon puts
    around them (lines 133-145) has nothing to catch. *)
Definition detect_face (config : Config) (image : Frame) : bool :=
  existsb (fun score => Z.ltb (default 700 (face_detection_confidence config)) score) image.

(** The optional preview window, the same text in both files but for the
    window title (fs_source.py 219-227, fs_source_daemon.py 291-298).
    With [show_preview] set, the status is drawn on the frame and shown
    ([cv2.putText], [cv2.imshow]: an exception when the window cannot be
    drawn), then [cv2.waitKey(1)] polls the keyboard.  The answer says
    whether the key was q, on which the caller executes [break].  What the
    window does is read off the next entry of the script; when the script
    is over nothing happens at the window, and the stop signal arrives at
    the sleep that follows. *)
Definition preview (config : Config) : M bool :=
  if show_preview config then
    next <- gets (fun st => head (script st)) ;;
    match next with
    | Some e =>
        (if env_window_ok e then ret tt else raise Error) ;;
        ret (env_key_q e)
    | None => ret false
    end
  else ret false.

(** The body of the loop over one scene's items, the same text in both
    files (fs_source.py 128-136, fs_source_daemon.py 174-182). *)
Definition set_matching_items (source_name : string) (visible : bool)
    (scene_name : string) (items : list SceneItem) : M unit :=
  for_each items (fun item =>
    if String.eqb (sourceName item) source_name then
      call_SetSceneItemEnabled scene_name (sceneItemId item) visible ;;
      log DEBUG (MSetItem source_name visible scene_name) ;;
      modify (fun st => with_scenes_modified (S (scenes_modified st)) st)
    else ret tt).

(** ** fs_source.py *)

Module Switcher.

(** [__init__], lines 25-35, next to a remote and a script. *)
Definition init (r : Remote) (s : list Env) : State :=
  mkState r false false 0 0 0 0 [] s 0.

(** [connect_obs], lines 37-50.  The handle is assigned before
    [connect()] is attempted, so it stays set when that fails. *)
Definition connect_obs : M bool :=
  try_except
    (modify (with_obs_ws true) ;;
     up <- gets (fun st => accepting (obs st)) ;;
     (if up : bool then ret tt else raise Error) ;;
     log INFO MConnected ;;
     ret true)
    (log ERROR (MConnectFailed 0) ;; ret false).

(** [disconnect_obs], lines 52-56. *)
Definition disconnect_obs : M unit :=
  ws <- gets obs_ws ;;
  if ws : bool then log INFO MDisconnected else ret tt.

(** [get_source_screenshot], lines 58-83: the decoded frame, or [None]. *)
Definition get_source_screenshot (source_name : string) : M (option Frame) :=
  try_except
    (frame <- call_GetSourceScreenshot source_name ;; ret (Some frame))
    (log ERROR MScreenshotFailed ;; ret None).

(** [set_source_visibility_global(source_name, visible, exclude_scenes)],
    lines 97-151.  The first line records the invocation in the trace. *)
Definition set_source_visibility_global (source_name : string) (visible : bool)
    (exclude_scenes : list string) : M bool :=
  modify (emit (Call source_name visible exclude_scenes)) ;;
  ws <- gets obs_ws ;;
  if negb ws then ret false else
  try_except
    (if String.eqb source_name "" then
       log WARNING MSourceNameNotConfigured ;; ret false
     else
       all_scenes <- call_GetSceneList ;;
       modify (with_scenes_modified 0) ;;
       for_each all_scenes (fun scene_name =>
         if bool_decide (scene_name ∈ exclude_scenes) then
           log DEBUG (MSkippingExcluded scene_name)
         else
           try_except
             (scene_items <- call_GetSceneItemList scene_name ;;
              set_matching_items source_name visible scene_name scene_items)
             (log DEBUG (MCouldNotModify source_name scene_name))) ;;
       n <- gets scenes_modified ;;
       if Nat.ltb 0 n then
         log INFO (MSetVisibility source_name visible n) ;; ret true
       else
         log WARNING (MNotFoundInAnyScene source_name) ;; ret false)
    (log ERROR MToggleFailed ;; ret false).


(** The part of the loop body of [run] that follows a captured frame,
    lines 198-216. *)
Definition on_frame (config : Config) (exclude_scenes : list string)
    (frame : Frame) : M unit :=
  let current_face_detected := detect_face config frame in
  current_time <- gets clock ;;
  stored <- gets face_detected ;;
  if negb (eqb current_face_detected stored) then
    modify (with_face_detected current_face_detected) ;;
    modify (with_last_detection_time current_time) ;;
    if current_face_detected then
      log INFO MFaceDetected ;;
      match show_source_name config with
      | Some show_source =>
          if truthy (Some show_source)
          then set_source_visibility_global show_source true [] ;; ret tt
          else ret tt
      | None => ret tt
      end
    else
      log INFO MFaceGone ;;
      match show_source_name config with
      | Some show_source =>
          if truthy (Some show_source)
          then set_source_visibility_global show_source false exclude_scenes ;; ret tt
          else ret tt
      | None => ret tt
      end
  else ret tt.

(** One pass of the [while True] of [run], lines 189-230.  The loop has
    no [return]; [Some tt] is the [break] of the preview window, after
    which [run] goes on below the loop. *)
Definition run_pass (config : Config) (monitor_source : string)
    (exclude_scenes : list string) : M (option unit) :=
  frame <- get_source_screenshot monitor_source ;;
  match frame with
  | None =>
      log WARNING MFrameRetry ;;
      sleep ;;
      ret None
  | Some frame =>
      on_frame config exclude_scenes frame ;;
      quit <- preview config ;;
      if quit : bool then ret (Some tt)
      else
        sleep ;;
        ret None
  end.

(** [run], lines 153-240.  Line 166 reads [hide_source_name] into a local
    that nothing below uses. *)
Definition run (config : Config) : M unit :=
  log INFO MStarting ;;
  connected <- connect_obs ;;
  if negb connected then log ERROR MCannotContinue else
  match monitor_source_name config with
  | Some monitor_source =>
      if negb (truthy (Some monitor_source)) then
        log ERROR MMonitorNotConfigured ;; disconnect_obs
      else
        let exclude_scenes :=
          match detection_scene_name config with
          | Some detection_scene =>
              if truthy (Some detection_scene) then [detection_scene] else []
          | None => []
          end in
        log INFO (MMonitoring monitor_source) ;;
        match show_source_name config with
        | Some show_source =>
            if truthy (Some show_source) then
              log INFO (MTarget show_source) ;;
              log INFO (MRuleShow show_source) ;;
              log INFO (MRuleHide show_source) ;;
              match exclude_scenes with
              | [] => ret tt
              | _ => log INFO (MKeepVisibleIn exclude_scenes)
              end
            else ret tt
        | None => ret tt
        end ;;
        try_finally
          (try_except_both
             (log INFO MFaceDetectionActive ;;
              while_true (run_pass config monitor_source exclude_scenes))
             (log INFO MShuttingDown)
             (log ERROR MRuntimeError))
          disconnect_obs
  | None => log ERROR MMonitorNotConfigured ;; disconnect_obs
  end.

End Switcher.

(** ** fs_source_daemon.py *)

Module Daemon.

(** [disconnect_obs], lines 78-86. *)
Definition disconnect_obs : M unit :=
  ws <- gets obs_ws ;;
  if ws : bool then
    try_bare (log INFO MDisconnected) (ret tt) ;;
    modify (with_obs_ws false)
  else ret tt.

(** [connect_obs], lines 49-76. *)
Definition connect_obs : M bool :=
  try_except
    (modify (with_obs_ws true) ;;
     up <- gets (fun st => accepting (obs st)) ;;
     (if up : bool then ret tt else raise Error) ;;
     log INFO MConnected ;;
     modify (with_reconnect_attempts 0) ;;
     ret true)
    (modify (fun st => with_reconnect_attempts (S (reconnect_attempts st)) st) ;;
     n <- gets reconnect_attempts ;;
     (if Nat.leb n 3 then log ERROR (MConnectFailed n)
      else if Nat.eqb (n mod 12) 0 then log WARNING (MStillUnable n)
      else ret tt) ;;
     ws <- gets obs_ws ;;
     (if ws : bool then modify (with_obs_ws false) else ret tt) ;;
     ret false).

(** [is_obs_active], lines 88-102. *)
Definition is_obs_active : M bool :=
  ws <- gets obs_ws ;;
  if negb ws then ret false else
  try_except
    (call_GetVersion ;; ret true)
    (log DEBUG MNotResponsive ;; disconnect_obs ;; ret false).

(** [get_source_screenshot], lines 104-129. *)
Definition get_source_screenshot (source_name : string) : M (option Frame) :=
  try_except
    (frame <- call_GetSourceScreenshot source_name ;; ret (Some frame))
    (log ERROR MScreenshotFailed ;; ret None).

(** The scenes [exclude_scene] makes the loop skip: none when it is
    [None] or empty ([if exclude_scene and ...]). *)
Definition excluded (exclude_scene : option string) : list string :=
  match exclude_scene with
  | Some s => if String.eqb s "" then [] else [s]
  | None => []
  end.

(** [set_source_visibility_global(source_name, visible, exclude_scene)],
    lines 147-194. *)
Definition set_source_visibility_global (source_name : string) (visible : bool)
    (exclude_scene : option string) : M bool :=
  modify (emit (Call source_name visible (excluded exclude_scene))) ;;
  ws <- gets obs_ws ;;
  if negb ws then ret false else
  try_except
    (if String.eqb source_name "" then
       log WARNING MSourceNameNotConfigured ;; ret false
     else
       all_scenes <- call_GetSceneList ;;
       modify (with_scenes_modified 0) ;;
       for_each all_scenes (fun scene_name =>
         if truthy exclude_scene && bool_decide (Some scene_name = exclude_scene) then
           log DEBUG (MSkippingExcluded scene_name)
         else
           scene_items <- call_GetSceneItemList scene_name ;;
           set_matching_items source_name visible scene_name scene_items) ;;
       n <- gets scenes_modified ;;
       if Nat.ltb 0 n then
         log INFO (MSetVisibility source_name visible n) ;; ret true
       else
         log DEBUG (MNotFoundInAnyScene source_name) ;; ret false)
    (log ERROR MToggleFailed ;; ret false).


(** One pass of the [while True] of [standby_mode], lines 201-212. *)
Definition standby_pass : M (option bool) :=
  ws <- gets obs_ws ;;
  (if negb ws then
     connected <- connect_obs ;;
     if connected : bool then log INFO MConnectionEstablished else ret tt
   else ret tt) ;;
  ws <- gets obs_ws ;;
  active <- (if ws : bool then is_obs_active else ret false) ;;
  if active : bool then
    log INFO MObsNowActive ;; ret (Some true)
  else
    sleep ;; ret None.

(** [standby_mode], lines 196-212. *)
Definition standby_mode : M bool :=
  log INFO MStandbyMode ;;
  while_true standby_pass.

(** [if name: self.set_source_visibility_global(name, visible, exclude)] *)
Definition sync_if_set (name : option string) (visible : bool)
    (exclude_scene : option string) : M unit :=
  match name with
  | Some source =>
      if truthy (Some source)
      then set_source_visibility_global source visible exclude_scene ;; ret tt
      else ret tt
  | None => ret tt
  end.

(** The part of the loop body of [active_mode] that follows a captured
    frame, lines 260-288. *)
Definition on_frame (config : Config) (frame : Frame) : M unit :=
  modify (with_consecutive_errors 0) ;;
  let current_face_detected := detect_face config frame in
  stored <- gets face_detected ;;
  if negb (eqb current_face_detected stored) then
    modify (with_face_detected current_face_detected) ;;
    now <- gets clock ;;
    modify (with_last_detection_time now) ;;
    let exclude_scene := detection_scene_name config in
    if current_face_detected then
      log INFO MFaceDetected ;;
      sync_if_set (show_source_name config) true None ;;
      sync_if_set (hide_source_name config) false None
    else
      log INFO MFaceGone ;;
      sync_if_set (show_source_name config) false exclude_scene ;;
      sync_if_set (hide_source_name config) true None
  else ret tt.

(** One pass of the [while True] of [active_mode], lines 237-301.
    [None] goes round again; [Some b] leaves the loop, and [active_mode]
    with it, with an answer whose truth value is [b].  That is
    [return True] and [return False]; and it is the [break] of the
    preview window, after which [active_mode] runs off its end and answers
    Python's [None]: its only caller tests the answer for truth
    ([if not self.active_mode()], line 324), so the [break] is
    [Some false]. *)
Definition active_pass (config : Config) (monitor_source : string) : M (option bool) :=
  active <- is_obs_active ;;
  if negb active then
    log INFO MObsStopped ;;
    sync_if_set (show_source_name config) false None ;;
    sync_if_set (hide_source_name config) true None ;;
    modify (with_face_detected false) ;;
    ret (Some true)
  else
    frame <- get_source_screenshot monitor_source ;;
    match frame with
    | None =>
        modify (fun st => with_consecutive_errors (S (consecutive_errors st)) st) ;;
        n <- gets consecutive_errors ;;
        if Nat.leb 5 n then
          log ERROR MTooManyErrors ;; ret (Some false)
        else
          sleep ;; ret None
    | Some frame =>
        on_frame config frame ;;
        quit <- preview config ;;
        if quit : bool then ret (Some false)
        else
          sleep ;;
          ret None
    end.

(** [active_mode], lines 214-307: the truth value of its answer. *)
Definition active_mode (config : Config) : M bool :=
  log INFO MActiveMode ;;
  match monitor_source_name config with
  | Some monitor_source =>
      if negb (truthy (Some monitor_source)) then
        log ERROR MMonitorNotConfigured ;; ret false
      else
        log INFO (MMonitoring monitor_source) ;;
        (if truthy (show_source_name config)
         then log INFO (MWillShow (default "" (show_source_name config)))
         else ret tt) ;;
        (if truthy (hide_source_name config)
         then log INFO (MWillHide (default "" (hide_source_name config)))
         else ret tt) ;;
        modify (with_consecutive_errors 0) ;;
        try_except
          (while_true (active_pass config monitor_source))
          (log ERROR MRuntimeError ;; ret false)
  | None => log ERROR MMonitorNotConfigured ;; ret false
  end.

(** One pass of the [while True] of [run], lines 317-328.  The loop has
    no [return]. *)
Definition run_cycle (config : Config) : M (option unit) :=
  standby <- standby_mode ;;
  if negb standby then
    log ERROR MStandbyFailed ;; sleep ;; ret None
  else
    active <- active_mode config ;;
    if negb active then
      log WARNING MActiveExitedWithError ;;
      disconnect_obs ;;
      sleep ;;
      ret None
    else ret None.

(** [run], lines 309-339 (the four banner lines are one record). *)
Definition run (config : Config) : M unit :=
  log INFO MStarting ;;
  try_finally
    (try_except_both
       (while_true (run_cycle config))
       (log INFO MShuttingDown)
       (log ERROR MFatalError))
    (disconnect_obs ;; log INFO MDaemonStopped).

(** [__init__], lines 34-47, next to a remote and a script. *)
Definition init (r : Remote) (s : list Env) : State :=
  mkState r false false 0 0 0 0 [] s 0.

End Daemon.

(** ** Closed forms used by the proofs *)

Definition matches (source_name : string) (it : SceneItem) : bool :=
  String.eqb (sourceName it) source_name.

(** The scene item ids [set_matching_items] sends for an item list. *)
Definition matching_ids (source_name : string) (its : list SceneItem) : list Z :=
  sceneItemId <$> List.filter (matches source_name) its.

(** Is [i] the id of an item of [its] that carries the target's name? *)
Definition hit (source_name : string) (its : list SceneItem) (i : Z) : bool :=
  existsb (fun s => matches source_name s && Z.eqb (sceneItemId s) i) its.

(** A scene's item list once every request of [set_matching_items] for
    it has been applied. *)
Definition synced (source_name : string) (visible : bool)
    (its : list SceneItem) : list SceneItem :=
  (fun c => if hit source_name its (sceneItemId c)
            then mkItem (sourceName c) (sceneItemId c) visible
            else c) <$> its.

(** The same, request by request: [snap] is the list that was fetched,
    [cur] the scene's items at the remote. *)
Definition mark (source_name : string) (visible : bool)
    (snap cur : list SceneItem) : list SceneItem :=
  fold_left (fun c it => if matches source_name it
                         then set_enabled (sceneItemId it) visible c
                         else c) snap cur.

Definition skeleton (its : list SceneItem) : list (string * Z) :=
  (fun it => (sourceName it, sceneItemId it)) <$> its.

(** What one pass of the loop of [set_matching_items] does to the state
    when the request goes through. *)
Definition item_step (source_name : string) (visible : bool) (scene_name : string)
    (st : State) (item : SceneItem) : State :=
  if matches source_name item then
    let st1 := emit (Request (SetSceneItemEnabled scene_name (sceneItemId item) visible)) st in
    let st2 := with_obs (remote_set scene_name (sceneItemId item) visible) st1 in
    let st3 := emit (Log DEBUG (MSetItem source_name visible scene_name)) st2 in
    with_scenes_modified (S (scenes_modified st3)) st3
  else st.

(** The scenes of [l] the loop writes to, and the remote items after the
    loop went over them. *)
Definition written (exclude : list string) (l : list string) : list string :=
  List.filter (fun n => negb (bool_decide (n ∈ exclude))) l.

Definition sync_items (source_name : string) (visible : bool) (l : list string)
    (m : gmap string (list SceneItem)) : gmap string (list SceneItem) :=
  fold_left (fun m n => alter (synced source_name visible) n m) l m.

(** The [SetSceneItemEnabled] requests of a trace, and the
    synchronisations and presence transitions it records. *)
Definition set_requests (tr : list event) : list (string * Z * bool) :=
  omap (fun e => match e with
                 | Request (SetSceneItemEnabled n i v) => Some (n, i, v)
                 | _ => None
                 end) tr.

Definition requests (tr : list event) : list request :=
  omap (fun e => match e with Request r => Some r | _ => None end) tr.

Definition calls (tr : list event) : list (string * bool * list string) :=
  omap (fun e => match e with Call t v ex => Some (t, v, ex) | _ => None end) tr.

Definition transitions (tr : list event) : list bool :=
  omap (fun e => match e with
                 | Log _ MFaceDetected => Some true
                 | Log _ MFaceGone => Some false
                 | _ => None
                 end) tr.

(** The requests a healthy synchronisation sends for the scenes [l]. *)
Definition expected_sets (source_name : string) (visible : bool)
    (m : gmap string (list SceneItem)) (l : list string) : list (string * Z * bool) :=
  flat_map (fun n => (fun i => (n, i, visible)) <$>
                     matching_ids source_name (default [] (m !! n))) l.

(** The edges of a sequence of detector verdicts, from the stored one. *)
Fixpoint edges (stored : bool) (verdicts : list bool) : list bool :=
  match verdicts with
  | [] => []
  | b :: rest => if eqb b stored then edges stored rest else b :: edges b rest
  end.

Fixpoint alternating (l : list bool) : Prop :=
  match l with
  | a :: ((b :: _) as rest) => a <> b /\ alternating rest
  | _ => True
  end.

(** A script in which OBS keeps answering and shows the given frames,
    with nothing happening at the preview window. *)
Definition showing (frames : list Frame) : list Env :=
  (fun f => mkEnv true true (Some f)) <$> frames.

(** What one pass of the scene loop of fs_source.py does to the state
    while OBS answers. *)
Definition scene_step (source_name : string) (visible : bool) (exclude : list string)
    (st : State) (scene_name : string) : State :=
  if bool_decide (scene_name ∈ exclude) then
    emit (Log DEBUG (MSkippingExcluded scene_name)) st
  else
    let st1 := emit (Request (GetSceneItemList scene_name)) st in
    match scene_items (obs st1) !! scene_name with
    | Some its => fold_left (item_step source_name visible scene_name) its st1
    | None => emit (Log DEBUG (MCouldNotModify source_name scene_name)) st1
    end.

(** The state in which the scene loop starts, and the one it ends in when
    every pass goes through. *)
Definition sync_begin (source_name : string) (visible : bool) (exclude : list string)
    (st : State) : State :=
  with_scenes_modified 0
    (emit (Request GetSceneList) (emit (Call source_name visible exclude) st)).

Definition sync_scenes (source_name : string) (visible : bool) (exclude : list string)
    (st : State) : State :=
  fold_left (scene_step source_name visible exclude) (scene_list (obs st))
            (sync_begin source_name visible exclude st).

(** The remote after the scenes [l] have been synchronised. *)
Definition remote_sync (source_name : string) (visible : bool) (l : list string)
    (r : Remote) : Remote :=
  mkRemote (responsive r) (accepting r) (screenshot r) (scene_list r)
           (sync_items source_name visible l (scene_items r)).

(** [sync_effect t v ex st st']: the remote went from [obs st] to
    [obs st'] by synchronising some listed scenes outside [ex], and the
    trace gained the [SetSceneItemEnabled] requests of exactly those. *)
Definition sync_effect (source_name : string) (visible : bool) (ex : list string)
    (st st' : State) : Prop :=
  exists l1 : list string,
    (forall n, n ∈ l1 -> n ∈ scene_list (obs st) /\ n ∉ ex) /\
    obs st' = remote_sync source_name visible l1 (obs st) /\
    set_requests (trace st') =
    set_requests (trace st) ++ expected_sets source_name visible (scene_items (obs st)) l1.

(** Every scene the loop writes to can be fetched. *)
Definition fetchable (ex : list string) (r : Remote) : Prop :=
  Forall (fun n => n ∉ ex -> is_Some (scene_items r !! n)) (scene_list r).

(** Scene item ids are scene-scoped. *)
Definition scoped_ids (r : Remote) : Prop :=
  map_Forall (fun _ its => NoDup (sceneItemId <$> its)) (scene_items r).

(** The frame of a synchronisation: which items stay as they were, and
    which requests it may send. *)
Definition untouched (source_name : string) (ex : list string) (st st' : State) : Prop :=
  forall n its, scene_items (obs st) !! n = Some its ->
    exists its', scene_items (obs st') !! n = Some its' /\
      length its' = length its /\
      forall k it, its !! k = Some it ->
        (sourceName it <> source_name \/ n ∈ ex) -> its' !! k = Some it.

Definition targeted (source_name : string) (visible : bool) (ex : list string)
    (st st' : State) : Prop :=
  exists new, set_requests (trace st') = set_requests (trace st) ++ new /\
    forall n i v', (n, i, v') ∈ new ->
      (n ∉ ex) /\ v' = visible /\
      exists its it, scene_items (obs st) !! n = Some its /\ it ∈ its /\
                     sceneItemId it = i /\ sourceName it = source_name.

(** The handle is held and OBS answers. *)
Definition online (st : State) : Prop :=
  obs_ws st = true /\ responsive (obs st) = true.

(** [calm m]: running [m] never lengthens the script of sleeps to come. *)
Definition calm {A} (m : M A) : Prop :=
  forall st, (length (script (snd (m st))) <= length (script st))%nat.

(** [winds_down body]: a pass that asks to go round again has slept. *)
Definition winds_down {A} (body : M (option A)) : Prop :=
  forall st st', body st = (Return None, st') ->
    (length (script st') < length (script st))%nat.

(** Everything a synchronisation leaves alone. *)
Definition backdrop (st : State) :=
  (obs_ws st, face_detected st, last_detection_time st, reconnect_attempts st,
   consecutive_errors st, script st, clock st,
   (responsive (obs st), accepting (obs st), screenshot (obs st), scene_list (obs st))).

(** What no step of the poll loop changes between two sleeps. *)
Definition surroundings (st : State) :=
  (obs_ws st, script st, clock st, reconnect_attempts st,
   (responsive (obs st), accepting (obs st), screenshot (obs st), scene_list (obs st))).

(** [steady st st']: from [st] to [st'] only scene items, the item
    counter and the trace moved, and the trace gained neither a
    synchronisation nor a presence transition. *)
Definition steady (st st' : State) : Prop :=
  backdrop st' = backdrop st /\
  exists evs, trace st' = trace st ++ evs /\ transitions evs = [] /\ calls evs = [].

(** [keeps m]: running [m] is [steady] and never ends in a stop signal. *)
Definition keeps {A} (m : M A) : Prop :=
  forall st, steady st (snd (m st)) /\ fst (m st) <> Raise KeyboardInterrupt.

(** ** Concrete studios, for the examples *)

(** A state with the websocket handle held, nothing done yet. *)
Definition connected (r : Remote) : State :=
  mkState r true false 0 0 0 0 [] [] 0.

(** Scenes A, B and C.  The camera sits in every scene, twice in B. *)
Definition studio_abc : Remote :=
  mkRemote true true (Some [])
    ["A"; "B"; "C"]
    (<["A" := [mkItem "Cam" 1 false; mkItem "Mic" 2 true]]>
     (<["B" := [mkItem "Cam" 5 false; mkItem "Cam" 6 true]]>
      (<["C" := [mkItem "Cam" 3 false]]> ∅))).

(** The same scene list, but the item list of B cannot be fetched. *)
Definition studio_broken : Remote :=
  mkRemote true true (Some [])
    ["A"; "B"; "C"]
    (<["A" := [mkItem "Cam" 1 false; mkItem "Mic" 2 true]]>
     (<["C" := [mkItem "Cam" 3 false]]> ∅)).

(** One scene, one camera. *)
Definition studio_one : Remote :=
  mkRemote true true (Some [])
    ["A"]
    (<["A" := [mkItem "Cam" 1 false]]> ∅).

(** ** The presence table *)

(** What [active_mode] of the daemon asks for on a transition to [b]
    (fs_source_daemon.py 273-288), as the synchronisations recorded in the
    trace. *)
Definition request_for (name : option string) (visible : bool)
    (exclude : list string) : list (string * bool * list string) :=
  match name with
  | Some source => if truthy (Some source) then [(source, visible, exclude)] else []
  | None => []
  end.

Definition daemon_table (config : Config) (b : bool) : list (string * bool * list string) :=
  if b then
    request_for (show_source_name config) true [] ++
    request_for (hide_source_name config) false []
  else
    request_for (show_source_name config) false
                (Daemon.excluded (detection_scene_name config)) ++
    request_for (hide_source_name config) true [].

(** What [run] of fs_source.py asks for (lines 207-216). *)
Definition switcher_table (config : Config) (b : bool) : list (string * bool * list string) :=
  if b then request_for (show_source_name config) true []
  else request_for (show_source_name config) false
                   (Daemon.excluded (detection_scene_name config)).

(** The poll loop can see frame [f]: handle held, OBS answering. *)
Definition watching (f : Frame) (st : State) : Prop :=
  obs_ws st = true /\ responsive (obs st) = true /\ screenshot (obs st) = Some f.

(** Nothing happens at the preview window in the pass under way: it can
    be drawn and q is not pressed. *)
Definition undisturbed (st : State) : Prop :=
  match script st with
  | e :: _ => env_window_ok e = true /\ env_key_q e = false
  | [] => True
  end.

(** ** A concrete stage, for the life-cycle examples *)

Definition face : Frame := [900].
Definition nobody : Frame := [].

(** Scenes Monitor and Main, each with the overlay (hidden) and the idle
    card (shown); somebody is in front of the camera. *)
Definition stage : Remote :=
  mkRemote true true (Some face)
    ["Monitor"; "Main"]
    (<["Monitor" := [mkItem "Webcam" 1 true; mkItem "Overlay" 2 false; mkItem "Idle" 3 true]]>
     (<["Main" := [mkItem "Overlay" 4 false; mkItem "Idle" 5 true]]> ∅)).

Definition config_both : Config :=
  mkConfig (Some "Webcam") (Some "Overlay") (Some "Idle") (Some "Monitor") None.

Definition config_hide_only : Config :=
  mkConfig (Some "Webcam") None (Some "Idle") (Some "Monitor") None.

(** The stage with nobody in view, and the poll loop about to see the
    verdicts false, false, true, true, false. *)
Definition stage_empty : Remote := remote_env (mkEnv true true (Some nobody)) stage.

Definition five_frames : State :=
  mkState stage_empty true false 0 0 0 0 [] (showing [nobody; face; face; nobody]) 0.

(** OBS keeps answering but the screenshot request fails. *)
Definition capture_fails : Env := mkEnv true true None.

(** An active session that sees a face and then loses the picture: five
    screenshot requests in a row fail while OBS keeps answering. *)
Definition picture_lost : list Env :=
  [capture_fails; capture_fails; capture_fails; capture_fails; capture_fails].

Definition session_losing_picture : State :=
  mkState stage true false 0 0 0 0 [] picture_lost 0.

(** The daemon from its start, through the same session, with the picture
    (and the face) back afterwards. *)
Definition daemon_start : State :=
  Daemon.init stage (picture_lost ++ [mkEnv true true (Some face)]).

(** The same configuration with the preview window on, and two entries
    of a script: one in which q is pressed at the window, one in which the
    window cannot be drawn. *)
Definition config_preview : Config :=
  MkConfig (Some "Webcam") (Some "Overlay") (Some "Idle") (Some "Monitor") None true.

Definition press_q : Env := MkEnv true true (Some face) true true.

Definition no_display : Env := MkEnv true true (Some face) false false.

(** ** Notions for the rest of the two files *)

(** What [connect_obs] of the daemon logs at its [n]-th failure in a row
    (fs_source_daemon.py 64-67), and over the failures [a+1] to [a+k]. *)
Definition failure_record (n : nat) : list event :=
  if Nat.leb n 3 then [Log ERROR (MConnectFailed n)]
  else if Nat.eqb (n mod 12) 0 then [Log WARNING (MStillUnable n)]
  else [].

Fixpoint outage_log (a k : nat) : list event :=
  match k with
  | O => []
  | S k' => failure_record (S a) ++ outage_log (S a) k'
  end.

(** [emits P m]: whatever [m] adds to the trace satisfies [P]. *)
Definition emits {A} (P : event -> Prop) (m : M A) : Prop :=
  forall st, exists evs, trace (snd (m st)) = trace st ++ evs /\ Forall P evs.

(** A log record or a liveness probe: nothing that reads or writes the
    scenes or the picture. *)
Definition probing (e : event) : Prop :=
  match e with
  | Log _ _ => True
  | Request GetVersion => True
  | _ => False
  end.


(** A scene's item list with every item of the given name set to [v]. *)
Definition by_name (source_name : string) (visible : bool)
    (its : list SceneItem) : list SceneItem :=
  (fun c => if matches source_name c
            then mkItem (sourceName c) (sceneItemId c) visible
            else c) <$> its.

(** OBS is away: no handle, and a connection would be refused. *)
Definition away (st : State) : Prop :=
  obs_ws st = false /\ accepting (obs st) = false.

(** The messages a trace logs at level [ERROR], and at level [WARNING]. *)
Definition errors_logged (tr : list event) : list message :=
  omap (fun e => match e with Log ERROR m => Some m | _ => None end) tr.

Definition warnings_logged (tr : list event) : list message :=
  omap (fun e => match e with Log WARNING m => Some m | _ => None end) tr.

(** What a successful pass of [standby_mode] adds to the trace. *)
Definition reconnected : list event :=
  [Log INFO MConnected; Log INFO MConnectionEstablished;
   Request GetVersion; Log INFO MObsNowActive].




(** The preview window of the pass under way reads the key q. *)
Definition q_pressed (st : State) : bool :=
  match script st with
  | e :: _ => env_window_ok e && env_key_q e
  | [] => false
  end.

(** [preserves f m]: running [m] leaves the component [f] of the state
    as it was. *)
Definition preserves {A B} (f : State -> B) (m : M A) : Prop :=
  forall st, f (snd (m st)) = f st.

(** ** Basic facts *)

Lemma bind_run {A B} (m : M A) (k : A -> M B) st a st' :
  m st = (Return a, st') -> bind m k st = k a st'.
Proof. intros H. unfold bind. now rewrite H. Qed.

Lemma bind_raise {A B} (m : M A) (k : A -> M B) st e st' :
  m st = (Raise e, st') -> bind m k st = (Raise e, st').
Proof. intros H. unfold bind. now rewrite H. Qed.

Lemma enable_item_name i v it : sourceName (enable_item i v it) = sourceName it.
Proof. unfold enable_item. now destruct (Z.eqb _ _). Qed.

Lemma enable_item_id i v it : sceneItemId (enable_item i v it) = sceneItemId it.
Proof. unfold enable_item. now destruct (Z.eqb _ _). Qed.

Lemma mark_closed t v snap cur :
  mark t v snap cur =
  (fun c => if hit t snap (sceneItemId c)
            then mkItem (sourceName c) (sceneItemId c) v else c) <$> cur.
Proof.
  revert cur. induction snap as [|s snap IH]; intros cur.
  - simpl. now rewrite list_fmap_id.
  - unfold mark in *. simpl. rewrite IH. destruct (matches t s) eqn:Hm; simpl.
    + unfold set_enabled. rewrite <- list_fmap_compose.
      apply list_fmap_ext. intros _ c _. simpl.
      rewrite enable_item_id, enable_item_name. unfold enable_item.
      rewrite (Z.eqb_sym (sceneItemId s)).
      destruct (Z.eqb (sceneItemId c) (sceneItemId s)); simpl; [|reflexivity].
      now destruct (hit t snap (sceneItemId c)).
    + reflexivity.
Qed.

Lemma mark_synced t v its : mark t v its its = synced t v its.
Proof. apply mark_closed. Qed.

(** ** One scene's items *)

Lemma hit_spec t its i :
  hit t its i = true <->
  exists s, s ∈ its /\ sourceName s = t /\ sceneItemId s = i.
Proof.
  unfold hit, matches. rewrite existsb_exists. split.
  - intros (s & Hin & H). apply andb_true_iff in H as [H1 H2].
    exists s. rewrite list_elem_of_In. split; [done|].
    split; [now apply String.eqb_eq | now apply Z.eqb_eq].
  - intros (s & Hin & H1 & H2). exists s. rewrite <- list_elem_of_In.
    split; [done|]. apply andb_true_iff.
    split; [now apply String.eqb_eq | now apply Z.eqb_eq].
Qed.

Lemma skeleton_elem its s :
  s ∈ its -> (sourceName s, sceneItemId s) ∈ skeleton its.
Proof.
  intros H. unfold skeleton.
  now apply (list_elem_of_fmap_2 (fun it => (sourceName it, sceneItemId it))).
Qed.

Lemma skeleton_elem_inv its n i :
  (n, i) ∈ skeleton its -> exists s, s ∈ its /\ sourceName s = n /\ sceneItemId s = i.
Proof.
  unfold skeleton. intros H. apply list_elem_of_fmap in H as (s & Heq & Hin).
  exists s. inversion Heq. auto.
Qed.

Lemma hit_skeleton t a b i : skeleton a = skeleton b -> hit t a i = hit t b i.
Proof.
  intros Hsk. apply eq_true_iff_eq. rewrite !hit_spec.
  split; intros (s & Hin & H1 & H2).
  - apply skeleton_elem in Hin. rewrite Hsk, H1, H2 in Hin.
    now apply skeleton_elem_inv in Hin.
  - apply skeleton_elem in Hin. rewrite <- Hsk, H1, H2 in Hin.
    now apply skeleton_elem_inv in Hin.
Qed.

Lemma matching_ids_skeleton t a b :
  skeleton a = skeleton b -> matching_ids t a = matching_ids t b.
Proof.
  revert b. induction a as [|x a IH]; intros [|y b] Hsk; try discriminate; [done|].
  unfold skeleton in Hsk. simpl in Hsk. inversion Hsk as [[Hn Hi Hrest]].
  unfold matching_ids in *. simpl.
  assert (matches t x = matches t y) as -> by (unfold matches; now rewrite Hn).
  destruct (matches t y); simpl; [rewrite Hi; f_equal|]; now apply IH.
Qed.

Lemma skeleton_synced t v its : skeleton (synced t v its) = skeleton its.
Proof.
  unfold skeleton, synced. rewrite <- list_fmap_compose.
  apply list_fmap_ext. intros _ c _. simpl. now destruct (hit _ _ _).
Qed.

Lemma synced_idem t v its : synced t v (synced t v its) = synced t v its.
Proof.
  unfold synced at 1 2. rewrite <- list_fmap_compose.
  apply list_fmap_ext. intros _ c _. simpl.
  rewrite (hit_skeleton t _ its) by apply skeleton_synced.
  destruct (hit t its (sceneItemId c)) eqn:Hh; simpl; now rewrite Hh.
Qed.

Lemma synced_lookup t v its k :
  synced t v its !! k =
  (fun c => if hit t its (sceneItemId c)
            then mkItem (sourceName c) (sceneItemId c) v else c) <$> its !! k.
Proof. unfold synced. apply list_lookup_fmap. Qed.

(** Every item of the synchronised list that carries the target's name
    has the wanted visibility. *)
Lemma synced_converges t v its it :
  it ∈ synced t v its -> sourceName it = t -> sceneItemEnabled it = v.
Proof.
  unfold synced. intros Hin Hname.
  apply list_elem_of_fmap in Hin as (c & -> & Hc).
  destruct (hit t its (sceneItemId c)) eqn:Hh; [reflexivity|].
  exfalso. assert (hit t its (sceneItemId c) = true); [|congruence].
  apply hit_spec. now exists c.
Qed.

Lemma NoDup_ids_inj (its : list SceneItem) a b :
  NoDup (map sceneItemId its) -> a ∈ its -> b ∈ its ->
  sceneItemId a = sceneItemId b -> a = b.
Proof.
  induction its as [|x its IH]; intros Hnd Ha Hb Heq.
  - now apply elem_of_nil in Ha.
  - simpl in Hnd. apply NoDup_cons in Hnd as [Hx Hnd].
    apply elem_of_cons in Ha as [->|Ha]; apply elem_of_cons in Hb as [->|Hb].
    + reflexivity.
    + exfalso. apply Hx. rewrite Heq. now apply list_elem_of_fmap_2.
    + exfalso. apply Hx. rewrite <- Heq. now apply list_elem_of_fmap_2.
    + now apply IH.
Qed.

(** With scene-scoped ids an item of another name is left as it was. *)
Lemma synced_frame t v its k it :
  NoDup (map sceneItemId its) -> its !! k = Some it -> sourceName it <> t ->
  synced t v its !! k = Some it.
Proof.
  intros Hnd Hk Hname. rewrite synced_lookup, Hk. simpl.
  destruct (hit t its (sceneItemId it)) eqn:Hh; [|reflexivity].
  exfalso. apply hit_spec in Hh as (s & Hs & Hsn & Hsi).
  assert (s = it) as ->; [|contradiction].
  eapply NoDup_ids_inj; eauto. eapply list_elem_of_lookup_2; eauto.
Qed.

(** Names and ids stay in place, whatever happens to the flag. *)
Lemma synced_same_item t v its k it' :
  synced t v its !! k = Some it' ->
  exists it, its !! k = Some it /\ sourceName it' = sourceName it /\
             sceneItemId it' = sceneItemId it /\
             (sceneItemEnabled it' = sceneItemEnabled it \/
              (sceneItemEnabled it' = v /\ hit t its (sceneItemId it) = true)).
Proof.
  rewrite synced_lookup. destruct (its !! k) as [c|]; simpl; [|discriminate].
  intros [= <-]. exists c. split; [reflexivity|].
  destruct (hit t its (sceneItemId c)); simpl; auto.
Qed.

(** ** The scene map *)

Lemma sync_items_lookup t v l (m : gmap string (list SceneItem)) n :
  sync_items t v l m !! n =
  if bool_decide (n ∈ l) then synced t v <$> m !! n else m !! n.
Proof.
  revert m. induction l as [|x l IH]; intros m; [reflexivity|].
  unfold sync_items in *. simpl. rewrite IH. rewrite lookup_alter.
  destruct (decide (x = n)) as [->|Hne].
  - rewrite (bool_decide_eq_true_2 (n ∈ n :: l)) by (apply elem_of_cons; auto).
    destruct (m !! n) as [its|]; simpl; [|now destruct (bool_decide _)].
    destruct (bool_decide _); simpl; [now rewrite synced_idem | reflexivity].
  - destruct (bool_decide (n ∈ l)) eqn:Hl.
    + apply bool_decide_eq_true_1 in Hl.
      rewrite bool_decide_eq_true_2; [reflexivity | apply elem_of_cons; auto].
    + apply bool_decide_eq_false_1 in Hl.
      rewrite bool_decide_eq_false_2; [reflexivity|].
      intros H. apply elem_of_cons in H as [->|H]; contradiction.
Qed.

Lemma sync_items_idem t v l (m : gmap string (list SceneItem)) :
  sync_items t v l (sync_items t v l m) = sync_items t v l m.
Proof.
  apply map_eq. intros n. rewrite !sync_items_lookup.
  destruct (bool_decide _); [|reflexivity].
  destruct (m !! n); simpl; [now rewrite synced_idem | reflexivity].
Qed.

Lemma sync_items_snoc t v l n (m : gmap string (list SceneItem)) :
  sync_items t v (l ++ [n]) m = alter (synced t v) n (sync_items t v l m).
Proof. unfold sync_items. now rewrite fold_left_app. Qed.

(** ** What a synchronisation leaves alone *)

Lemma steady_refl st : steady st st.
Proof. split; [reflexivity|]. exists []. now rewrite app_nil_r. Qed.

Lemma steady_trans a b c : steady a b -> steady b c -> steady a c.
Proof.
  intros [Hb1 (e1 & Ht1 & Hx1 & Hc1)] [Hb2 (e2 & Ht2 & Hx2 & Hc2)].
  split; [congruence|]. exists (e1 ++ e2).
  rewrite Ht2, Ht1, <- app_assoc. split; [reflexivity|].
  unfold transitions, calls in *. rewrite !omap_app, Hx1, Hx2, Hc1, Hc2. auto.
Qed.

Lemma keeps_ret {A} (a : A) : keeps (ret a).
Proof. intros st. split; [apply steady_refl | discriminate]. Qed.

Lemma keeps_raise {A} : keeps (@raise A Error).
Proof. intros st. split; [apply steady_refl | discriminate]. Qed.

Lemma keeps_gets {A} (f : State -> A) : keeps (gets f).
Proof. intros st. split; [apply steady_refl | discriminate]. Qed.

Lemma keeps_bind {A B} (m : M A) (k : A -> M B) :
  keeps m -> (forall a, keeps (k a)) -> keeps (bind m k).
Proof.
  intros Hm Hk st. unfold bind. specialize (Hm st).
  destruct (m st) as [[a|e] st1]; simpl in *.
  - destruct Hm as [Hm _]. destruct (Hk a st1) as [H1 H2].
    split; [eapply steady_trans; eauto | exact H2].
  - destruct Hm as [Hm He]. split; [exact Hm|]. congruence.
Qed.

Lemma keeps_try_except {A} (m h : M A) :
  keeps m -> keeps h -> keeps (try_except m h).
Proof.
  intros Hm Hh st. unfold try_except. specialize (Hm st).
  destruct (m st) as [[a|[|]] st1]; simpl in *; try exact Hm.
  destruct Hm as [Hm _]. destruct (Hh st1) as [H1 H2].
  split; [eapply steady_trans; eauto | exact H2].
Qed.

Lemma keeps_for_each {A} (l : list A) (body : A -> M unit) :
  (forall x, keeps (body x)) -> keeps (for_each l body).
Proof.
  intros Hb. induction l as [|x l IH]; simpl.
  - apply keeps_ret.
  - apply keeps_bind; auto.
Qed.

Lemma keeps_modify (f : State -> State) :
  (forall st, steady st (f st)) -> keeps (modify f).
Proof. intros Hf st. split; [apply Hf | discriminate]. Qed.

Lemma steady_emit e st :
  transitions [e] = [] -> calls [e] = [] -> steady st (emit e st).
Proof. intros H1 H2. split; [reflexivity|]. now exists [e]. Qed.

Lemma keeps_call r : keeps (call r).
Proof.
  unfold call. apply keeps_bind; [apply keeps_gets|]. intros [|].
  - apply keeps_bind; [apply keeps_modify; intros; now apply steady_emit|].
    intros _. apply keeps_bind; [apply keeps_gets|].
    intros [|]; [apply keeps_ret | apply keeps_raise].
  - apply keeps_raise.
Qed.

Lemma steady_remote_set n i v st : steady st (with_obs (remote_set n i v) st).
Proof. split; [reflexivity|]. exists []. now rewrite app_nil_r. Qed.

Lemma steady_scenes_modified k st : steady st (with_scenes_modified k st).
Proof. split; [reflexivity|]. exists []. now rewrite app_nil_r. Qed.

Ltac keeps_step :=
  first
    [ apply keeps_ret
    | apply keeps_raise
    | apply keeps_gets
    | apply keeps_call
    | apply keeps_for_each; intros ?
    | apply keeps_try_except
    | apply keeps_bind; [|intros ?]
    | apply keeps_modify; intros ?;
      first [ apply steady_remote_set
            | apply steady_scenes_modified
            | apply steady_emit; reflexivity ]
    | match goal with |- keeps (if ?b then _ else _) => destruct b end
    | match goal with |- keeps (match ?o with Some _ => _ | None => _ end) => destruct o end ].

Ltac keeps_all := repeat keeps_step.

Lemma keeps_set_matching_items t v n its : keeps (set_matching_items t v n its).
Proof.
  unfold set_matching_items, call_SetSceneItemEnabled, log. keeps_all.
Qed.

Lemma keeps_GetSceneList : keeps call_GetSceneList.
Proof. unfold call_GetSceneList. keeps_all. Qed.

Lemma keeps_GetSceneItemList n : keeps (call_GetSceneItemList n).
Proof. unfold call_GetSceneItemList. keeps_all. Qed.

Lemma try_except_returns {A} (m h : M A) :
  keeps m -> (forall st, exists a, fst (h st) = Return a) ->
  forall st, exists a, fst (try_except m h st) = Return a.
Proof.
  intros Hm Hh st. unfold try_except. destruct (Hm st) as [_ Hk].
  destruct (m st) as [[a|[|]] st1]; simpl in *.
  - now exists a.
  - apply Hh.
  - congruence.
Qed.

(** The scene loops and what follows them, after the guard on the
    handle: both keep the backdrop. *)
Lemma keeps_switcher_scenes t v (ex l : list string) :
  keeps (for_each l (fun scene_name =>
    if bool_decide (scene_name ∈ ex) then
      log DEBUG (MSkippingExcluded scene_name)
    else
      try_except
        (scene_items <- call_GetSceneItemList scene_name ;;
         set_matching_items t v scene_name scene_items)
        (log DEBUG (MCouldNotModify t scene_name)))).
Proof.
  apply keeps_for_each. intros n. destruct (bool_decide _).
  - unfold log. keeps_all.
  - apply keeps_try_except.
    + apply keeps_bind; [apply keeps_GetSceneItemList|].
      intros its. apply keeps_set_matching_items.
    + unfold log. keeps_all.
Qed.

Lemma keeps_daemon_scenes t v (exs : option string) (l : list string) :
  keeps (for_each l (fun scene_name =>
    if truthy exs && bool_decide (Some scene_name = exs) then
      log DEBUG (MSkippingExcluded scene_name)
    else
      scene_items <- call_GetSceneItemList scene_name ;;
      set_matching_items t v scene_name scene_items)).
Proof.
  apply keeps_for_each. intros n. destruct (_ && _).
  - unfold log. keeps_all.
  - apply keeps_bind; [apply keeps_GetSceneItemList|].
    intros its. apply keeps_set_matching_items.
Qed.

(** Both synchronisations always return, and apart from recording their
    own invocation they are [steady]. *)
Lemma switcher_sync_returns t v ex st :
  exists b st',
    Switcher.set_source_visibility_global t v ex st = (Return b, st') /\
    steady (emit (Call t v ex) st) st'.
Proof.
  unfold Switcher.set_source_visibility_global.
  unfold bind at 1. unfold modify at 1.
  set (st0 := emit (Call t v ex) st).
  unfold bind at 1. unfold gets at 1.
  destruct (negb (obs_ws st0)).
  { exists false, st0. split; [reflexivity | apply steady_refl]. }
  match goal with |- context [try_except ?m ?h st0] =>
    assert (Hm : keeps m); [| assert (Hh : keeps h) ] end.
  { destruct (String.eqb t "").
    - unfold log. keeps_all.
    - apply keeps_bind; [apply keeps_GetSceneList|]. intros l.
      apply keeps_bind; [keeps_all|]. intros _.
      apply keeps_bind; [apply keeps_switcher_scenes|]. intros _.
      unfold log. keeps_all. }
  { unfold log. keeps_all. }
  match goal with |- context [try_except ?m ?h st0] =>
    destruct (try_except_returns m h Hm) with (st := st0) as [b Hb];
    [ intros s; eexists; reflexivity |];
    pose proof (keeps_try_except m h Hm Hh st0) as [Hs _];
    destruct (try_except m h st0) as [r st'] end.
  simpl in Hb. subst r. exists b, st'. auto.
Qed.

Lemma daemon_sync_returns t v exs st :
  exists b st',
    Daemon.set_source_visibility_global t v exs st = (Return b, st') /\
    steady (emit (Call t v (Daemon.excluded exs)) st) st'.
Proof.
  unfold Daemon.set_source_visibility_global.
  unfold bind at 1. unfold modify at 1.
  set (st0 := emit (Call t v (Daemon.excluded exs)) st).
  unfold bind at 1. unfold gets at 1.
  destruct (negb (obs_ws st0)).
  { exists false, st0. split; [reflexivity | apply steady_refl]. }
  match goal with |- context [try_except ?m ?h st0] =>
    assert (Hm : keeps m); [| assert (Hh : keeps h) ] end.
  { destruct (String.eqb t "").
    - unfold log. keeps_all.
    - apply keeps_bind; [apply keeps_GetSceneList|]. intros l.
      apply keeps_bind; [keeps_all|]. intros _.
      apply keeps_bind; [apply keeps_daemon_scenes|]. intros _.
      unfold log. keeps_all. }
  { unfold log. keeps_all. }
  match goal with |- context [try_except ?m ?h st0] =>
    destruct (try_except_returns m h Hm) with (st := st0) as [b Hb];
    [ intros s; eexists; reflexivity |];
    pose proof (keeps_try_except m h Hm Hh st0) as [Hs _];
    destruct (try_except m h st0) as [r st'] end.
  simpl in Hb. subst r. exists b, st'. auto.
Qed.

(** ** Running the loops while OBS answers *)

Lemma for_each_run {A} (step : State -> A -> State) (body : A -> M unit) l st :
  (forall s x, online s -> body x s = (Return tt, step s x) /\ online (step s x)) ->
  online st ->
  for_each l body st = (Return tt, fold_left step l st) /\
  online (fold_left step l st).
Proof.
  intros Hbody. revert st. induction l as [|x l IH]; intros st Hst; simpl.
  - split; [reflexivity | assumption].
  - destruct (Hbody st x Hst) as [Hrun Hon].
    rewrite (bind_run _ _ _ _ _ Hrun). now apply IH.
Qed.

Lemma call_ok r st :
  online st -> call r st = (Return tt, emit (Request r) st).
Proof.
  intros [Hws Hup]. unfold call, bind, gets, modify. simpl.
  rewrite Hws. simpl. now rewrite Hup.
Qed.

Lemma online_emit e st : online st -> online (emit e st).
Proof. intros H. exact H. Qed.

Lemma item_step_run t v n it st :
  online st ->
  (if String.eqb (sourceName it) t then
     call_SetSceneItemEnabled n (sceneItemId it) v ;;
     log DEBUG (MSetItem t v n) ;;
     modify (fun st => with_scenes_modified (S (scenes_modified st)) st)
   else ret tt) st = (Return tt, item_step t v n st it) /\
  online (item_step t v n st it).
Proof.
  intros Hon. unfold item_step, matches.
  destruct (String.eqb (sourceName it) t); [|split; [reflexivity | assumption]].
  split; [|exact Hon].
  unfold call_SetSceneItemEnabled.
  unfold bind at 1. unfold bind at 1. rewrite (call_ok _ _ Hon). reflexivity.
Qed.

Lemma set_matching_items_run t v n its st :
  online st ->
  set_matching_items t v n its st = (Return tt, fold_left (item_step t v n) its st) /\
  online (fold_left (item_step t v n) its st).
Proof.
  intros Hon. unfold set_matching_items. apply for_each_run; [|assumption].
  intros s x Hs. now apply item_step_run.
Qed.

Lemma GetSceneItemList_run n st :
  online st ->
  call_GetSceneItemList n st =
  (match scene_items (obs st) !! n with
   | Some its => Return its
   | None => Raise Error
   end, emit (Request (GetSceneItemList n)) st).
Proof.
  intros Hon. unfold call_GetSceneItemList.
  rewrite (bind_run _ _ _ _ _ (call_ok _ _ Hon)).
  unfold bind, gets. simpl. now destruct (scene_items (obs st) !! n).
Qed.

Lemma scene_step_run t v (ex : list string) n st :
  online st ->
  (if bool_decide (n ∈ ex) then
     log DEBUG (MSkippingExcluded n)
   else
     try_except
       (scene_items <- call_GetSceneItemList n ;;
        set_matching_items t v n scene_items)
       (log DEBUG (MCouldNotModify t n))) st
  = (Return tt, scene_step t v ex st n) /\
  online (scene_step t v ex st n).
Proof.
  intros Hon. unfold scene_step. destruct (bool_decide (n ∈ ex)).
  { split; [reflexivity | exact Hon]. }
  unfold try_except, bind. rewrite (GetSceneItemList_run _ _ Hon).
  change (obs (emit (Request (GetSceneItemList n)) st)) with (obs st).
  destruct (scene_items (obs st) !! n) as [its|].
  - destruct (set_matching_items_run t v n its
                (emit (Request (GetSceneItemList n)) st)) as [Hrun Hon'];
      [exact Hon|]. rewrite Hrun. split; [reflexivity | exact Hon'].
  - split; [reflexivity | exact Hon].
Qed.

(** *** What the item loop leaves behind *)

Lemma item_loop_items t v n its st :
  scene_items (obs (fold_left (item_step t v n) its st)) =
  alter (mark t v its) n (scene_items (obs st)).
Proof.
  revert st. induction its as [|x its IH]; intros st; simpl.
  - apply map_eq. intros k. rewrite lookup_alter.
    destruct (decide (n = k)) as [->|]; [|reflexivity].
    now destruct (scene_items (obs st) !! k).
  - rewrite IH. unfold item_step. unfold mark at 2. simpl.
    destruct (matches t x); [|reflexivity]. simpl.
    apply map_eq. intros k. rewrite !lookup_alter.
    destruct (decide (n = k)) as [->|]; [|reflexivity].
    destruct (decide (k = k)); [|congruence].
    now destruct (scene_items (obs st) !! k).
Qed.

Lemma item_loop_count t v n its st :
  scenes_modified (fold_left (item_step t v n) its st) =
  (scenes_modified st + length (matching_ids t its))%nat.
Proof.
  revert st. induction its as [|x its IH]; intros st; simpl.
  - unfold matching_ids. simpl. lia.
  - rewrite IH. unfold item_step, matching_ids. rewrite !length_fmap. simpl.
    destruct (matches t x); simpl; lia.
Qed.

Lemma item_loop_requests t v n its st :
  set_requests (trace (fold_left (item_step t v n) its st)) =
  set_requests (trace st) ++ ((fun i => (n, i, v)) <$> matching_ids t its).
Proof.
  revert st. induction its as [|x its IH]; intros st; simpl.
  - unfold matching_ids. simpl. now rewrite app_nil_r.
  - rewrite IH. unfold item_step, matching_ids. simpl.
    destruct (matches t x); [|reflexivity].
    unfold set_requests. simpl. rewrite !omap_app. simpl.
    rewrite app_nil_r, <- app_assoc. reflexivity.
Qed.

(** *** What the scene loop leaves behind *)

Lemma alter_absent {V} (f : V -> V) n (m : gmap string V) :
  m !! n = None -> alter f n m = m.
Proof.
  intros Hn. apply map_eq. intros k. rewrite lookup_alter.
  destruct (decide (n = k)) as [->|]; [|reflexivity]. now rewrite Hn.
Qed.

Lemma alter_mark t v n its (m : gmap string (list SceneItem)) :
  m !! n = Some its -> alter (mark t v its) n m = alter (synced t v) n m.
Proof.
  intros Hn. apply map_eq. intros k. rewrite !lookup_alter.
  destruct (decide (n = k)) as [->|]; [|reflexivity].
  rewrite Hn. simpl. now rewrite mark_synced.
Qed.

Lemma expected_sets_alter t v n (m : gmap string (list SceneItem)) l :
  expected_sets t v (alter (synced t v) n m) l = expected_sets t v m l.
Proof.
  unfold expected_sets. apply flat_map_ext. intros k. f_equal.
  rewrite lookup_alter. destruct (decide (n = k)) as [->|]; [|reflexivity].
  destruct (m !! k) as [its|]; simpl; [|reflexivity].
  apply matching_ids_skeleton, skeleton_synced.
Qed.

Lemma written_cons (ex : list string) n l :
  written ex (n :: l) =
  if bool_decide (n ∈ ex) then written ex l else n :: written ex l.
Proof. unfold written. simpl. now destruct (bool_decide (n ∈ ex)). Qed.

Lemma written_spec (ex : list string) l n :
  n ∈ written ex l <-> n ∈ l /\ n ∉ ex.
Proof.
  unfold written. rewrite list_elem_of_In, filter_In, <- list_elem_of_In.
  rewrite negb_true_iff, bool_decide_eq_false. tauto.
Qed.

Lemma scene_step_items t v (ex : list string) st n :
  scene_items (obs (scene_step t v ex st n)) =
  if bool_decide (n ∈ ex) then scene_items (obs st)
  else alter (synced t v) n (scene_items (obs st)).
Proof.
  unfold scene_step. destruct (bool_decide (n ∈ ex)); [reflexivity|].
  change (obs (emit (Request (GetSceneItemList n)) st)) with (obs st).
  destruct (scene_items (obs st) !! n) as [its|] eqn:Hn.
  - rewrite item_loop_items. now apply alter_mark.
  - symmetry. now apply alter_absent.
Qed.

Lemma scene_step_count t v (ex : list string) st n :
  scenes_modified (scene_step t v ex st n) =
  (scenes_modified st +
   length (expected_sets t v (scene_items (obs st)) (written ex [n])))%nat.
Proof.
  unfold scene_step, written, expected_sets. simpl.
  destruct (bool_decide (n ∈ ex)); simpl; [lia|].
  change (obs (emit (Request (GetSceneItemList n)) st)) with (obs st).
  rewrite app_nil_r, length_fmap.
  destruct (scene_items (obs st) !! n) as [its|]; simpl.
  - now rewrite item_loop_count.
  - unfold matching_ids. simpl. lia.
Qed.

Lemma scene_step_requests t v (ex : list string) st n :
  set_requests (trace (scene_step t v ex st n)) =
  set_requests (trace st) ++
  expected_sets t v (scene_items (obs st)) (written ex [n]).
Proof.
  unfold scene_step, written, expected_sets. simpl.
  destruct (bool_decide (n ∈ ex)); simpl.
  { unfold set_requests. rewrite omap_app. reflexivity. }
  change (obs (emit (Request (GetSceneItemList n)) st)) with (obs st).
  rewrite app_nil_r.
  destruct (scene_items (obs st) !! n) as [its|]; simpl.
  - rewrite item_loop_requests. simpl. unfold set_requests.
    rewrite omap_app. simpl. now rewrite app_nil_r.
  - unfold set_requests. rewrite !omap_app. simpl.
    unfold matching_ids. simpl. now rewrite !app_nil_r.
Qed.

Lemma expected_sets_step t v (ex : list string) st n l :
  expected_sets t v (scene_items (obs (scene_step t v ex st n))) l =
  expected_sets t v (scene_items (obs st)) l.
Proof.
  rewrite scene_step_items. destruct (bool_decide _); [reflexivity|].
  apply expected_sets_alter.
Qed.

Lemma expected_sets_written_cons t v m (ex : list string) n l :
  expected_sets t v m (written ex (n :: l)) =
  expected_sets t v m (written ex [n]) ++ expected_sets t v m (written ex l).
Proof.
  rewrite written_cons. unfold written at 2. simpl.
  destruct (bool_decide (n ∈ ex)); simpl; [reflexivity|].
  unfold expected_sets. simpl. now rewrite app_nil_r.
Qed.

Lemma scene_loop_items t v (ex : list string) l st :
  scene_items (obs (fold_left (scene_step t v ex) l st)) =
  sync_items t v (written ex l) (scene_items (obs st)).
Proof.
  revert st. induction l as [|n l IH]; intros st; [reflexivity|].
  simpl fold_left. rewrite IH, scene_step_items, written_cons.
  now destruct (bool_decide (n ∈ ex)).
Qed.

Lemma scene_loop_count t v (ex : list string) l st :
  scenes_modified (fold_left (scene_step t v ex) l st) =
  (scenes_modified st +
   length (expected_sets t v (scene_items (obs st)) (written ex l)))%nat.
Proof.
  revert st. induction l as [|n l IH]; intros st; [simpl; lia|].
  simpl fold_left. rewrite IH, scene_step_count, expected_sets_step.
  rewrite (expected_sets_written_cons _ _ _ _ n l), length_app. lia.
Qed.

Lemma scene_loop_requests t v (ex : list string) l st :
  set_requests (trace (fold_left (scene_step t v ex) l st)) =
  set_requests (trace st) ++
  expected_sets t v (scene_items (obs st)) (written ex l).
Proof.
  revert st. induction l as [|n l IH]; intros st.
  { simpl. now rewrite app_nil_r. }
  simpl fold_left. rewrite IH, scene_step_requests, expected_sets_step.
  now rewrite (expected_sets_written_cons _ _ _ _ n l), app_assoc.
Qed.

Lemma switcher_scenes_run t v (ex : list string) l st :
  online st ->
  for_each l (fun scene_name =>
    if bool_decide (scene_name ∈ ex) then
      log DEBUG (MSkippingExcluded scene_name)
    else
      try_except
        (scene_items <- call_GetSceneItemList scene_name ;;
         set_matching_items t v scene_name scene_items)
        (log DEBUG (MCouldNotModify t scene_name))) st
  = (Return tt, fold_left (scene_step t v ex) l st).
Proof.
  intros Hon.
  apply (for_each_run (scene_step t v ex)); [|assumption].
  intros s n Hs. now apply scene_step_run.
Qed.

(** ** fs_source.py: the four ways through [set_source_visibility_global] *)

Lemma GetSceneList_run st :
  online st ->
  call_GetSceneList st = (Return (scene_list (obs st)), emit (Request GetSceneList) st).
Proof.
  intros Hon. unfold call_GetSceneList.
  now rewrite (bind_run _ _ _ _ _ (call_ok _ _ Hon)).
Qed.

Lemma switcher_sync_unconnected t v ex st :
  obs_ws st = false ->
  Switcher.set_source_visibility_global t v ex st =
  (Return false, emit (Call t v ex) st).
Proof.
  intros Hws. unfold Switcher.set_source_visibility_global, bind, modify, gets.
  simpl. now rewrite Hws.
Qed.

Lemma switcher_sync_unnamed v ex st :
  obs_ws st = true ->
  Switcher.set_source_visibility_global "" v ex st =
  (Return false, emit (Log WARNING MSourceNameNotConfigured) (emit (Call "" v ex) st)).
Proof.
  intros Hws. unfold Switcher.set_source_visibility_global, bind, modify, gets.
  simpl. now rewrite Hws.
Qed.

Lemma switcher_sync_down t v ex st :
  obs_ws st = true -> responsive (obs st) = false -> t <> "" ->
  Switcher.set_source_visibility_global t v ex st =
  (Return false,
   emit (Log ERROR MToggleFailed)
        (emit (Request GetSceneList) (emit (Call t v ex) st))).
Proof.
  intros Hws Hup Hne. apply String.eqb_neq in Hne.
  unfold Switcher.set_source_visibility_global, bind, modify, gets.
  simpl. rewrite Hws. simpl. unfold try_except. rewrite Hne.
  unfold call_GetSceneList, call, bind, gets, modify. simpl.
  rewrite Hws. simpl. now rewrite Hup.
Qed.

Lemma try_except_return {A} (m h : M A) st a st' :
  m st = (Return a, st') -> try_except m h st = (Return a, st').
Proof. intros H. unfold try_except. now rewrite H. Qed.

Lemma try_except_error {A} (m h : M A) st st' :
  m st = (Raise Error, st') -> try_except m h st = h st'.
Proof. intros H. unfold try_except. now rewrite H. Qed.

Lemma try_except_passes {A} (m h : M A) st st' :
  m st = (Raise KeyboardInterrupt, st') ->
  try_except m h st = (Raise KeyboardInterrupt, st').
Proof. intros H. unfold try_except. now rewrite H. Qed.

Lemma switcher_sync_online t v ex st :
  online st -> t <> "" ->
  Switcher.set_source_visibility_global t v ex st =
  let st2 := sync_scenes t v ex st in
  if Nat.ltb 0 (scenes_modified st2)
  then (Return true, emit (Log INFO (MSetVisibility t v (scenes_modified st2))) st2)
  else (Return false, emit (Log WARNING (MNotFoundInAnyScene t)) st2).
Proof.
  intros Hon Hne. apply String.eqb_neq in Hne. pose proof Hon as [Hws Hup].
  unfold Switcher.set_source_visibility_global.
  erewrite bind_run by reflexivity.
  erewrite bind_run by reflexivity.
  change (obs_ws (emit (Call t v ex) st)) with (obs_ws st).
  rewrite Hws, Hne. change (negb true) with false. cbv iota zeta.
  match goal with |- try_except ?m ?h ?s = ?rhs =>
    assert (Hbody : m s = rhs); [| destruct (Nat.ltb _ _);
      now rewrite (try_except_return _ _ _ _ _ Hbody) ] end.
  erewrite bind_run by (apply GetSceneList_run; exact Hon).
  erewrite bind_run by reflexivity.
  change (scene_list (obs (emit (Call t v ex) st))) with (scene_list (obs st)).
  erewrite bind_run by (apply switcher_scenes_run; exact Hon).
  fold (sync_begin t v ex st). fold (sync_scenes t v ex st).
  erewrite bind_run by reflexivity.
  destruct (Nat.ltb 0 (scenes_modified (sync_scenes t v ex st))); reflexivity.
Qed.

Lemma obs_of_backdrop st st' :
  backdrop st' = backdrop st ->
  obs st' = mkRemote (responsive (obs st)) (accepting (obs st)) (screenshot (obs st))
                     (scene_list (obs st)) (scene_items (obs st')).
Proof.
  unfold backdrop. intros H. injection H as _ _ _ _ _ _ _ H1 H2 H3 H4.
  destruct (obs st'). simpl in *. congruence.
Qed.

Lemma remote_sync_nil t v r : remote_sync t v [] r = r.
Proof. now destruct r. Qed.

Lemma remote_sync_idem t v l r :
  remote_sync t v l (remote_sync t v l r) = remote_sync t v l r.
Proof. unfold remote_sync. simpl. now rewrite sync_items_idem. Qed.

(** ** fs_source_daemon.py: the ways through [set_source_visibility_global] *)

Lemma daemon_excluded_test exs n :
  truthy exs && bool_decide (Some n = exs) = bool_decide (n ∈ Daemon.excluded exs).
Proof.
  destruct exs as [s|]; [|reflexivity].
  unfold truthy, Daemon.excluded. destruct (String.eqb s "") eqn:Hs.
  - reflexivity.
  - change (negb false && ?b) with b.
    apply bool_decide_ext. rewrite list_elem_of_singleton.
    split; [now intros [= ->] | now intros ->].
Qed.

Lemma daemon_sync_unconnected t v exs st :
  obs_ws st = false ->
  Daemon.set_source_visibility_global t v exs st =
  (Return false, emit (Call t v (Daemon.excluded exs)) st).
Proof.
  intros Hws. unfold Daemon.set_source_visibility_global, bind, modify, gets.
  simpl. now rewrite Hws.
Qed.

Lemma daemon_sync_unnamed v exs st :
  obs_ws st = true ->
  Daemon.set_source_visibility_global "" v exs st =
  (Return false,
   emit (Log WARNING MSourceNameNotConfigured)
        (emit (Call "" v (Daemon.excluded exs)) st)).
Proof.
  intros Hws. unfold Daemon.set_source_visibility_global, bind, modify, gets.
  simpl. now rewrite Hws.
Qed.

Lemma daemon_sync_down t v exs st :
  obs_ws st = true -> responsive (obs st) = false -> t <> "" ->
  Daemon.set_source_visibility_global t v exs st =
  (Return false,
   emit (Log ERROR MToggleFailed)
        (emit (Request GetSceneList) (emit (Call t v (Daemon.excluded exs)) st))).
Proof.
  intros Hws Hup Hne. apply String.eqb_neq in Hne.
  unfold Daemon.set_source_visibility_global, bind, modify, gets.
  simpl. rewrite Hws. simpl. unfold try_except. rewrite Hne.
  unfold call_GetSceneList, call, bind, gets, modify. simpl.
  rewrite Hws. simpl. now rewrite Hup.
Qed.

(** The daemon's scene loop stops at the first scene it cannot fetch. *)
Lemma daemon_scenes_general t v (exs : option string) (l : list string) st :
  online st ->
  exists l1 r st',
    for_each l (fun scene_name =>
      if truthy exs && bool_decide (Some scene_name = exs) then
        log DEBUG (MSkippingExcluded scene_name)
      else
        scene_items <- call_GetSceneItemList scene_name ;;
        set_matching_items t v scene_name scene_items) st = (r, st') /\
    (forall n, n ∈ l1 -> n ∈ l) /\
    (st' = fold_left (scene_step t v (Daemon.excluded exs)) l1 st \/
     exists n, st' = emit (Request (GetSceneItemList n))
                          (fold_left (scene_step t v (Daemon.excluded exs)) l1 st)) /\
    (r = Return tt -> l1 = l /\
       st' = fold_left (scene_step t v (Daemon.excluded exs)) l st).
Proof.
  revert st. induction l as [|n l IH]; intros st Hon.
  { exists [], (Return tt), st. simpl. repeat split; auto. }
  simpl for_each. rewrite daemon_excluded_test.
  assert (Hstep : online (scene_step t v (Daemon.excluded exs) st n)).
  { now apply (scene_step_run t v (Daemon.excluded exs) n st). }
  assert (Hcons : forall l1 : list string,
             (forall k, k ∈ l1 -> k ∈ l) -> forall k, k ∈ n :: l1 -> k ∈ n :: l).
  { intros l1 H k Hk. apply elem_of_cons in Hk as [->|Hk]; apply elem_of_cons; auto. }
  assert (Hnext : forall body : M unit,
             body st = (Return tt, scene_step t v (Daemon.excluded exs) st n) ->
             exists l1 r st',
               bind body (fun _ => for_each l (fun scene_name =>
                 if truthy exs && bool_decide (Some scene_name = exs) then
                   log DEBUG (MSkippingExcluded scene_name)
                 else
                   scene_items <- call_GetSceneItemList scene_name ;;
                   set_matching_items t v scene_name scene_items)) st = (r, st') /\
               (forall k, k ∈ l1 -> k ∈ n :: l) /\
               (st' = fold_left (scene_step t v (Daemon.excluded exs)) l1 st \/
                exists k, st' = emit (Request (GetSceneItemList k))
                            (fold_left (scene_step t v (Daemon.excluded exs)) l1 st)) /\
               (r = Return tt -> l1 = n :: l /\
                  st' = fold_left (scene_step t v (Daemon.excluded exs)) (n :: l) st)).
  { intros body Hb. rewrite (bind_run _ _ _ _ _ Hb).
    destruct (IH _ Hstep) as (l1 & r & st' & Hrun & Hin & Hst & Hret).
    exists (n :: l1), r, st'. split; [exact Hrun|].
    split; [now apply Hcons|]. simpl fold_left. split; [exact Hst|].
    intros Hr. destruct (Hret Hr) as [-> ->]. auto. }
  destruct (bool_decide (n ∈ Daemon.excluded exs)) eqn:Hex.
  - apply Hnext. unfold scene_step. now rewrite Hex.
  - destruct (scene_items (obs st) !! n) as [its|] eqn:Hn.
    + apply Hnext. unfold scene_step. rewrite Hex.
      change (obs (emit (Request (GetSceneItemList n)) st)) with (obs st).
      rewrite Hn.
      erewrite bind_run; cycle 1.
      { rewrite (GetSceneItemList_run _ _ Hon), Hn. reflexivity. }
      apply set_matching_items_run. exact Hon.
    + erewrite bind_raise; cycle 1.
      { erewrite bind_raise; [reflexivity|].
        rewrite (GetSceneItemList_run _ _ Hon), Hn. reflexivity. }
      exists [], (Raise Error), (emit (Request (GetSceneItemList n)) st).
      split; [reflexivity|]. split; [intros k Hk; now apply elem_of_nil in Hk|].
      split; [right; now exists n | discriminate].
Qed.

Lemma is_Some_alter {V} (f : V -> V) n k (m : gmap string V) :
  is_Some (alter f n m !! k) <-> is_Some (m !! k).
Proof.
  rewrite lookup_alter. destruct (decide (n = k)) as [->|]; [|reflexivity].
  now rewrite fmap_is_Some.
Qed.

Lemma scene_step_is_Some t v (ex : list string) st n k :
  is_Some (scene_items (obs (scene_step t v ex st n)) !! k) <->
  is_Some (scene_items (obs st) !! k).
Proof.
  rewrite scene_step_items. destruct (bool_decide _); [reflexivity|].
  apply is_Some_alter.
Qed.

(** When every scene it writes to can be fetched, the daemon's loop does
    what the loop of fs_source.py does. *)
Lemma daemon_scenes_run t v (exs : option string) (l : list string) st :
  online st ->
  (forall n, n ∈ l -> n ∉ Daemon.excluded exs -> is_Some (scene_items (obs st) !! n)) ->
  for_each l (fun scene_name =>
    if truthy exs && bool_decide (Some scene_name = exs) then
      log DEBUG (MSkippingExcluded scene_name)
    else
      scene_items <- call_GetSceneItemList scene_name ;;
      set_matching_items t v scene_name scene_items) st
  = (Return tt, fold_left (scene_step t v (Daemon.excluded exs)) l st).
Proof.
  revert st. induction l as [|n l IH]; intros st Hon Hall; [reflexivity|].
  simpl for_each. rewrite daemon_excluded_test.
  assert (Hstep : online (scene_step t v (Daemon.excluded exs) st n)).
  { now apply (scene_step_run t v (Daemon.excluded exs) n st). }
  assert (Hrest : forall k, k ∈ l -> k ∉ Daemon.excluded exs ->
            is_Some (scene_items (obs (scene_step t v (Daemon.excluded exs) st n)) !! k)).
  { intros k Hk Hx. apply scene_step_is_Some, Hall; [|exact Hx].
    apply elem_of_cons. auto. }
  simpl fold_left.
  erewrite bind_run; [apply (IH _ Hstep Hrest)|]. unfold scene_step.
  destruct (bool_decide (n ∈ Daemon.excluded exs)) eqn:Hex; [reflexivity|].
  apply bool_decide_eq_false_1 in Hex.
  destruct (Hall n) as [its Hn]; [apply elem_of_cons; auto | exact Hex |].
  change (obs (emit (Request (GetSceneItemList n)) st)) with (obs st).
  rewrite Hn. erewrite bind_run; cycle 1.
  { rewrite (GetSceneItemList_run _ _ Hon), Hn. reflexivity. }
  apply set_matching_items_run. exact Hon.
Qed.

Lemma daemon_sync_healthy t v exs st :
  online st -> t <> "" -> fetchable (Daemon.excluded exs) (obs st) ->
  Daemon.set_source_visibility_global t v exs st =
  let st2 := sync_scenes t v (Daemon.excluded exs) st in
  if Nat.ltb 0 (scenes_modified st2)
  then (Return true, emit (Log INFO (MSetVisibility t v (scenes_modified st2))) st2)
  else (Return false, emit (Log DEBUG (MNotFoundInAnyScene t)) st2).
Proof.
  intros Hon Hne Hfetch. apply String.eqb_neq in Hne. pose proof Hon as [Hws Hup].
  unfold Daemon.set_source_visibility_global.
  erewrite bind_run by reflexivity.
  erewrite bind_run by reflexivity.
  change (obs_ws (emit (Call t v (Daemon.excluded exs)) st)) with (obs_ws st).
  rewrite Hws, Hne. change (negb true) with false. cbv iota zeta.
  match goal with |- try_except ?m ?h ?s = ?rhs =>
    assert (Hbody : m s = rhs); [| destruct (Nat.ltb _ _);
      now rewrite (try_except_return _ _ _ _ _ Hbody) ] end.
  erewrite bind_run by (apply GetSceneList_run; exact Hon).
  erewrite bind_run by reflexivity.
  change (scene_list (obs (emit (Call t v (Daemon.excluded exs)) st)))
    with (scene_list (obs st)).
  erewrite bind_run
    by (apply daemon_scenes_run;
        [exact Hon | exact (proj1 (Forall_forall _ _) Hfetch)]).
  fold (sync_begin t v (Daemon.excluded exs) st).
  fold (sync_scenes t v (Daemon.excluded exs) st).
  erewrite bind_run by reflexivity.
  destruct (Nat.ltb 0 (scenes_modified (sync_scenes t v (Daemon.excluded exs) st)));
    reflexivity.
Qed.

(** Whatever the loop meets, the daemon ends in the state its loop
    stopped in, plus one log record. *)
Lemma daemon_sync_online t v exs st :
  online st -> t <> "" ->
  exists (l1 : list string) st3 lv msg,
    snd (Daemon.set_source_visibility_global t v exs st) = emit (Log lv msg) st3 /\
    (forall n, n ∈ l1 -> n ∈ scene_list (obs st)) /\
    (st3 = fold_left (scene_step t v (Daemon.excluded exs)) l1
             (sync_begin t v (Daemon.excluded exs) st) \/
     exists n, st3 = emit (Request (GetSceneItemList n))
                 (fold_left (scene_step t v (Daemon.excluded exs)) l1
                    (sync_begin t v (Daemon.excluded exs) st))).
Proof.
  intros Hon Hne. apply String.eqb_neq in Hne. pose proof Hon as [Hws Hup].
  destruct (daemon_scenes_general t v exs (scene_list (obs st))
              (sync_begin t v (Daemon.excluded exs) st) Hon)
    as (l1 & r & st3 & Hloop & Hin & Hst & _).
  unfold Daemon.set_source_visibility_global.
  erewrite bind_run by reflexivity.
  erewrite bind_run by reflexivity.
  change (obs_ws (emit (Call t v (Daemon.excluded exs)) st)) with (obs_ws st).
  rewrite Hws, Hne. change (negb true) with false. cbv iota zeta.
  match goal with |- context [try_except ?m ?h ?s] =>
    assert (Hbody : m s =
      match r with
      | Return _ =>
          if Nat.ltb 0 (scenes_modified st3)
          then (Return true, emit (Log INFO (MSetVisibility t v (scenes_modified st3))) st3)
          else (Return false, emit (Log DEBUG (MNotFoundInAnyScene t)) st3)
      | Raise e => (Raise e, st3)
      end) end.
  { erewrite bind_run by (apply GetSceneList_run; exact Hon).
    erewrite bind_run by reflexivity.
    change (scene_list (obs (emit (Call t v (Daemon.excluded exs)) st)))
      with (scene_list (obs st)).
    fold (sync_begin t v (Daemon.excluded exs) st).
    destruct r as [[]|e].
    - erewrite bind_run by exact Hloop.
      erewrite bind_run by reflexivity.
      destruct (Nat.ltb 0 (scenes_modified st3)); reflexivity.
    - erewrite bind_raise by exact Hloop. reflexivity. }
  destruct r as [[]|[|]].
  - destruct (Nat.ltb 0 (scenes_modified st3));
      rewrite (try_except_return _ _ _ _ _ Hbody); eauto 10.
  - rewrite (try_except_error _ _ _ _ Hbody). simpl. eauto 10.
  - exfalso. pose proof (keeps_daemon_scenes t v exs (scene_list (obs st))
                           (sync_begin t v (Daemon.excluded exs) st)) as [_ Hk].
    rewrite Hloop in Hk. now apply Hk.
Qed.

(** ** The effect of a synchronisation on the remote *)

Lemma item_loop_backdrop t v n its st :
  backdrop (fold_left (item_step t v n) its st) = backdrop st.
Proof.
  revert st. induction its as [|x its IH]; intros st; [reflexivity|].
  simpl. rewrite IH. unfold item_step. now destruct (matches t x).
Qed.

Lemma scene_loop_backdrop t v (ex : list string) l st :
  backdrop (fold_left (scene_step t v ex) l st) = backdrop st.
Proof.
  revert st. induction l as [|n l IH]; intros st; [reflexivity|].
  simpl. rewrite IH. unfold scene_step.
  destruct (bool_decide (n ∈ ex)); [reflexivity|].
  destruct (scene_items _ !! n); [|reflexivity].
  now rewrite item_loop_backdrop.
Qed.

Lemma set_requests_snoc tr e :
  set_requests (tr ++ [e]) =
  set_requests tr ++ match e with
                     | Request (SetSceneItemEnabled n i v) => [(n, i, v)]
                     | _ => []
                     end.
Proof.
  unfold set_requests. rewrite omap_app. f_equal.
  destruct e as [[]| |]; reflexivity.
Qed.

Lemma scene_loop_effect t v (ex : list string) l1 st :
  let X := fold_left (scene_step t v ex) l1 (sync_begin t v ex st) in
  obs X = remote_sync t v (written ex l1) (obs st) /\
  set_requests (trace X) =
    set_requests (trace st) ++ expected_sets t v (scene_items (obs st)) (written ex l1) /\
  scenes_modified X =
    length (expected_sets t v (scene_items (obs st)) (written ex l1)).
Proof.
  intros X. subst X. split; [|split].
  - rewrite (obs_of_backdrop (sync_begin t v ex st)) by apply scene_loop_backdrop.
    rewrite scene_loop_items. reflexivity.
  - rewrite scene_loop_requests. unfold sync_begin. simpl.
    now rewrite !set_requests_snoc, !app_nil_r.
  - rewrite scene_loop_count. reflexivity.
Qed.

Lemma sync_effect_nothing t v ex st st' :
  obs st' = obs st -> set_requests (trace st') = set_requests (trace st) ->
  sync_effect t v ex st st'.
Proof.
  intros Ho Ht. exists []. split; [intros n Hn; now apply elem_of_nil in Hn|].
  rewrite remote_sync_nil, Ho, Ht. simpl. now rewrite app_nil_r.
Qed.

Lemma sync_effect_written t v (ex l1 : list string) st st' :
  (forall n, n ∈ l1 -> n ∈ scene_list (obs st)) ->
  obs st' = remote_sync t v (written ex l1) (obs st) ->
  set_requests (trace st') =
    set_requests (trace st) ++ expected_sets t v (scene_items (obs st)) (written ex l1) ->
  sync_effect t v ex st st'.
Proof.
  intros Hin Ho Ht. exists (written ex l1). split; [|split; assumption].
  intros n Hn. apply written_spec in Hn as [Hn Hx]. auto.
Qed.

Lemma switcher_sync_effect t v ex st :
  sync_effect t v ex st (snd (Switcher.set_source_visibility_global t v ex st)).
Proof.
  destruct (obs_ws st) eqn:Hws.
  2:{ rewrite switcher_sync_unconnected by exact Hws.
      apply sync_effect_nothing; [reflexivity|]. simpl.
      now rewrite set_requests_snoc, app_nil_r. }
  destruct (String.eqb_spec t "") as [->|Hne].
  { rewrite switcher_sync_unnamed by exact Hws.
    apply sync_effect_nothing; [reflexivity|]. simpl.
    now rewrite !set_requests_snoc, !app_nil_r. }
  destruct (responsive (obs st)) eqn:Hup.
  2:{ rewrite switcher_sync_down by assumption.
      apply sync_effect_nothing; [reflexivity|]. simpl.
      now rewrite !set_requests_snoc, !app_nil_r. }
  rewrite switcher_sync_online by (try split; assumption).
  destruct (scene_loop_effect t v ex (scene_list (obs st)) st) as (Ho & Ht & _).
  cbv zeta. unfold sync_scenes.
  apply (sync_effect_written t v ex (scene_list (obs st))); [auto| |];
    destruct (Nat.ltb _ _); simpl; try exact Ho;
    now rewrite set_requests_snoc, app_nil_r.
Qed.

Lemma daemon_sync_effect t v exs st :
  sync_effect t v (Daemon.excluded exs) st
              (snd (Daemon.set_source_visibility_global t v exs st)).
Proof.
  destruct (obs_ws st) eqn:Hws.
  2:{ rewrite daemon_sync_unconnected by exact Hws.
      apply sync_effect_nothing; [reflexivity|]. simpl.
      now rewrite set_requests_snoc, app_nil_r. }
  destruct (String.eqb_spec t "") as [->|Hne].
  { rewrite daemon_sync_unnamed by exact Hws.
    apply sync_effect_nothing; [reflexivity|]. simpl.
    now rewrite !set_requests_snoc, !app_nil_r. }
  destruct (responsive (obs st)) eqn:Hup.
  2:{ rewrite daemon_sync_down by assumption.
      apply sync_effect_nothing; [reflexivity|]. simpl.
      now rewrite !set_requests_snoc, !app_nil_r. }
  destruct (daemon_sync_online t v exs st) as (l1 & st3 & lv & msg & -> & Hin & Hst);
    [split; assumption | assumption |].
  destruct (scene_loop_effect t v (Daemon.excluded exs) l1 st) as (Ho & Ht & _).
  apply (sync_effect_written t v (Daemon.excluded exs) l1); [exact Hin| |];
    destruct Hst as [->|[n ->]]; simpl; try exact Ho;
    now rewrite ?set_requests_snoc, ?app_nil_r.
Qed.

(** *** The frame that follows from an effect *)

Lemma expected_sets_elem t v (m : gmap string (list SceneItem)) l n i v' :
  (n, i, v') ∈ expected_sets t v m l ->
  n ∈ l /\ v' = v /\
  exists its it, m !! n = Some its /\ it ∈ its /\
                 sceneItemId it = i /\ sourceName it = t.
Proof.
  unfold expected_sets. rewrite list_elem_of_In, in_flat_map.
  intros (k & Hk & Hin). apply list_elem_of_In in Hk. apply list_elem_of_In in Hin.
  apply list_elem_of_fmap in Hin as (j & [= -> -> ->] & Hj).
  split; [exact Hk|]. split; [reflexivity|].
  unfold matching_ids in Hj. apply list_elem_of_fmap in Hj as (it & -> & Hit).
  rewrite list_elem_of_In, filter_In, <- list_elem_of_In in Hit.
  destruct Hit as [Hit Hm]. unfold matches in Hm. apply String.eqb_eq in Hm.
  destruct (m !! k) as [its|]; simpl in Hit; [|now apply elem_of_nil in Hit].
  exists its, it. auto.
Qed.

Lemma effect_untouched t v ex st st' :
  scoped_ids (obs st) -> sync_effect t v ex st st' -> untouched t ex st st'.
Proof.
  intros Hids (l1 & Hl1 & Ho & _) n its Hn. rewrite Ho. simpl.
  rewrite sync_items_lookup, Hn.
  destruct (bool_decide (n ∈ l1)) eqn:Hin; simpl.
  - apply bool_decide_eq_true_1 in Hin. destruct (Hl1 n Hin) as [_ Hx].
    exists (synced t v its). split; [reflexivity|].
    split; [apply length_fmap|].
    intros k it Hk [Hname|Hex]; [|contradiction].
    apply synced_frame; [exact (Hids n its Hn) | exact Hk | exact Hname].
  - exists its. auto.
Qed.

Lemma effect_targeted t v ex st st' :
  sync_effect t v ex st st' -> targeted t v ex st st'.
Proof.
  intros (l1 & Hl1 & _ & Ht).
  exists (expected_sets t v (scene_items (obs st)) l1). split; [exact Ht|].
  intros n i v' Hin. apply expected_sets_elem in Hin as (Hn & -> & Hit).
  destruct (Hl1 n Hn) as [_ Hx]. auto.
Qed.

(** ** Claims about [set_source_visibility_global] *)

(** The two files on the same studio with a broken scene B: fs_source.py
    skips B and still reaches C. *)
Lemma switcher_skips_broken_scene :
  let r := Switcher.set_source_visibility_global "Cam" true [] (connected studio_broken) in
  fst r = Return true /\
  scene_items (obs (snd r)) !! "A" = Some [mkItem "Cam" 1 true; mkItem "Mic" 2 true] /\
  scene_items (obs (snd r)) !! "C" = Some [mkItem "Cam" 3 true] /\
  requests (trace (snd r)) =
    [GetSceneList; GetSceneItemList "A"; SetSceneItemEnabled "A" 1 true;
     GetSceneItemList "B"; GetSceneItemList "C"; SetSceneItemEnabled "C" 3 true].
Proof. vm_compute. repeat split. Qed.

(** C1: a scene whose item list cannot be fetched is to be skipped, the
    loop going on over the remaining scenes.  fs_source.py does that;
    fs_source_daemon.py does not (code defect): its item-list request is
    not guarded, so the first scene whose list cannot be fetched ends the
    whole call.  With scenes A, B, C where B is broken, the daemon
    updates A, gives up at B, never asks for C, leaves C's camera
    disabled and answers [False]. *)
Theorem C1_daemon_aborts_at_broken_scene :
  let r := Daemon.set_source_visibility_global "Cam" true None (connected studio_broken) in
  fst r = Return false /\
  scene_items (obs (snd r)) !! "A" = Some [mkItem "Cam" 1 true; mkItem "Mic" 2 true] /\
  scene_items (obs (snd r)) !! "C" = Some [mkItem "Cam" 3 false] /\
  requests (trace (snd r)) =
    [GetSceneList; GetSceneItemList "A"; SetSceneItemEnabled "A" 1 true;
     GetSceneItemList "B"].
Proof. vm_compute. repeat split. Qed.

(** C9: without a websocket handle both synchronisations answer [False]
    at once: no exception, no request sent, the remote as it was. *)
Theorem C9_no_handle_no_effect t v ex exs st :
  obs_ws st = false ->
  let s := Switcher.set_source_visibility_global t v ex st in
  let d := Daemon.set_source_visibility_global t v exs st in
  (fst s = Return false /\ obs (snd s) = obs st /\
   requests (trace (snd s)) = requests (trace st)) /\
  (fst d = Return false /\ obs (snd d) = obs st /\
   requests (trace (snd d)) = requests (trace st)).
Proof.
  intros Hws. cbv zeta.
  rewrite switcher_sync_unconnected, daemon_sync_unconnected by exact Hws.
  simpl. unfold requests. rewrite !omap_app. simpl. rewrite !app_nil_r. auto.
Qed.

Lemma C9_no_handle_no_effect_witness :
  let st := mkState studio_abc false false 0 0 0 0 [] [] 0 in
  let s := Switcher.set_source_visibility_global "Cam" true [] st in
  let d := Daemon.set_source_visibility_global "Cam" true None st in
  (fst s = Return false /\ obs (snd s) = obs st /\
   requests (trace (snd s)) = requests (trace st)) /\
  (fst d = Return false /\ obs (snd d) = obs st /\
   requests (trace (snd d)) = requests (trace st)).
Proof.
  apply (C9_no_handle_no_effect "Cam" true [] None
           (mkState studio_abc false false 0 0 0 0 [] [] 0)).
  reflexivity.
Defined.

(** C10: a synchronisation sends [SetSceneItemEnabled] only for items that
    carry the target's name, only in scenes outside the exclusion, and
    with the wanted visibility; every item of another name and every item
    of an excluded scene is afterwards exactly what it was.  Scene item
    ids are taken to be scene-scoped, as OBS hands them out. *)
Theorem C10_only_matching_items_outside_exclusion t v ex exs st :
  scoped_ids (obs st) ->
  let s := snd (Switcher.set_source_visibility_global t v ex st) in
  let d := snd (Daemon.set_source_visibility_global t v exs st) in
  (untouched t ex st s /\ targeted t v ex st s) /\
  (untouched t (Daemon.excluded exs) st d /\ targeted t v (Daemon.excluded exs) st d).
Proof.
  intros Hids. cbv zeta.
  pose proof (switcher_sync_effect t v ex st) as Hs.
  pose proof (daemon_sync_effect t v exs st) as Hd.
  repeat split;
    first [ now apply (effect_untouched t v) | now apply effect_targeted ].
Qed.

Lemma C10_only_matching_items_outside_exclusion_witness :
  let st := connected studio_abc in
  let s := snd (Switcher.set_source_visibility_global "Cam" true ["A"] st) in
  let d := snd (Daemon.set_source_visibility_global "Cam" true (Some "A") st) in
  (untouched "Cam" ["A"] st s /\ targeted "Cam" true ["A"] st s) /\
  (untouched "Cam" (Daemon.excluded (Some "A")) st d /\
   targeted "Cam" true (Daemon.excluded (Some "A")) st d).
Proof.
  apply (C10_only_matching_items_outside_exclusion "Cam" true ["A"] (Some "A")
           (connected studio_abc)).
  unfold scoped_ids. apply (bool_decide_unpack _). vm_compute. exact I.
Defined.

Lemma backdrop_fields a b :
  backdrop a = backdrop b ->
  obs_ws a = obs_ws b /\ face_detected a = face_detected b /\
  last_detection_time a = last_detection_time b /\
  reconnect_attempts a = reconnect_attempts b /\
  consecutive_errors a = consecutive_errors b /\
  script a = script b /\ clock a = clock b /\
  responsive (obs a) = responsive (obs b) /\
  accepting (obs a) = accepting (obs b) /\
  screenshot (obs a) = screenshot (obs b) /\
  scene_list (obs a) = scene_list (obs b).
Proof. unfold backdrop. intros H. injection H. intros. repeat split; assumption. Qed.

Lemma switcher_sync_backdrop t v ex st :
  backdrop (snd (Switcher.set_source_visibility_global t v ex st)) = backdrop st.
Proof.
  destruct (switcher_sync_returns t v ex st) as (b & st' & -> & [Hb _]). exact Hb.
Qed.

Lemma daemon_sync_backdrop t v exs st :
  backdrop (snd (Daemon.set_source_visibility_global t v exs st)) = backdrop st.
Proof.
  destruct (daemon_sync_returns t v exs st) as (b & st' & -> & [Hb _]). exact Hb.
Qed.

Lemma online_backdrop a b : backdrop a = backdrop b -> online b -> online a.
Proof.
  intros H [H1 H2]. apply backdrop_fields in H as (Ha & _ & _ & _ & _ & _ & _ & Hb & _).
  split; congruence.
Qed.

Lemma switcher_sync_obs t v ex st :
  obs (snd (Switcher.set_source_visibility_global t v ex st)) =
  if obs_ws st && responsive (obs st) && negb (String.eqb t "")
  then remote_sync t v (written ex (scene_list (obs st))) (obs st)
  else obs st.
Proof.
  destruct (obs_ws st) eqn:Hws; simpl.
  2:{ now rewrite switcher_sync_unconnected. }
  destruct (String.eqb_spec t "") as [->|Hne].
  { rewrite switcher_sync_unnamed by exact Hws. now rewrite andb_false_r. }
  destruct (responsive (obs st)) eqn:Hup; simpl.
  2:{ now rewrite switcher_sync_down. }
  rewrite switcher_sync_online by (try split; assumption).
  destruct (scene_loop_effect t v ex (scene_list (obs st)) st) as (Ho & _).
  cbv zeta. unfold sync_scenes. now destruct (Nat.ltb _ _).
Qed.

Lemma remote_sync_converges t v l r n its it :
  n ∈ l -> scene_items (remote_sync t v l r) !! n = Some its ->
  it ∈ its -> sourceName it = t -> sceneItemEnabled it = v.
Proof.
  intros Hn. simpl. rewrite sync_items_lookup, bool_decide_eq_true_2 by exact Hn.
  destruct (scene_items r !! n) as [its0|]; simpl; [|discriminate].
  intros [= <-]. apply synced_converges.
Qed.

Lemma fetchable_remote_sync t v l ex r :
  fetchable ex r -> fetchable ex (remote_sync t v l r).
Proof.
  unfold fetchable. simpl. intros Hall. eapply Forall_impl; [exact Hall|].
  simpl. intros n H Hx. rewrite sync_items_lookup. destruct (bool_decide _); [|auto].
  rewrite fmap_is_Some. auto.
Qed.

Lemma daemon_sync_obs_healthy t v exs st :
  online st -> t <> "" -> fetchable (Daemon.excluded exs) (obs st) ->
  obs (snd (Daemon.set_source_visibility_global t v exs st)) =
  remote_sync t v (written (Daemon.excluded exs) (scene_list (obs st))) (obs st).
Proof.
  intros Hon Hne Hf. rewrite daemon_sync_healthy by assumption.
  destruct (scene_loop_effect t v (Daemon.excluded exs) (scene_list (obs st)) st)
    as (Ho & _).
  cbv zeta. unfold sync_scenes. now destruct (Nat.ltb _ _).
Qed.

(** C7: the synchronisation is idempotent on the remote, and it
    converges.  For fs_source.py a second call with the same arguments
    leaves the remote exactly as the first one did, in every state; and
    when the handle is held, OBS answers and a target is named, every item
    that carries the target's name in a listed scene outside the
    exclusion ends with the wanted visibility, whatever it was before.
    The daemon does the same when every scene it writes to can be
    fetched. *)
Theorem C7_idempotent_and_convergent t v ex exs st :
  let s1 := snd (Switcher.set_source_visibility_global t v ex st) in
  let s2 := snd (Switcher.set_source_visibility_global t v ex s1) in
  let d1 := snd (Daemon.set_source_visibility_global t v exs st) in
  let d2 := snd (Daemon.set_source_visibility_global t v exs d1) in
  obs s2 = obs s1 /\
  (online st -> t <> "" ->
   (forall n its it,
      n ∈ scene_list (obs st) -> n ∉ ex ->
      scene_items (obs s1) !! n = Some its -> it ∈ its ->
      sourceName it = t -> sceneItemEnabled it = v) /\
   (fetchable (Daemon.excluded exs) (obs st) ->
    obs d2 = obs d1 /\
    forall n its it,
      n ∈ scene_list (obs st) -> n ∉ Daemon.excluded exs ->
      scene_items (obs d1) !! n = Some its -> it ∈ its ->
      sourceName it = t -> sceneItemEnabled it = v)).
Proof.
  cbv zeta. split.
  - rewrite (switcher_sync_obs t v ex
               (snd (Switcher.set_source_visibility_global t v ex st))).
    pose proof (switcher_sync_backdrop t v ex st) as Hb.
    apply backdrop_fields in Hb
      as (-> & _ & _ & _ & _ & _ & _ & -> & _ & _ & ->).
    rewrite (switcher_sync_obs t v ex st).
    destruct (obs_ws st && responsive (obs st) && negb (String.eqb t ""));
      [apply remote_sync_idem | reflexivity].
  - intros Hon Hne. split.
    + intros n its it Hn Hx. rewrite switcher_sync_obs.
      destruct Hon as [-> ->]. apply String.eqb_neq in Hne. rewrite Hne. simpl.
      apply remote_sync_converges, written_spec. auto.
    + intros Hf. split.
      * pose proof (daemon_sync_backdrop t v exs st) as Hb.
        rewrite (daemon_sync_obs_healthy t v exs
                   (snd (Daemon.set_source_visibility_global t v exs st))).
        -- apply backdrop_fields in Hb
             as (_ & _ & _ & _ & _ & _ & _ & _ & _ & _ & ->).
           rewrite daemon_sync_obs_healthy by assumption.
           apply remote_sync_idem.
        -- now apply (online_backdrop _ st).
        -- exact Hne.
        -- rewrite daemon_sync_obs_healthy by assumption.
           now apply fetchable_remote_sync.
      * intros n its it Hn Hx. rewrite daemon_sync_obs_healthy by assumption.
        apply remote_sync_converges, written_spec. auto.
Qed.

Lemma C7_idempotent_and_convergent_witness :
  let st := connected studio_abc in
  let s1 := snd (Switcher.set_source_visibility_global "Cam" false ["A"] st) in
  let s2 := snd (Switcher.set_source_visibility_global "Cam" false ["A"] s1) in
  let d1 := snd (Daemon.set_source_visibility_global "Cam" false (Some "A") st) in
  let d2 := snd (Daemon.set_source_visibility_global "Cam" false (Some "A") d1) in
  obs s2 = obs s1 /\
  (forall n its it,
     n ∈ scene_list (obs st) -> n ∉ ["A"] ->
     scene_items (obs s1) !! n = Some its -> it ∈ its ->
     sourceName it = "Cam" -> sceneItemEnabled it = false) /\
  obs d2 = obs d1 /\
  (forall n its it,
     n ∈ scene_list (obs st) -> n ∉ Daemon.excluded (Some "A") ->
     scene_items (obs d1) !! n = Some its -> it ∈ its ->
     sourceName it = "Cam" -> sceneItemEnabled it = false).
Proof.
  destruct (C7_idempotent_and_convergent "Cam" false ["A"] (Some "A")
              (connected studio_abc)) as [Hidem Hrest].
  destruct Hrest as [Hconv Hdaemon]; [split; reflexivity | discriminate |].
  destruct Hdaemon as [Hidem' Hconv'].
  { unfold fetchable. apply (bool_decide_unpack _). vm_compute. exact I. }
  repeat split; assumption.
Defined.

(** C6 as stated fails where it says that each matching occurrence
    increments the returned count: nothing the call returns counts the
    occurrences.  No function of the answer gives the number of
    [SetSceneItemEnabled] requests the call made, in either file: with one
    matching item ([studio_one]) or with four, two of them in one scene
    ([studio_abc]), the answer is the same [True]. *)
Lemma C6_answer_does_not_count_matches :
  ~ (exists count_of : outcome bool -> nat,
       forall st, online st ->
         let r := Switcher.set_source_visibility_global "Cam" true [] st in
         length (set_requests (trace (snd r))) =
         (length (set_requests (trace st)) + count_of (fst r))%nat) /\
  ~ (exists count_of : outcome bool -> nat,
       forall st, online st ->
         let r := Daemon.set_source_visibility_global "Cam" true None st in
         length (set_requests (trace (snd r))) =
         (length (set_requests (trace st)) + count_of (fst r))%nat).
Proof.
  split; intros [count_of H];
    pose proof (H (connected studio_one) (conj eq_refl eq_refl)) as H1;
    pose proof (H (connected studio_abc) (conj eq_refl eq_refl)) as H4;
    vm_compute in H1, H4; congruence.
Qed.

(** C6, amended: with the handle held, OBS answering and a target named,
    the [SetSceneItemEnabled] requests of a call are, in order, one per
    item that carries the target's name in each listed scene outside the
    exclusion (a scene whose list cannot be fetched contributes none in
    fs_source.py), each with the wanted visibility; afterwards every such
    item has that visibility at the remote, a source placed twice in a
    scene in both places; and each request adds one to the local counter
    [scenes_modified] / [changes_made], which ends at their number.  The
    counter is not returned: the answer is only whether it is positive.
    The daemon does the same when every scene it writes to can be
    fetched. *)
Theorem C6_one_request_per_matching_item t v ex exs st :
  online st -> t <> "" ->
  let s := Switcher.set_source_visibility_global t v ex st in
  let d := Daemon.set_source_visibility_global t v exs st in
  let for_s := expected_sets t v (scene_items (obs st))
                 (written ex (scene_list (obs st))) in
  let for_d := expected_sets t v (scene_items (obs st))
                 (written (Daemon.excluded exs) (scene_list (obs st))) in
  (set_requests (trace (snd s)) = set_requests (trace st) ++ for_s /\
   (forall n its it,
      n ∈ scene_list (obs st) -> (n ∉ ex) ->
      scene_items (obs (snd s)) !! n = Some its -> it ∈ its ->
      sourceName it = t -> sceneItemEnabled it = v) /\
   scenes_modified (snd s) = length for_s /\
   fst s = Return (Nat.ltb 0 (length for_s))) /\
  (fetchable (Daemon.excluded exs) (obs st) ->
   set_requests (trace (snd d)) = set_requests (trace st) ++ for_d /\
   (forall n its it,
      n ∈ scene_list (obs st) -> (n ∉ Daemon.excluded exs) ->
      scene_items (obs (snd d)) !! n = Some its -> it ∈ its ->
      sourceName it = t -> sceneItemEnabled it = v) /\
   scenes_modified (snd d) = length for_d /\
   fst d = Return (Nat.ltb 0 (length for_d))).
Proof.
  intros Hon Hne. cbv zeta. split.
  - split; [|split].
    + rewrite switcher_sync_online by assumption.
      destruct (scene_loop_effect t v ex (scene_list (obs st)) st) as (_ & Ht & _).
      cbv zeta. unfold sync_scenes.
      destruct (Nat.ltb _ _); simpl; rewrite set_requests_snoc, app_nil_r; auto.
    + intros n its it Hn Hx. rewrite switcher_sync_obs.
      destruct Hon as [-> ->]. apply String.eqb_neq in Hne. rewrite Hne. simpl.
      apply remote_sync_converges, written_spec. auto.
    + rewrite switcher_sync_online by assumption.
      destruct (scene_loop_effect t v ex (scene_list (obs st)) st) as (_ & _ & Hc).
      cbv zeta in *. unfold sync_scenes. rewrite Hc.
      destruct (Nat.ltb _ _); simpl; auto.
  - intros Hf. split; [|split].
    + rewrite daemon_sync_healthy by assumption.
      destruct (scene_loop_effect t v (Daemon.excluded exs) (scene_list (obs st)) st)
        as (_ & Ht & _).
      cbv zeta. unfold sync_scenes.
      destruct (Nat.ltb _ _); simpl; rewrite set_requests_snoc, app_nil_r; auto.
    + intros n its it Hn Hx. rewrite daemon_sync_obs_healthy by assumption.
      apply remote_sync_converges, written_spec. auto.
    + rewrite daemon_sync_healthy by assumption.
      destruct (scene_loop_effect t v (Daemon.excluded exs) (scene_list (obs st)) st)
        as (_ & _ & Hc).
      cbv zeta in *. unfold sync_scenes. rewrite Hc.
      destruct (Nat.ltb _ _); simpl; auto.
Qed.

(** In [studio_abc] the camera is one item of A, two of B and one of C:
    four requests, both cameras of B shown, the counter at four, and the
    answer [True]. *)
Lemma C6_one_request_per_matching_item_witness :
  let st := connected studio_abc in
  let s := Switcher.set_source_visibility_global "Cam" true [] st in
  let d := Daemon.set_source_visibility_global "Cam" true None st in
  (set_requests (trace (snd s)) =
     [("A", 1, true); ("B", 5, true); ("B", 6, true); ("C", 3, true)] /\
   scene_items (obs (snd s)) !! "B" = Some [mkItem "Cam" 5 true; mkItem "Cam" 6 true] /\
   (forall n its it,
      n ∈ scene_list (obs st) -> (n ∉ []) ->
      scene_items (obs (snd s)) !! n = Some its -> it ∈ its ->
      sourceName it = "Cam" -> sceneItemEnabled it = true) /\
   scenes_modified (snd s) = 4%nat /\
   fst s = Return true) /\
  (set_requests (trace (snd d)) =
     [("A", 1, true); ("B", 5, true); ("B", 6, true); ("C", 3, true)] /\
   scene_items (obs (snd d)) !! "B" = Some [mkItem "Cam" 5 true; mkItem "Cam" 6 true] /\
   (forall n its it,
      n ∈ scene_list (obs st) -> (n ∉ Daemon.excluded None) ->
      scene_items (obs (snd d)) !! n = Some its -> it ∈ its ->
      sourceName it = "Cam" -> sceneItemEnabled it = true) /\
   scenes_modified (snd d) = 4%nat /\
   fst d = Return true).
Proof.
  destruct (C6_one_request_per_matching_item "Cam" true [] None
              (connected studio_abc)) as [Hs Hd];
    [split; reflexivity | discriminate |].
  destruct Hs as (Hs1 & Hs2 & Hs3 & Hs4).
  destruct Hd as (Hd1 & Hd2 & Hd3 & Hd4).
  { unfold fetchable. apply (bool_decide_unpack _). vm_compute. exact I. }
  split.
  - split; [exact Hs1|]. split; [vm_compute; reflexivity|].
    split; [exact Hs2|]. split; [exact Hs3 | exact Hs4].
  - split; [exact Hd1|]. split; [vm_compute; reflexivity|].
    split; [exact Hd2|]. split; [exact Hd3 | exact Hd4].
Defined.

(** C5 as stated fails: the call does not return the count.  No function
    of the returned value gives the number of modified items, in either
    file: one camera or four, the answer is the same [True]. *)
Lemma C5_count_is_not_returned :
  ~ (exists count_of : outcome bool -> nat,
       forall st, online st ->
         let r := Switcher.set_source_visibility_global "Cam" true [] st in
         count_of (fst r) = scenes_modified (snd r)) /\
  ~ (exists count_of : outcome bool -> nat,
       forall st, online st ->
         let r := Daemon.set_source_visibility_global "Cam" true None st in
         count_of (fst r) = scenes_modified (snd r)).
Proof.
  split; intros [count_of H];
    pose proof (H (connected studio_one) (conj eq_refl eq_refl)) as H1;
    pose proof (H (connected studio_abc) (conj eq_refl eq_refl)) as H4;
    vm_compute in H1, H4; congruence.
Qed.

(** C5, amended: every call returns one boolean and never raises; the
    count of modified items stays in the local counter and goes to the log
    only.  With the handle held, OBS answering and a target named, that
    count is the number of matching items in the listed scenes outside the
    exclusion (in the daemon: provided each of them can be fetched), the
    answer is [True] exactly when it is positive, and a count of zero is
    logged as a WARNING in fs_source.py and at DEBUG level in the daemon,
    not as an error. *)
Theorem C5_returns_whether_count_is_positive t v ex exs st :
  let s := Switcher.set_source_visibility_global t v ex st in
  let d := Daemon.set_source_visibility_global t v exs st in
  (exists b, fst s = Return b) /\
  (exists b, fst d = Return b) /\
  (online st -> t <> "" ->
   let n := length (expected_sets t v (scene_items (obs st))
                      (written ex (scene_list (obs st)))) in
   fst s = Return (Nat.ltb 0 n) /\
   scenes_modified (snd s) = n /\
   last (trace (snd s)) =
     Some (if Nat.ltb 0 n then Log INFO (MSetVisibility t v n)
           else Log WARNING (MNotFoundInAnyScene t))) /\
  (online st -> t <> "" -> fetchable (Daemon.excluded exs) (obs st) ->
   let n := length (expected_sets t v (scene_items (obs st))
                      (written (Daemon.excluded exs) (scene_list (obs st)))) in
   fst d = Return (Nat.ltb 0 n) /\
   scenes_modified (snd d) = n /\
   last (trace (snd d)) =
     Some (if Nat.ltb 0 n then Log INFO (MSetVisibility t v n)
           else Log DEBUG (MNotFoundInAnyScene t))).
Proof.
  cbv zeta. split; [|split; [|split]].
  - destruct (switcher_sync_returns t v ex st) as (b & st' & -> & _). now exists b.
  - destruct (daemon_sync_returns t v exs st) as (b & st' & -> & _). now exists b.
  - intros Hon Hne. rewrite switcher_sync_online by assumption.
    destruct (scene_loop_effect t v ex (scene_list (obs st)) st) as (_ & _ & Hc).
    cbv zeta in *. unfold sync_scenes. rewrite Hc.
    destruct (Nat.ltb _ _); simpl; rewrite last_snoc; auto.
  - intros Hon Hne Hf. rewrite daemon_sync_healthy by assumption.
    destruct (scene_loop_effect t v (Daemon.excluded exs) (scene_list (obs st)) st)
      as (_ & _ & Hc).
    cbv zeta in *. unfold sync_scenes. rewrite Hc.
    destruct (Nat.ltb _ _); simpl; rewrite last_snoc; auto.
Qed.

(** A target that is nowhere: answer [False], a WARNING (here) or DEBUG
    (daemon) record, no error. *)
Lemma C5_returns_whether_count_is_positive_witness :
  let st := connected studio_abc in
  let s := Switcher.set_source_visibility_global "Overlay" true [] st in
  let d := Daemon.set_source_visibility_global "Overlay" true None st in
  (fst s = Return false /\ scenes_modified (snd s) = 0%nat /\
   last (trace (snd s)) = Some (Log WARNING (MNotFoundInAnyScene "Overlay"))) /\
  (fst d = Return false /\ scenes_modified (snd d) = 0%nat /\
   last (trace (snd d)) = Some (Log DEBUG (MNotFoundInAnyScene "Overlay"))).
Proof.
  destruct (C5_returns_whether_count_is_positive "Overlay" true [] None
              (connected studio_abc)) as (_ & _ & Hs & Hd).
  split.
  - apply Hs; [split; reflexivity | discriminate].
  - apply Hd; [split; reflexivity | discriminate |].
    unfold fetchable. apply (bool_decide_unpack _). vm_compute. exact I.
Defined.

(** ** The poll loop *)

Lemma surroundings_of_backdrop a b :
  backdrop a = backdrop b -> surroundings a = surroundings b.
Proof.
  intros H. apply backdrop_fields in H
    as (H1 & _ & _ & H4 & _ & H6 & H7 & H8 & H9 & H10 & H11).
  unfold surroundings. congruence.
Qed.

Lemma surroundings_fields a b :
  surroundings a = surroundings b ->
  obs_ws a = obs_ws b /\ script a = script b /\ clock a = clock b /\
  responsive (obs a) = responsive (obs b) /\
  screenshot (obs a) = screenshot (obs b).
Proof. unfold surroundings. intros H. injection H. intros. repeat split; assumption. Qed.

Lemma calls_snoc tr e :
  calls (tr ++ [e]) =
  calls tr ++ match e with Call t v ex => [(t, v, ex)] | _ => [] end.
Proof. unfold calls. rewrite omap_app. f_equal. destruct e; reflexivity. Qed.

Lemma transitions_app a b : transitions (a ++ b) = transitions a ++ transitions b.
Proof. apply omap_app. Qed.

Lemma calls_app a b : calls (a ++ b) = calls a ++ calls b.
Proof. apply omap_app. Qed.

Lemma transitions_cons e l : transitions (e :: l) = transitions [e] ++ transitions l.
Proof. apply (transitions_app [e] l). Qed.

Lemma calls_cons e l : calls (e :: l) = calls [e] ++ calls l.
Proof. apply (calls_app [e] l). Qed.

Lemma daemon_sync_if_set_spec name v exs st :
  exists st',
    Daemon.sync_if_set name v exs st = (Return tt, st') /\
    backdrop st' = backdrop st /\
    exists evs, trace st' = trace st ++ evs /\ transitions evs = [] /\
                calls evs = request_for name v (Daemon.excluded exs).
Proof.
  unfold Daemon.sync_if_set, request_for.
  destruct name as [s|]; [destruct (truthy (Some s))|].
  - destruct (daemon_sync_returns s v exs st)
      as (b & st' & Hrun & Hb & evs & Ht & Hx & Hc).
    rewrite (bind_run _ _ _ _ _ Hrun). exists st'.
    split; [reflexivity|]. split; [exact Hb|].
    exists (Call s v (Daemon.excluded exs) :: evs).
    simpl in Ht. rewrite Ht, <- app_assoc. split; [reflexivity|].
    rewrite transitions_cons, calls_cons, Hx, Hc. auto.
  - exists st. split; [reflexivity|]. split; [reflexivity|].
    exists []. now rewrite app_nil_r.
  - exists st. split; [reflexivity|]. split; [reflexivity|].
    exists []. now rewrite app_nil_r.
Qed.

(** One frame in the daemon: a transition is recorded, and the table's
    synchronisations are invoked, exactly when the verdict differs from
    the stored presence; otherwise nothing is added to the trace. *)
Lemma daemon_on_frame_spec config f st :
  exists st',
    Daemon.on_frame config f st = (Return tt, st') /\
    face_detected st' = detect_face config f /\
    surroundings st' = surroundings st /\
    exists evs, trace st' = trace st ++ evs /\
      (eqb (detect_face config f) (face_detected st) = true -> evs = []) /\
      transitions evs =
        (if eqb (detect_face config f) (face_detected st) then []
         else [detect_face config f]) /\
      calls evs =
        (if eqb (detect_face config f) (face_detected st) then []
         else daemon_table config (detect_face config f)).
Proof.
  unfold Daemon.on_frame.
  erewrite bind_run by reflexivity. erewrite bind_run by reflexivity.
  change (face_detected (with_consecutive_errors 0 st)) with (face_detected st).
  destruct (eqb (detect_face config f) (face_detected st)) eqn:Heq.
  { apply eqb_prop in Heq. exists (with_consecutive_errors 0 st).
    split; [reflexivity|]. split; [now symmetry|]. split; [reflexivity|].
    exists []. rewrite app_nil_r. auto. }
  change (negb false) with true. cbv iota.
  erewrite bind_run by reflexivity. erewrite bind_run by reflexivity.
  erewrite bind_run by reflexivity.
  set (b := detect_face config f) in *.
  set (st1 := with_last_detection_time _ _).
  unfold daemon_table. destruct b.
  - erewrite bind_run by reflexivity.
    destruct (daemon_sync_if_set_spec (show_source_name config) true None
                (emit (Log INFO MFaceDetected) st1))
      as (st2 & Hr2 & Hb2 & e2 & Ht2 & Hx2 & Hc2).
    rewrite (bind_run _ _ _ _ _ Hr2).
    destruct (daemon_sync_if_set_spec (hide_source_name config) false None st2)
      as (st3 & Hr3 & Hb3 & e3 & Ht3 & Hx3 & Hc3).
    rewrite Hr3. exists st3. split; [reflexivity|].
    apply surroundings_of_backdrop in Hb3 as Hs3.
    apply surroundings_of_backdrop in Hb2 as Hs2.
    apply backdrop_fields in Hb3 as (_ & F3 & _). apply backdrop_fields in Hb2 as (_ & F2 & _).
    split; [now rewrite F3, F2|]. split; [now rewrite Hs3, Hs2|].
    exists (Log INFO MFaceDetected :: e2 ++ e3).
    rewrite Ht3, Ht2. simpl. rewrite <- !app_assoc. split; [reflexivity|].
    split; [discriminate|].
    rewrite !transitions_app, !calls_app, Hx2, Hx3, Hc2, Hc3. auto.
  - erewrite bind_run by reflexivity.
    destruct (daemon_sync_if_set_spec (show_source_name config) false
                (detection_scene_name config) (emit (Log INFO MFaceGone) st1))
      as (st2 & Hr2 & Hb2 & e2 & Ht2 & Hx2 & Hc2).
    rewrite (bind_run _ _ _ _ _ Hr2).
    destruct (daemon_sync_if_set_spec (hide_source_name config) true None st2)
      as (st3 & Hr3 & Hb3 & e3 & Ht3 & Hx3 & Hc3).
    rewrite Hr3. exists st3. split; [reflexivity|].
    apply surroundings_of_backdrop in Hb3 as Hs3.
    apply surroundings_of_backdrop in Hb2 as Hs2.
    apply backdrop_fields in Hb3 as (_ & F3 & _). apply backdrop_fields in Hb2 as (_ & F2 & _).
    split; [now rewrite F3, F2|]. split; [now rewrite Hs3, Hs2|].
    exists (Log INFO MFaceGone :: e2 ++ e3).
    rewrite Ht3, Ht2. simpl. rewrite <- !app_assoc. split; [reflexivity|].
    split; [discriminate|].
    rewrite !transitions_app, !calls_app, Hx2, Hx3, Hc2, Hc3. auto.
Qed.

Lemma sleep_next e rest st :
  script st = e :: rest -> sleep st = (Return tt, elapse e rest st).
Proof. intros H. unfold sleep. now rewrite H. Qed.

Lemma sleep_end st :
  script st = [] -> sleep st = (Raise KeyboardInterrupt, st).
Proof. intros H. unfold sleep. now rewrite H. Qed.

Lemma is_obs_active_ok st :
  online st -> Daemon.is_obs_active st = (Return true, emit (Request GetVersion) st).
Proof.
  intros Hon. pose proof Hon as [Hws _]. unfold Daemon.is_obs_active.
  erewrite bind_run by reflexivity. rewrite Hws. change (negb true) with false.
  cbv iota. eapply try_except_return. unfold call_GetVersion.
  now rewrite (bind_run _ _ _ _ _ (call_ok _ _ Hon)).
Qed.

Lemma screenshot_ok source f st :
  watching f st ->
  call_GetSourceScreenshot source st =
  (Return f, emit (Request (GetSourceScreenshot source)) st).
Proof.
  intros (Hws & Hup & Hf). unfold call_GetSourceScreenshot.
  rewrite (bind_run _ _ _ _ _ (call_ok _ _ (conj Hws Hup))).
  unfold bind, gets. simpl. now rewrite Hf.
Qed.

Lemma daemon_screenshot_ok source f st :
  watching f st ->
  Daemon.get_source_screenshot source st =
  (Return (Some f), emit (Request (GetSourceScreenshot source)) st).
Proof.
  intros Hw. unfold Daemon.get_source_screenshot. eapply try_except_return.
  now rewrite (bind_run _ _ _ _ _ (screenshot_ok source f st Hw)).
Qed.

Lemma switcher_screenshot_ok source f st :
  watching f st ->
  Switcher.get_source_screenshot source st =
  (Return (Some f), emit (Request (GetSourceScreenshot source)) st).
Proof.
  intros Hw. unfold Switcher.get_source_screenshot. eapply try_except_return.
  now rewrite (bind_run _ _ _ _ _ (screenshot_ok source f st Hw)).
Qed.


Lemma preview_run config st :
  preview config st =
  (if show_preview config then
     match script st with
     | e :: _ => if env_window_ok e then Return (env_key_q e) else Raise Error
     | [] => Return false
     end
   else Return false, st).
Proof.
  unfold preview, bind, gets, ret, raise.
  destruct (show_preview config); [|reflexivity].
  destruct (script st) as [|e rest]; [reflexivity|]. simpl.
  now destruct (env_window_ok e).
Qed.

Lemma preview_undisturbed config st :
  undisturbed st -> preview config st = (Return false, st).
Proof.
  unfold undisturbed, preview, bind, gets. intros H.
  destruct (show_preview config); [|reflexivity].
  destruct (script st) as [|e rest]; [reflexivity|]. simpl.
  destruct H as [-> ->]. reflexivity.
Qed.

Lemma undisturbed_showing fs st : script st = showing fs -> undisturbed st.
Proof.
  unfold undisturbed. intros ->. destruct fs as [|f fs]; simpl; auto.
Qed.

Lemma undisturbed_script a b : script a = script b -> undisturbed b -> undisturbed a.
Proof. unfold undisturbed. now intros ->. Qed.

Lemma daemon_pass_spec config mon f st :
  watching f st -> undisturbed st ->
  exists st2,
    Daemon.active_pass config mon st = (sleep ;; ret None) st2 /\
    face_detected st2 = detect_face config f /\
    surroundings st2 = surroundings st /\
    transitions (trace st2) =
      transitions (trace st) ++
      (if eqb (detect_face config f) (face_detected st) then []
       else [detect_face config f]) /\
    calls (trace st2) =
      calls (trace st) ++
      (if eqb (detect_face config f) (face_detected st) then []
       else daemon_table config (detect_face config f)).
Proof.
  intros Hw Hquiet. pose proof Hw as (Hws & Hup & Hf).
  unfold Daemon.active_pass.
  erewrite bind_run by (apply is_obs_active_ok; split; assumption).
  change (negb true) with false. cbv iota.
  erewrite bind_run by (apply (daemon_screenshot_ok mon f); exact Hw).
  set (st1 := emit (Request (GetSourceScreenshot mon)) (emit (Request GetVersion) st)).
  destruct (daemon_on_frame_spec config f st1)
    as (st2 & Hr & Hface & Hs & evs & Ht & _ & Htr & Hca).
  rewrite (bind_run _ _ _ _ _ Hr). exists st2.
  assert (Hquiet2 : undisturbed st2).
  { apply (undisturbed_script st2 st); [|exact Hquiet].
    now apply surroundings_fields in Hs as (_ & -> & _). }
  rewrite (bind_run _ _ st2 false st2 (preview_undisturbed config st2 Hquiet2)).
  cbv iota. split; [reflexivity|]. split; [exact Hface|]. split; [exact Hs|].
  change (face_detected st1) with (face_detected st) in Htr, Hca.
  rewrite Ht. subst st1. simpl trace.
  rewrite !transitions_app, !calls_app, Htr, Hca. simpl.
  now rewrite !app_nil_r.
Qed.

Lemma edges_cons stored b rest :
  edges stored (b :: rest) =
  (if eqb b stored then [] else [b]) ++ edges b rest.
Proof.
  simpl. destruct (eqb b stored) eqn:H; [|reflexivity].
  apply eqb_prop in H. now subst.
Qed.

Lemma watching_elapse f rest st :
  obs_ws st = true -> watching f (elapse (mkEnv true true (Some f)) rest st).
Proof. intros H. repeat split. exact H. Qed.

(** The daemon's loop over a run of frames records exactly the edges of
    the verdicts, and invokes the table's synchronisations at each. *)
Lemma daemon_loop_frames config mon fs :
  forall f0 st,
    watching f0 st -> script st = showing fs ->
    exists st',
      loop (S (length fs)) (Daemon.active_pass config mon) st =
        (Raise KeyboardInterrupt, st') /\
      transitions (trace st') =
        transitions (trace st) ++
        edges (face_detected st) (detect_face config <$> f0 :: fs) /\
      calls (trace st') =
        calls (trace st) ++
        flat_map (daemon_table config)
                 (edges (face_detected st) (detect_face config <$> f0 :: fs)).
Proof.
  induction fs as [|f1 fs IH]; intros f0 st Hw Hscript.
  - destruct (daemon_pass_spec config mon f0 st Hw (undisturbed_showing _ st Hscript))
      as (st2 & Hrun & Hface & Hs & Htr & Hca).
    apply surroundings_fields in Hs as (_ & Hsc & _).
    exists st2. simpl loop. rewrite fmap_cons, edges_cons. simpl edges.
    rewrite app_nil_r. split.
    + erewrite bind_raise; [reflexivity|]. rewrite Hrun.
      erewrite bind_raise; [reflexivity|]. apply sleep_end. now rewrite Hsc.
    + rewrite Htr, Hca. split; [reflexivity|].
      destruct (eqb _ _); simpl; now rewrite ?app_nil_r.
  - destruct (daemon_pass_spec config mon f0 st Hw (undisturbed_showing _ st Hscript))
      as (st2 & Hrun & Hface & Hs & Htr & Hca).
    apply surroundings_fields in Hs as (Hws2 & Hsc & _).
    destruct Hw as (Hws & _).
    set (st3 := elapse (mkEnv true true (Some f1)) (showing fs) st2).
    destruct (IH f1 st3) as (st' & Hloop & Htr' & Hca').
    { apply watching_elapse. congruence. }
    { reflexivity. }
    exists st'. split.
    + change (length (f1 :: fs)) with (S (length fs)).
      change (loop (S (S (length fs))) (Daemon.active_pass config mon))
        with (r <- Daemon.active_pass config mon ;;
              match r with
              | Some a => ret a
              | None => loop (S (length fs)) (Daemon.active_pass config mon)
              end).
      rewrite (bind_run _ _ st None st3); [exact Hloop|]. rewrite Hrun.
      rewrite (bind_run _ _ st2 tt st3); [reflexivity|]. apply sleep_next.
      rewrite Hsc, Hscript. reflexivity.
    + change (trace st3) with (trace st2) in Htr', Hca'.
      change (face_detected st3) with (face_detected st2) in Htr', Hca'.
      rewrite Hface in Htr', Hca'.
      rewrite Htr', Hca', Htr, Hca.
      rewrite (fmap_cons _ f0), (edges_cons (face_detected st)).
      rewrite flat_map_app, <- !app_assoc. split; [reflexivity|].
      f_equal. f_equal. destruct (eqb _ _); simpl; now rewrite ?app_nil_r.
Qed.

Lemma while_true_showing {A} (body : M (option A)) fs st :
  script st = showing fs ->
  while_true body st = loop (S (length fs)) body st.
Proof. intros H. unfold while_true. rewrite H. unfold showing. now rewrite length_fmap. Qed.

Lemma daemon_active_mode_frames config mon f0 fs st :
  monitor_source_name config = Some mon -> mon <> "" ->
  watching f0 st -> script st = showing fs ->
  exists st',
    Daemon.active_mode config st = (Raise KeyboardInterrupt, st') /\
    transitions (trace st') =
      transitions (trace st) ++
      edges (face_detected st) (detect_face config <$> f0 :: fs) /\
    calls (trace st') =
      calls (trace st) ++
      flat_map (daemon_table config)
               (edges (face_detected st) (detect_face config <$> f0 :: fs)).
Proof.
  intros Hmon Hne Hw Hscript. apply String.eqb_neq in Hne.
  unfold Daemon.active_mode. rewrite Hmon. unfold truthy at 1. rewrite Hne.
  change (negb (negb false)) with false. cbv iota.
  erewrite bind_run by reflexivity. erewrite bind_run by reflexivity.
  assert (Hprelude : forall (m1 m2 : M unit) s1 s2 st1,
            m1 (emit (Log INFO (MMonitoring mon)) (emit (Log INFO MActiveMode) st))
              = (Return tt, s1) ->
            m2 s1 = (Return tt, s2) ->
            watching f0 s2 -> script s2 = showing fs ->
            face_detected s2 = face_detected st ->
            transitions (trace s2) = transitions (trace st) ->
            calls (trace s2) = calls (trace st) ->
            st1 = emit (Log INFO (MMonitoring mon)) (emit (Log INFO MActiveMode) st) ->
            exists st',
              (m1 ;; m2 ;; modify (with_consecutive_errors 0) ;;
               try_except (while_true (Daemon.active_pass config mon))
                          (log ERROR MRuntimeError ;; ret false)) st1
                = (Raise KeyboardInterrupt, st') /\
              transitions (trace st') =
                transitions (trace st) ++
                edges (face_detected st) (detect_face config <$> f0 :: fs) /\
              calls (trace st') =
                calls (trace st) ++
                flat_map (daemon_table config)
                  (edges (face_detected st) (detect_face config <$> f0 :: fs))).
  { intros m1 m2 s1 s2 st1 H1 H2 Hw2 Hsc2 Hf2 Ht2 Hc2 ->.
    rewrite (bind_run _ _ _ _ _ H1), (bind_run _ _ _ _ _ H2).
    erewrite bind_run by reflexivity.
    destruct (daemon_loop_frames config mon fs f0 (with_consecutive_errors 0 s2))
      as (st' & Hloop & Htr & Hca); [exact Hw2 | exact Hsc2 |].
    exists st'. split.
    - apply try_except_passes. rewrite (while_true_showing _ fs) by exact Hsc2.
      exact Hloop.
    - change (trace (with_consecutive_errors 0 s2)) with (trace s2) in Htr, Hca.
      change (face_detected (with_consecutive_errors 0 s2))
        with (face_detected s2) in Htr, Hca.
      rewrite Htr, Hca, Hf2, Ht2, Hc2. auto. }
  destruct (truthy (show_source_name config)), (truthy (hide_source_name config));
    eapply Hprelude; try reflexivity; try exact Hw; try exact Hscript;
    simpl trace; rewrite ?transitions_app, ?calls_app; simpl;
    now rewrite ?app_nil_r.
Qed.

(** *** fs_source.py *)

Lemma switcher_sync_then_spec source v ex st :
  exists st',
    (Switcher.set_source_visibility_global source v ex ;; ret tt) st = (Return tt, st') /\
    backdrop st' = backdrop st /\
    exists evs, trace st' = trace st ++ evs /\ transitions evs = [] /\
                calls evs = [(source, v, ex)].
Proof.
  destruct (switcher_sync_returns source v ex st)
    as (b & st' & Hrun & Hb & evs & Ht & Hx & Hc).
  rewrite (bind_run _ _ _ _ _ Hrun). exists st'.
  split; [reflexivity|]. split; [exact Hb|].
  exists (Call source v ex :: evs).
  simpl in Ht. rewrite Ht, <- app_assoc. split; [reflexivity|].
  rewrite transitions_cons, calls_cons, Hx, Hc. auto.
Qed.

Lemma switcher_show_spec config v ex st :
  exists st',
    match show_source_name config with
    | Some show_source =>
        if truthy (Some show_source)
        then Switcher.set_source_visibility_global show_source v ex ;; ret tt
        else ret tt
    | None => ret tt
    end st = (Return tt, st') /\
    backdrop st' = backdrop st /\
    exists evs, trace st' = trace st ++ evs /\ transitions evs = [] /\
                calls evs = request_for (show_source_name config) v ex.
Proof.
  unfold request_for.
  destruct (show_source_name config) as [s|]; [destruct (truthy (Some s))|].
  - apply switcher_sync_then_spec.
  - exists st. split; [reflexivity|]. split; [reflexivity|].
    exists []. now rewrite app_nil_r.
  - exists st. split; [reflexivity|]. split; [reflexivity|].
    exists []. now rewrite app_nil_r.
Qed.

(** One frame in fs_source.py: as in the daemon, with its own table. *)
Lemma switcher_on_frame_spec config ex f st :
  exists st',
    Switcher.on_frame config ex f st = (Return tt, st') /\
    face_detected st' = detect_face config f /\
    surroundings st' = surroundings st /\
    exists evs, trace st' = trace st ++ evs /\
      (eqb (detect_face config f) (face_detected st) = true -> evs = []) /\
      transitions evs =
        (if eqb (detect_face config f) (face_detected st) then []
         else [detect_face config f]) /\
      calls evs =
        (if eqb (detect_face config f) (face_detected st) then []
         else if detect_face config f
              then request_for (show_source_name config) true []
              else request_for (show_source_name config) false ex).
Proof.
  unfold Switcher.on_frame.
  erewrite bind_run by reflexivity. erewrite bind_run by reflexivity.
  destruct (eqb (detect_face config f) (face_detected st)) eqn:Heq.
  { apply eqb_prop in Heq. exists st.
    split; [reflexivity|]. split; [now symmetry|]. split; [reflexivity|].
    exists []. rewrite app_nil_r. auto. }
  change (negb false) with true. cbv iota.
  erewrite bind_run by reflexivity. erewrite bind_run by reflexivity.
  set (b := detect_face config f) in *.
  set (st1 := with_last_detection_time _ _).
  destruct b.
  - erewrite bind_run by reflexivity.
    destruct (switcher_show_spec config true [] (emit (Log INFO MFaceDetected) st1))
      as (st2 & Hr2 & Hb2 & e2 & Ht2 & Hx2 & Hc2).
    rewrite Hr2. exists st2. split; [reflexivity|].
    apply surroundings_of_backdrop in Hb2 as Hs2.
    apply backdrop_fields in Hb2 as (_ & F2 & _).
    split; [now rewrite F2|]. split; [now rewrite Hs2|].
    exists (Log INFO MFaceDetected :: e2).
    rewrite Ht2. simpl. rewrite <- !app_assoc. split; [reflexivity|].
    split; [discriminate|]. rewrite Hx2, Hc2. auto.
  - erewrite bind_run by reflexivity.
    destruct (switcher_show_spec config false ex (emit (Log INFO MFaceGone) st1))
      as (st2 & Hr2 & Hb2 & e2 & Ht2 & Hx2 & Hc2).
    rewrite Hr2. exists st2. split; [reflexivity|].
    apply surroundings_of_backdrop in Hb2 as Hs2.
    apply backdrop_fields in Hb2 as (_ & F2 & _).
    split; [now rewrite F2|]. split; [now rewrite Hs2|].
    exists (Log INFO MFaceGone :: e2).
    rewrite Ht2. simpl. rewrite <- !app_assoc. split; [reflexivity|].
    split; [discriminate|]. rewrite Hx2, Hc2. auto.
Qed.

Lemma switcher_pass_spec config mon f st :
  watching f st -> undisturbed st ->
  exists st2,
    Switcher.run_pass config mon (Daemon.excluded (detection_scene_name config)) st
      = (sleep ;; ret None) st2 /\
    face_detected st2 = detect_face config f /\
    surroundings st2 = surroundings st /\
    transitions (trace st2) =
      transitions (trace st) ++
      (if eqb (detect_face config f) (face_detected st) then []
       else [detect_face config f]) /\
    calls (trace st2) =
      calls (trace st) ++
      (if eqb (detect_face config f) (face_detected st) then []
       else switcher_table config (detect_face config f)).
Proof.
  intros Hw Hquiet. unfold Switcher.run_pass.
  erewrite bind_run by (apply (switcher_screenshot_ok mon f); exact Hw).
  set (st1 := emit (Request (GetSourceScreenshot mon)) st).
  destruct (switcher_on_frame_spec config
              (Daemon.excluded (detection_scene_name config)) f st1)
    as (st2 & Hr & Hface & Hs & evs & Ht & _ & Htr & Hca).
  rewrite (bind_run _ _ _ _ _ Hr). exists st2.
  assert (Hquiet2 : undisturbed st2).
  { apply (undisturbed_script st2 st); [|exact Hquiet].
    now apply surroundings_fields in Hs as (_ & -> & _). }
  rewrite (bind_run _ _ st2 false st2 (preview_undisturbed config st2 Hquiet2)).
  cbv iota. split; [reflexivity|]. split; [exact Hface|]. split; [exact Hs|].
  change (face_detected st1) with (face_detected st) in Htr, Hca.
  rewrite Ht. subst st1. simpl trace.
  rewrite !transitions_app, !calls_app, Htr, Hca. simpl.
  unfold switcher_table. rewrite !app_nil_r. split; [reflexivity|].
  now destruct (detect_face config f).
Qed.

Lemma switcher_loop_frames config mon fs :
  forall f0 st,
    watching f0 st -> script st = showing fs ->
    exists st',
      loop (S (length fs))
           (Switcher.run_pass config mon (Daemon.excluded (detection_scene_name config)))
           st = (Raise KeyboardInterrupt, st') /\
      obs_ws st' = true /\
      transitions (trace st') =
        transitions (trace st) ++
        edges (face_detected st) (detect_face config <$> f0 :: fs) /\
      calls (trace st') =
        calls (trace st) ++
        flat_map (switcher_table config)
                 (edges (face_detected st) (detect_face config <$> f0 :: fs)).
Proof.
  induction fs as [|f1 fs IH]; intros f0 st Hw Hscript.
  - destruct (switcher_pass_spec config mon f0 st Hw (undisturbed_showing _ st Hscript))
      as (st2 & Hrun & Hface & Hs & Htr & Hca).
    apply surroundings_fields in Hs as (Hws2 & Hsc & _). destruct Hw as (Hws & _).
    exists st2. simpl loop. rewrite fmap_cons, edges_cons. simpl edges.
    rewrite app_nil_r. split; [|split; [congruence|]].
    + erewrite bind_raise; [reflexivity|]. rewrite Hrun.
      erewrite bind_raise; [reflexivity|]. apply sleep_end. now rewrite Hsc.
    + rewrite Htr, Hca. split; [reflexivity|].
      destruct (eqb _ _); simpl; now rewrite ?app_nil_r.
  - destruct (switcher_pass_spec config mon f0 st Hw (undisturbed_showing _ st Hscript))
      as (st2 & Hrun & Hface & Hs & Htr & Hca).
    apply surroundings_fields in Hs as (Hws2 & Hsc & _).
    destruct Hw as (Hws & _).
    set (st3 := elapse (mkEnv true true (Some f1)) (showing fs) st2).
    destruct (IH f1 st3) as (st' & Hloop & Hws' & Htr' & Hca').
    { apply watching_elapse. congruence. }
    { reflexivity. }
    exists st'. split; [|split; [exact Hws'|]].
    + change (length (f1 :: fs)) with (S (length fs)).
      set (body := Switcher.run_pass config mon _) in *.
      change (loop (S (S (length fs))) body)
        with (r <- body ;;
              match r with
              | Some a => ret a
              | None => loop (S (length fs)) body
              end).
      rewrite (bind_run _ _ st None st3); [exact Hloop|]. rewrite Hrun.
      rewrite (bind_run _ _ st2 tt st3); [reflexivity|]. apply sleep_next.
      rewrite Hsc, Hscript. reflexivity.
    + change (trace st3) with (trace st2) in Htr', Hca'.
      change (face_detected st3) with (face_detected st2) in Htr', Hca'.
      rewrite Hface in Htr', Hca'.
      rewrite Htr', Hca', Htr, Hca.
      rewrite (fmap_cons _ f0), (edges_cons (face_detected st)).
      rewrite flat_map_app, <- !app_assoc. split; [reflexivity|].
      f_equal. f_equal. destruct (eqb _ _); simpl; now rewrite ?app_nil_r.
Qed.

Lemma switcher_exclusion config :
  match detection_scene_name config with
  | Some detection_scene =>
      if truthy (Some detection_scene) then [detection_scene] else []
  | None => []
  end = Daemon.excluded (detection_scene_name config).
Proof.
  destruct (detection_scene_name config) as [d|]; [|reflexivity].
  unfold truthy, Daemon.excluded. now destruct (String.eqb d "").
Qed.

Lemma switcher_connect_ok st :
  accepting (obs st) = true ->
  Switcher.connect_obs st = (Return true, emit (Log INFO MConnected) (with_obs_ws true st)).
Proof.
  intros Hacc. unfold Switcher.connect_obs. eapply try_except_return.
  erewrite bind_run by reflexivity. erewrite bind_run by reflexivity.
  change (accepting (obs (with_obs_ws true st))) with (accepting (obs st)).
  rewrite Hacc. reflexivity.
Qed.

Lemma switcher_run_frames config mon f0 fs st :
  monitor_source_name config = Some mon -> mon <> "" ->
  accepting (obs st) = true -> responsive (obs st) = true ->
  screenshot (obs st) = Some f0 -> script st = showing fs ->
  exists st',
    Switcher.run config st = (Return tt, st') /\
    transitions (trace st') =
      transitions (trace st) ++
      edges (face_detected st) (detect_face config <$> f0 :: fs) /\
    calls (trace st') =
      calls (trace st) ++
      flat_map (switcher_table config)
               (edges (face_detected st) (detect_face config <$> f0 :: fs)).
Proof.
  intros Hmon Hne Hacc Hup Hshot Hscript. apply String.eqb_neq in Hne.
  unfold Switcher.run. rewrite Hmon. rewrite switcher_exclusion.
  erewrite bind_run by reflexivity.
  erewrite bind_run by (apply switcher_connect_ok; exact Hacc).
  change (negb true) with false. cbv iota.
  unfold truthy at 1. rewrite Hne. change (negb (negb false)) with false. cbv iota.
  erewrite bind_run by reflexivity.
  set (st1 := emit (Log INFO (MMonitoring mon)) _).
  assert (Htail : forall (m : M unit) s1,
            m st1 = (Return tt, s1) ->
            watching f0 s1 -> script s1 = showing fs ->
            face_detected s1 = face_detected st ->
            transitions (trace s1) = transitions (trace st) ->
            calls (trace s1) = calls (trace st) ->
            exists st',
              (m ;;
               try_finally
                 (try_except_both
                    (log INFO MFaceDetectionActive ;;
                     while_true (Switcher.run_pass config mon
                                   (Daemon.excluded (detection_scene_name config))))
                    (log INFO MShuttingDown)
                    (log ERROR MRuntimeError))
                 Switcher.disconnect_obs) st1 = (Return tt, st') /\
              transitions (trace st') =
                transitions (trace st) ++
                edges (face_detected st) (detect_face config <$> f0 :: fs) /\
              calls (trace st') =
                calls (trace st) ++
                flat_map (switcher_table config)
                  (edges (face_detected st) (detect_face config <$> f0 :: fs))).
  { intros m s1 H1 Hw1 Hsc1 Hf1 Ht1 Hc1.
    rewrite (bind_run _ _ _ _ _ H1).
    destruct (switcher_loop_frames config mon fs f0
                (emit (Log INFO MFaceDetectionActive) s1))
      as (sL & Hloop & HwsL & Htr & Hca); [exact Hw1 | exact Hsc1 |].
    assert (Hbody : (log INFO MFaceDetectionActive ;;
                     while_true (Switcher.run_pass config mon
                                   (Daemon.excluded (detection_scene_name config)))) s1
                    = (Raise KeyboardInterrupt, sL)).
    { erewrite bind_run by reflexivity.
      rewrite (while_true_showing _ fs) by exact Hsc1. exact Hloop. }
    exists (emit (Log INFO MDisconnected) (emit (Log INFO MShuttingDown) sL)).
    split.
    - unfold try_finally, try_except_both. rewrite Hbody. simpl.
      unfold Switcher.disconnect_obs, bind, gets. simpl. now rewrite HwsL.
    - simpl trace. rewrite !transitions_app, !calls_app, Htr, Hca. simpl.
      rewrite !transitions_app, !calls_app, Ht1, Hc1, Hf1. simpl.
      now rewrite !app_nil_r. }
  assert (Hw : watching f0 st1) by (repeat split; assumption).
  destruct (show_source_name config) as [show|];
    [destruct (truthy (Some show));
     [destruct (Daemon.excluded (detection_scene_name config)) eqn:Hex|]|];
    eapply Htail; try reflexivity; try exact Hw; try exact Hscript;
    subst st1; simpl trace; rewrite ?transitions_app, ?calls_app; simpl;
    now rewrite ?app_nil_r.
Qed.

(** ** Claims about the presence state and the poll loop *)

Lemma edges_head stored bs b rest :
  edges stored bs = b :: rest -> b <> stored.
Proof.
  revert stored. induction bs as [|x bs IH]; intros stored; simpl; [discriminate|].
  destruct (eqb x stored) eqn:Hx.
  - apply IH.
  - intros [= <- _]. intros ->. now rewrite eqb_reflx in Hx.
Qed.

Lemma edges_alternating stored bs : alternating (edges stored bs).
Proof.
  revert stored. induction bs as [|x bs IH]; intros stored; simpl; [exact I|].
  destruct (eqb x stored); [apply IH|].
  specialize (IH x). destruct (edges x bs) as [|c rest] eqn:He; [exact I|].
  split; [|exact IH]. apply edges_head in He. congruence.
Qed.

(** C3: in both files a frame makes the poll loop record a transition,
    and invoke synchronisations, exactly when the detector's verdict
    differs from the stored presence, which then takes the verdict's
    value; a verdict equal to the stored presence adds nothing to the
    trace.  Over a run of frames the transitions recorded are therefore
    the edges of the verdict sequence, the synchronisations are those of
    the edges only, and no two consecutive transitions go to the same
    state. *)
Theorem C3_transition_iff_edge config mon f0 fs st :
  monitor_source_name config = Some mon -> mon <> "" ->
  watching f0 st -> accepting (obs st) = true -> script st = showing fs ->
  let fired := edges (face_detected st) (detect_face config <$> f0 :: fs) in
  let d := snd (Daemon.active_mode config st) in
  let s := snd (Switcher.run config st) in
  (transitions (trace d) = transitions (trace st) ++ fired /\
   calls (trace d) = calls (trace st) ++ flat_map (daemon_table config) fired) /\
  (transitions (trace s) = transitions (trace st) ++ fired /\
   calls (trace s) = calls (trace st) ++ flat_map (switcher_table config) fired) /\
  alternating fired /\
  (forall f ex st0,
     let b := detect_face config f in
     let d1 := snd (Daemon.on_frame config f st0) in
     let s1 := snd (Switcher.on_frame config ex f st0) in
     face_detected d1 = b /\ face_detected s1 = b /\
     (b = face_detected st0 -> trace d1 = trace st0 /\ trace s1 = trace st0) /\
     (b <> face_detected st0 ->
      exists evd evs,
        trace d1 = trace st0 ++ evd /\ transitions evd = [b] /\
        trace s1 = trace st0 ++ evs /\ transitions evs = [b])).
Proof.
  intros Hmon Hne Hw Hacc Hscript. cbv zeta. pose proof Hw as (Hws & Hup & Hshot).
  destruct (daemon_active_mode_frames config mon f0 fs st Hmon Hne Hw Hscript)
    as (d & -> & Htd & Hcd).
  destruct (switcher_run_frames config mon f0 fs st Hmon Hne Hacc Hup Hshot Hscript)
    as (s & -> & Hts & Hcs).
  split; [auto|]. split; [auto|]. split; [apply edges_alternating|].
  intros f ex st0.
  destruct (daemon_on_frame_spec config f st0)
    as (d1 & -> & Hfd & _ & evd & Htrd & Hnild & Hxd & _).
  destruct (switcher_on_frame_spec config ex f st0)
    as (s1 & -> & Hfs & _ & evs & Htrs & Hnils & Hxs & _).
  simpl. split; [exact Hfd|]. split; [exact Hfs|]. split.
  - intros Heq. rewrite Heq, eqb_reflx in Hnild, Hnils.
    rewrite Htrd, Htrs, Hnild, Hnils by reflexivity. now rewrite app_nil_r.
  - intros Hdiff. apply eqb_false_iff in Hdiff. rewrite Hdiff in Hxd, Hxs.
    exists evd, evs. auto.
Qed.

(** The scenario of the specification: verdicts false, false, true, true,
    false over the scenes Monitor and Main. *)
Lemma C3_transition_iff_edge_witness :
  let d := snd (Daemon.active_mode config_both five_frames) in
  let s := snd (Switcher.run config_both five_frames) in
  (transitions (trace d) = [true; false] /\
   calls (trace d) =
     [("Overlay", true, []); ("Idle", false, []);
      ("Overlay", false, ["Monitor"]); ("Idle", true, [])]) /\
  (transitions (trace s) = [true; false] /\
   calls (trace s) = [("Overlay", true, []); ("Overlay", false, ["Monitor"])]).
Proof.
  destruct (C3_transition_iff_edge config_both "Webcam" nobody
              [nobody; face; face; nobody] five_frames)
    as (Hd & Hs & _); try reflexivity.
  - discriminate.
  - repeat split; reflexivity.
  - split; [exact Hd | exact Hs].
Defined.

(** C4: on ABSENT to PRESENT the show-target is to be shown and the
    hide-target hidden, both everywhere; on PRESENT to ABSENT the
    show-target hidden outside the detection scene and the hide-target
    shown everywhere; an unset target is skipped.  The daemon does that;
    fs_source.py does not (code defect): it reads [hide_source_name] from
    the configuration (line 166) and never uses it.  With only the
    hide-target configured, the presence goes ABSENT, PRESENT, ABSENT and
    the switcher invokes no synchronisation at all and sends no
    [SetSceneItemEnabled]; the daemon, on the same input, hides and shows
    the hide-target as the table says. *)
Theorem C4_switcher_ignores_hide_target :
  let st := mkState stage true false 0 0 0 0 [] (showing [nobody]) 0 in
  let s := snd (Switcher.run config_hide_only st) in
  let d := snd (Daemon.active_mode config_hide_only st) in
  transitions (trace s) = [true; false] /\
  calls (trace s) = [] /\
  set_requests (trace s) = [] /\
  transitions (trace d) = [true; false] /\
  calls (trace d) = [("Idle", false, []); ("Idle", true, [])].
Proof. vm_compute. repeat split. Qed.

(** The daemon's side of C4, for every configuration and state: what is
    invoked on a transition is the table of the specification. *)
Lemma daemon_follows_table config f st :
  detect_face config f <> face_detected st ->
  exists evs,
    trace (snd (Daemon.on_frame config f st)) = trace st ++ evs /\
    calls evs = daemon_table config (detect_face config f).
Proof.
  intros Hdiff. apply eqb_false_iff in Hdiff.
  destruct (daemon_on_frame_spec config f st)
    as (st' & -> & _ & _ & evs & Ht & _ & _ & Hc).
  rewrite Hdiff in Hc. exists evs. auto.
Qed.

(** C2: every exit of the active mode to standby, after a failed liveness
    probe or at the capture-error ceiling, is to invoke the reset pass
    (show-target hidden, hide-target shown) and to reset the presence to
    ABSENT.  The liveness exit does; the error-ceiling exit does not (code
    defect): when the fifth consecutive screenshot fails, [active_mode]
    returns [False] straight away (fs_source_daemon.py 254-256).  No reset
    pass is invoked, [face_detected] stays [True], and the remote keeps
    the layout of the last detected presence. *)
Theorem C2_error_ceiling_exit_skips_reset :
  let r := Daemon.active_mode config_both session_losing_picture in
  fst r = Return false /\
  face_detected (snd r) = true /\
  calls (trace (snd r)) = [("Overlay", true, []); ("Idle", false, [])] /\
  last (trace (snd r)) = Some (Log ERROR MTooManyErrors) /\
  scene_items (obs (snd r)) !! "Main" =
    Some [mkItem "Overlay" 4 true; mkItem "Idle" 5 false].
Proof. vm_compute. repeat split. Qed.

Lemma is_obs_active_fails st :
  obs_ws st = false \/ responsive (obs st) = false ->
  exists st',
    Daemon.is_obs_active st = (Return false, st') /\
    obs_ws st' = false /\ obs st' = obs st /\
    exists evs, trace st' = trace st ++ evs /\ calls evs = [].
Proof.
  intros H. unfold Daemon.is_obs_active.
  erewrite bind_run by reflexivity.
  destruct (obs_ws st) eqn:Hws.
  2:{ exists st. repeat split; auto. exists []. now rewrite app_nil_r. }
  destruct H as [H|Hup]; [discriminate|].
  change (negb true) with false. cbv iota.
  exists (with_obs_ws false
            (emit (Log INFO MDisconnected)
               (emit (Log DEBUG MNotResponsive) (emit (Request GetVersion) st)))).
  split.
  - erewrite try_except_error; cycle 1.
    { unfold call_GetVersion, call.
      erewrite bind_raise; [reflexivity|].
      erewrite bind_run by reflexivity. rewrite Hws.
      erewrite bind_run by reflexivity. erewrite bind_run by reflexivity.
      change (responsive (obs (emit (Request GetVersion) st)))
        with (responsive (obs st)). rewrite Hup. reflexivity. }
    erewrite bind_run by reflexivity.
    unfold Daemon.disconnect_obs.
    erewrite bind_run; [reflexivity|].
    erewrite bind_run by reflexivity.
    change (obs_ws (emit (Log DEBUG MNotResponsive) (emit (Request GetVersion) st)))
      with (obs_ws st).
    rewrite Hws. reflexivity.
  - repeat split.
    exists [Request GetVersion; Log DEBUG MNotResponsive; Log INFO MDisconnected].
    simpl. rewrite <- !app_assoc. auto.
Qed.

Lemma daemon_sync_if_set_unconnected name v exs st :
  obs_ws st = false ->
  exists st',
    Daemon.sync_if_set name v exs st = (Return tt, st') /\
    obs_ws st' = false /\ obs st' = obs st /\
    exists evs, trace st' = trace st ++ evs /\
                calls evs = request_for name v (Daemon.excluded exs).
Proof.
  intros Hws. unfold Daemon.sync_if_set, request_for.
  destruct name as [s|]; [destruct (truthy (Some s))|].
  - rewrite (bind_run _ _ _ _ _ (daemon_sync_unconnected s v exs st Hws)).
    eexists. split; [reflexivity|]. repeat split; [exact Hws|].
    now exists [Call s v (Daemon.excluded exs)].
  - exists st. repeat split; auto. exists []. now rewrite app_nil_r.
  - exists st. repeat split; auto. exists []. now rewrite app_nil_r.
Qed.

(** The other way out of [active_mode], a failed liveness probe, does
    invoke the reset pass and clears the presence (lines 239-247).  By
    then [is_obs_active] has dropped the handle, so the two
    synchronisations return at their first line and the remote is not
    written to. *)
Lemma daemon_liveness_exit_resets config mon st :
  obs_ws st = false \/ responsive (obs st) = false ->
  exists st',
    Daemon.active_pass config mon st = (Return (Some true), st') /\
    face_detected st' = false /\
    obs st' = obs st /\
    exists evs, trace st' = trace st ++ evs /\
      calls evs = request_for (show_source_name config) false [] ++
                  request_for (hide_source_name config) true [].
Proof.
  intros H. unfold Daemon.active_pass.
  destruct (is_obs_active_fails st H) as (st1 & Hr1 & Hws1 & Ho1 & e1 & Ht1 & Hc1).
  rewrite (bind_run _ _ _ _ _ Hr1). change (negb false) with true. cbv iota.
  erewrite bind_run by reflexivity.
  destruct (daemon_sync_if_set_unconnected (show_source_name config) false None
              (emit (Log INFO MObsStopped) st1) Hws1)
    as (st2 & Hr2 & Hws2 & Ho2 & e2 & Ht2 & Hc2).
  rewrite (bind_run _ _ _ _ _ Hr2).
  destruct (daemon_sync_if_set_unconnected (hide_source_name config) true None
              st2 Hws2)
    as (st3 & Hr3 & Hws3 & Ho3 & e3 & Ht3 & Hc3).
  rewrite (bind_run _ _ _ _ _ Hr3).
  erewrite bind_run by reflexivity.
  eexists. split; [reflexivity|]. split; [reflexivity|].
  split; [simpl; now rewrite Ho3, Ho2|].
  exists (e1 ++ [Log INFO MObsStopped] ++ e2 ++ e3).
  simpl trace. rewrite Ht3, Ht2. simpl trace. rewrite Ht1.
  rewrite <- !app_assoc. split; [reflexivity|].
  rewrite !calls_app, Hc1, Hc2, Hc3. reflexivity.
Qed.

(** C8: the stored presence is to be false at the start of every active
    session, being reset on every return from active to standby.  It is
    false after [__init__] and after the liveness exit, but not after the
    error-ceiling exit (code defect, the same early return as C2): [run]
    then only disconnects and sleeps (lines 325-328), so the next call of
    [standby_mode] returns with [face_detected] still [True]: the second
    active session starts from a stale PRESENT, and with the face still
    in view the whole run records one transition only. *)
Theorem C8_second_session_starts_present :
  let first := Daemon.run_cycle config_both daemon_start in
  let standby := Daemon.standby_mode (snd first) in
  fst first = Return None /\
  face_detected (snd first) = true /\
  fst standby = Return true /\
  face_detected (snd standby) = true /\
  last (trace (snd standby)) = Some (Log INFO MObsNowActive) /\
  transitions (trace (snd (Daemon.run config_both daemon_start))) = [true].
Proof. vm_compute. repeat split. Qed.

(** ** The loops never run out of fuel *)

(** [while_true] gives its loop one pass more than there are sleeps left.
    A loop whose every pass sleeps before it goes round again ends within
    that many passes, so any larger fuel gives the same run: the answer of
    [loop] at fuel [0] is never what [while_true] returns. *)
Lemma loop_fuel_agree {A} (body : M (option A)) :
  winds_down body ->
  forall n m st,
    (length (script st) < n)%nat -> (length (script st) < m)%nat ->
    loop n body st = loop m body st.
Proof.
  intros Hbody. induction n as [|n IH]; intros m st Hn Hm; [lia|].
  destruct m as [|m]; [lia|]. simpl. unfold bind.
  destruct (body st) as [[[a|]|e] st'] eqn:Hrun; try reflexivity.
  apply Hbody in Hrun. apply IH; lia.
Qed.

Lemma loop_enough_fuel {A} (body : M (option A)) n st :
  winds_down body -> (length (script st) < n)%nat ->
  loop n body st = while_true body st.
Proof.
  intros Hbody Hn. unfold while_true. apply loop_fuel_agree; [exact Hbody | lia | lia].
Qed.

Lemma calm_ret {A} (a : A) : calm (ret a).
Proof. intros st. reflexivity. Qed.

Lemma calm_raise {A} e : calm (@raise A e).
Proof. intros st. reflexivity. Qed.

Lemma calm_gets {A} (f : State -> A) : calm (gets f).
Proof. intros st. reflexivity. Qed.

Lemma calm_modify (f : State -> State) :
  (forall st, script (f st) = script st) -> calm (modify f).
Proof. intros Hf st. simpl. now rewrite Hf. Qed.

Lemma calm_sleep : calm sleep.
Proof. intros st. unfold sleep. destruct (script st) eqn:H; simpl; rewrite ?H; simpl; lia. Qed.

Lemma calm_bind {A B} (m : M A) (k : A -> M B) :
  calm m -> (forall a, calm (k a)) -> calm (bind m k).
Proof.
  intros Hm Hk st. unfold bind. specialize (Hm st).
  destruct (m st) as [[a|e] st1]; simpl in *; [|exact Hm].
  specialize (Hk a st1). lia.
Qed.

Lemma calm_try_except {A} (m h : M A) : calm m -> calm h -> calm (try_except m h).
Proof.
  intros Hm Hh st. unfold try_except. specialize (Hm st).
  destruct (m st) as [[a|[|]] st1]; simpl in *; try exact Hm.
  specialize (Hh st1). lia.
Qed.

Lemma calm_try_bare {A} (m h : M A) : calm m -> calm h -> calm (try_bare m h).
Proof.
  intros Hm Hh st. unfold try_bare. specialize (Hm st).
  destruct (m st) as [[a|e] st1]; simpl in *; try exact Hm.
  specialize (Hh st1). lia.
Qed.

Lemma calm_try_except_both {A} (m hk he : M A) :
  calm m -> calm hk -> calm he -> calm (try_except_both m hk he).
Proof.
  intros Hm Hk He st. unfold try_except_both. specialize (Hm st).
  destruct (m st) as [[a|[|]] st1]; simpl in *; try exact Hm.
  - specialize (He st1). lia.
  - specialize (Hk st1). lia.
Qed.

Lemma calm_try_finally {A} (m : M A) (f : M unit) :
  calm m -> calm f -> calm (try_finally m f).
Proof.
  intros Hm Hf st. unfold try_finally. specialize (Hm st).
  destruct (m st) as [r st1]. specialize (Hf st1). simpl in *.
  destruct (f st1) as [[u|e] st2]; simpl in *; lia.
Qed.

Lemma calm_for_each {A} (l : list A) (body : A -> M unit) :
  (forall x, calm (body x)) -> calm (for_each l body).
Proof.
  intros Hb. induction l as [|x l IH]; simpl; [apply calm_ret|].
  apply calm_bind; auto.
Qed.

Lemma calm_loop {A} (body : M (option A)) n : calm body -> calm (loop n body).
Proof.
  intros Hb. induction n as [|n IH]; simpl; [apply calm_raise|].
  apply calm_bind; [exact Hb|]. intros [a|]; [apply calm_ret | exact IH].
Qed.

Lemma calm_while_true {A} (body : M (option A)) : calm body -> calm (while_true body).
Proof. intros Hb st. unfold while_true. now apply calm_loop. Qed.

Lemma calm_switcher_sync t v ex : calm (Switcher.set_source_visibility_global t v ex).
Proof.
  intros st. pose proof (switcher_sync_backdrop t v ex st) as H.
  apply backdrop_fields in H as (_ & _ & _ & _ & _ & Hs & _). now rewrite Hs.
Qed.

Lemma calm_daemon_sync t v exs : calm (Daemon.set_source_visibility_global t v exs).
Proof.
  intros st. pose proof (daemon_sync_backdrop t v exs st) as H.
  apply backdrop_fields in H as (_ & _ & _ & _ & _ & Hs & _). now rewrite Hs.
Qed.

Ltac calm_basic :=
  match goal with
  | |- calm (ret _) => apply calm_ret
  | |- calm (raise _) => apply calm_raise
  | |- calm (gets _) => apply calm_gets
  | |- calm sleep => apply calm_sleep
  | |- calm (modify _) => apply calm_modify; intros ?; reflexivity
  | |- calm (log _ _) => apply calm_modify; intros ?; reflexivity
  | |- calm (bind _ _) => apply calm_bind; [|intros ?]
  | |- calm (try_except _ _) => apply calm_try_except
  | |- calm (try_bare _ _) => apply calm_try_bare
  | |- calm (try_except_both _ _ _) => apply calm_try_except_both
  | |- calm (try_finally _ _) => apply calm_try_finally
  | |- calm (for_each _ _) => apply calm_for_each; intros ?
  | |- calm (while_true _) => apply calm_while_true
  | |- calm (Switcher.set_source_visibility_global _ _ _) => apply calm_switcher_sync
  | |- calm (Daemon.set_source_visibility_global _ _ _) => apply calm_daemon_sync
  | |- calm (match ?x with _ => _ end) => destruct x
  end.

Lemma calm_call r : calm (call r).
Proof. unfold call. repeat calm_basic. Qed.

Lemma calm_disconnect_obs : calm Daemon.disconnect_obs.
Proof. unfold Daemon.disconnect_obs. repeat calm_basic. Qed.

Lemma calm_is_obs_active : calm Daemon.is_obs_active.
Proof.
  unfold Daemon.is_obs_active, call_GetVersion.
  repeat calm_basic; first [apply calm_call | apply calm_disconnect_obs].
Qed.

Lemma calm_connect_obs : calm Daemon.connect_obs.
Proof. unfold Daemon.connect_obs. repeat calm_basic. Qed.

Lemma calm_screenshot source : calm (call_GetSourceScreenshot source).
Proof. unfold call_GetSourceScreenshot. repeat calm_basic. apply calm_call. Qed.

Lemma calm_daemon_screenshot source : calm (Daemon.get_source_screenshot source).
Proof.
  unfold Daemon.get_source_screenshot. repeat calm_basic. apply calm_screenshot.
Qed.

Lemma calm_switcher_screenshot source : calm (Switcher.get_source_screenshot source).
Proof.
  unfold Switcher.get_source_screenshot. repeat calm_basic. apply calm_screenshot.
Qed.

Lemma calm_sync_if_set name v exs : calm (Daemon.sync_if_set name v exs).
Proof. unfold Daemon.sync_if_set. repeat calm_basic. Qed.

Lemma calm_daemon_on_frame config f : calm (Daemon.on_frame config f).
Proof. unfold Daemon.on_frame. repeat calm_basic; apply calm_sync_if_set. Qed.

Lemma calm_switcher_on_frame config ex f : calm (Switcher.on_frame config ex f).
Proof. unfold Switcher.on_frame. repeat calm_basic. Qed.

Lemma calm_preview config : calm (preview config).
Proof. unfold preview. repeat calm_basic. Qed.

Ltac calm_step :=
  first
    [ calm_basic
    | apply calm_preview
    | apply calm_call
    | apply calm_disconnect_obs
    | apply calm_is_obs_active
    | apply calm_connect_obs
    | apply calm_daemon_screenshot
    | apply calm_switcher_screenshot
    | apply calm_sync_if_set
    | apply calm_daemon_on_frame
    | apply calm_switcher_on_frame ].

Ltac calm_all := repeat calm_step.

Lemma winds_down_bind {A B} (m : M A) (k : A -> M (option B)) :
  calm m -> (forall a, winds_down (k a)) -> winds_down (bind m k).
Proof.
  intros Hm Hk st st'. unfold bind. specialize (Hm st).
  destruct (m st) as [[a|e] st1]; simpl in *; [|discriminate].
  intros Hrun. apply Hk in Hrun. lia.
Qed.

Lemma winds_down_ret_some {A} (a : A) : winds_down (ret (Some a)).
Proof. intros st st'. discriminate. Qed.

Lemma winds_down_sleep {A} : winds_down (sleep ;; ret (@None A)).
Proof.
  intros st st'. unfold bind, sleep.
  destruct (script st) as [|e rest] eqn:H; [discriminate|].
  intros [= <-]. simpl. lia.
Qed.

Ltac winds_down_step :=
  match goal with
  | |- winds_down (ret (Some _)) => apply winds_down_ret_some
  | |- winds_down (bind sleep (fun _ => ret None)) => apply winds_down_sleep
  | |- winds_down (bind _ _) => apply winds_down_bind; [solve [calm_all] | intros ?]
  | |- winds_down (match ?x with _ => _ end) => destruct x
  end.

Lemma standby_pass_winds_down : winds_down Daemon.standby_pass.
Proof. unfold Daemon.standby_pass. repeat winds_down_step. Qed.

Lemma active_pass_winds_down config mon : winds_down (Daemon.active_pass config mon).
Proof. unfold Daemon.active_pass. repeat winds_down_step. Qed.

Lemma run_pass_winds_down config mon ex : winds_down (Switcher.run_pass config mon ex).
Proof. unfold Switcher.run_pass. repeat winds_down_step. Qed.

(** *** The loop of [run] *)

Lemma bind_returned {A B} (m : M A) (k : A -> M B) st b st' :
  bind m k st = (Return b, st') ->
  exists a s1, m st = (Return a, s1) /\ k a s1 = (Return b, st').
Proof.
  unfold bind. destruct (m st) as [[a|e] s1]; [|discriminate].
  intros H. now exists a, s1.
Qed.

Lemma loop_returned {A} (body : M (option A)) n st a st' :
  loop n body st = (Return a, st') ->
  exists s, body s = (Return (Some a), st').
Proof.
  revert st. induction n as [|n IH]; intros st; simpl; [discriminate|].
  intros H. apply bind_returned in H as ([x|] & s1 & Hb & Hk).
  - injection Hk as <- <-. now exists st.
  - now apply IH in Hk.
Qed.

Lemma is_obs_active_true st st' :
  Daemon.is_obs_active st = (Return true, st') -> online st'.
Proof.
  unfold Daemon.is_obs_active. erewrite bind_run by reflexivity.
  destruct (obs_ws st) eqn:Hws; [|discriminate].
  change (negb true) with false. cbv iota.
  destruct (responsive (obs st)) eqn:Hup.
  - erewrite try_except_return; cycle 1.
    { unfold call_GetVersion.
      erewrite bind_run by (apply call_ok; split; assumption). reflexivity. }
    intros [= <-]. split; assumption.
  - destruct (is_obs_active_fails st (or_intror Hup)) as (s & Hr & _).
    unfold Daemon.is_obs_active in Hr. erewrite bind_run in Hr by reflexivity.
    rewrite Hws in Hr. change (negb true) with false in Hr. cbv iota in Hr.
    rewrite Hr. discriminate.
Qed.

Lemma standby_mode_returns_online st b st' :
  Daemon.standby_mode st = (Return b, st') -> online st'.
Proof.
  unfold Daemon.standby_mode. erewrite bind_run by reflexivity.
  unfold while_true. intros H. apply loop_returned in H as (s & H).
  unfold Daemon.standby_pass in H.
  apply bind_returned in H as (ws & s1 & _ & H).
  apply bind_returned in H as (_ & s2 & _ & H). erewrite bind_run in H by reflexivity.
  apply bind_returned in H as (active & s3 & Hact & H).
  destruct active.
  - erewrite bind_run in H by reflexivity. injection H as _ <-.
    destruct (obs_ws s2); [|discriminate].
    now apply is_obs_active_true in Hact.
  - apply bind_returned in H as (_ & s4 & _ & H). discriminate.
Qed.

(** The first pass of an active session that starts with OBS answering
    and no capture error counted does not return [True]: it sleeps, or
    it leaves the loop at the preview window. *)
Lemma active_pass_first config mon st b st' :
  online st -> consecutive_errors st = 0%nat ->
  Daemon.active_pass config mon st = (Return (Some b), st') -> b = false.
Proof.
  intros Hon Herr. unfold Daemon.active_pass.
  erewrite bind_run by (apply is_obs_active_ok; exact Hon).
  change (negb true) with false. cbv iota.
  set (s1 := emit (Request GetVersion) st).
  assert (Hon1 : online s1) by exact Hon.
  unfold Daemon.get_source_screenshot, call_GetSourceScreenshot.
  destruct (screenshot (obs st)) as [f|] eqn:Hshot.
  - erewrite bind_run; cycle 1.
    { eapply try_except_return.
      erewrite bind_run; [reflexivity|].
      erewrite bind_run by (apply call_ok; exact Hon1).
      erewrite bind_run by reflexivity.
      change (screenshot (obs (emit (Request (GetSourceScreenshot mon)) s1)))
        with (screenshot (obs st)). rewrite Hshot. reflexivity. }
    intros H. apply bind_returned in H as (u2 & s2 & _ & H).
    apply bind_returned in H as (quit & s3 & _ & H). destruct quit.
    + now injection H as <- _.
    + apply bind_returned in H as (u4 & s4 & _ & H). discriminate.
  - erewrite bind_run; cycle 1.
    { erewrite try_except_error; [reflexivity|].
      erewrite bind_raise; [reflexivity|].
      erewrite bind_run by (apply call_ok; exact Hon1).
      erewrite bind_run by reflexivity.
      change (screenshot (obs (emit (Request (GetSourceScreenshot mon)) s1)))
        with (screenshot (obs st)). rewrite Hshot. reflexivity. }
    cbv beta iota.
    erewrite bind_run by reflexivity. erewrite bind_run by reflexivity.
    match goal with |- context [Nat.leb 5 ?n] =>
      replace n with 1%nat by (simpl; now rewrite Herr) end.
    change (Nat.leb 5 1) with false. cbv iota.
    intros H. apply bind_returned in H as (u3 & s3 & _ & H). discriminate.
Qed.

Lemma calm_active_pass config mon : calm (Daemon.active_pass config mon).
Proof. unfold Daemon.active_pass. calm_all. Qed.

Lemma calm_standby_mode : calm Daemon.standby_mode.
Proof. unfold Daemon.standby_mode, Daemon.standby_pass. calm_all. Qed.

Lemma calm_active_mode config : calm (Daemon.active_mode config).
Proof.
  unfold Daemon.active_mode. calm_all; apply calm_active_pass.
Qed.

(** An active session that starts with OBS answering and ends by
    returning has slept at least once. *)
Lemma active_mode_sleeps config st b st' :
  online st -> Daemon.active_mode config st = (Return b, st') ->
  b = false \/ (length (script st') < length (script st))%nat.
Proof.
  intros Hon. unfold Daemon.active_mode.
  erewrite bind_run by reflexivity.
  destruct (monitor_source_name config) as [mon|]; cycle 1.
  { erewrite bind_run by reflexivity. intros [= <- _]. now left. }
  destruct (negb (truthy (Some mon))).
  { erewrite bind_run by reflexivity. intros [= <- _]. now left. }
  erewrite bind_run by reflexivity.
  intros H. apply bind_returned in H as (u1 & s1 & H1 & H).
  apply bind_returned in H as (u2 & s2 & H2 & H).
  erewrite bind_run in H by reflexivity.
  assert (Hs2 : online s2 /\ script s2 = script st).
  { destruct (truthy (show_source_name config)), (truthy (hide_source_name config));
      injection H1 as _ E1; injection H2 as _ E2; subst s2; subst s1;
      split; try exact Hon; reflexivity. }
  destruct Hs2 as [Hon2 Hsc2].
  set (s3 := with_consecutive_errors 0 s2) in *.
  unfold try_except in H.
  destruct (while_true (Daemon.active_pass config mon) s3) as [[r|[|]] s4] eqn:Hloop;
    [| injection H as <- _; now left | discriminate].
  injection H as <- <-.
  unfold while_true in Hloop. simpl loop in Hloop.
  apply bind_returned in Hloop as ([x|] & sA & Hpass & Hrest).
  { injection Hrest as <- _. left.
    now apply (active_pass_first config mon s3 x sA Hon2). }
  right. apply active_pass_winds_down in Hpass.
  pose proof (calm_loop (Daemon.active_pass config mon) (length (script s3))
                (calm_active_pass config mon) sA) as Hcalm.
  change (script s3) with (script s2) in Hcalm, Hrest.
  unfold calm in Hcalm. rewrite Hrest in Hcalm. simpl in Hcalm.
  change (script s3) with (script s2) in Hpass. rewrite Hsc2 in Hpass. lia.
Qed.

Lemma run_cycle_winds_down config : winds_down (Daemon.run_cycle config).
Proof.
  intros st st'. unfold Daemon.run_cycle. intros H.
  apply bind_returned in H as (standby & s1 & Hsb & H).
  pose proof (calm_standby_mode st) as Hc1. rewrite Hsb in Hc1. simpl in Hc1.
  apply standby_mode_returns_online in Hsb as Hon1.
  destruct (negb standby).
  { apply bind_returned in H as (u2 & s2 & [= _ <-] & H).
    apply (@winds_down_sleep unit) in H. simpl in H. lia. }
  apply bind_returned in H as (active & s2 & Hact & H).
  destruct (active_mode_sleeps config s1 active s2 Hon1 Hact) as [-> | Hlt].
  - simpl negb in H. cbv iota in H.
    pose proof (calm_active_mode config s1) as Hc2.
    rewrite Hact in Hc2. simpl in Hc2.
    apply bind_returned in H as (u3 & s3 & [= _ <-] & H).
    apply bind_returned in H as (u4 & s4 & Hd & H).
    pose proof (calm_disconnect_obs (emit (Log WARNING MActiveExitedWithError) s2)) as Hc3.
    rewrite Hd in Hc3. simpl in Hc3.
    apply (@winds_down_sleep unit) in H. lia.
  - destruct active; simpl negb in H; cbv iota in H.
    + injection H as <-. lia.
    + apply bind_returned in H as (u3 & s3 & [= _ <-] & H).
      apply bind_returned in H as (u4 & s4 & Hd & H).
      pose proof (calm_disconnect_obs (emit (Log WARNING MActiveExitedWithError) s2)) as Hc3.
      rewrite Hd in Hc3. simpl in Hc3.
      apply (@winds_down_sleep unit) in H. lia.
Qed.

(** Every [while True] of the two files, at any fuel above the number of
    sleeps left, runs as [while_true] says. *)
Lemma loops_have_enough_fuel config mon ex n st :
  (length (script st) < n)%nat ->
  loop n Daemon.standby_pass st = while_true Daemon.standby_pass st /\
  loop n (Daemon.active_pass config mon) st =
    while_true (Daemon.active_pass config mon) st /\
  loop n (Daemon.run_cycle config) st = while_true (Daemon.run_cycle config) st /\
  loop n (Switcher.run_pass config mon ex) st =
    while_true (Switcher.run_pass config mon ex) st.
Proof.
  intros Hn. repeat split; apply loop_enough_fuel; try exact Hn.
  - apply standby_pass_winds_down.
  - apply active_pass_winds_down.
  - apply run_cycle_winds_down.
  - apply run_pass_winds_down.
Qed.

(** * The rest of the two files *)

(** ** [detect_face] *)

(** X1: [detect_face] answers [True] exactly when some detection scores
    strictly above the configured confidence (0.7 when none is
    configured): a score equal to the threshold is not a face, an image
    without detections never is, and a stricter threshold never turns a
    rejected image into an accepted one. *)
Theorem detect_face_threshold config config' image :
  (detect_face config image = true <->
   exists score, score ∈ image /\
                 default 700 (face_detection_confidence config) < score) /\
  (default 700 (face_detection_confidence config)
     <= default 700 (face_detection_confidence config') ->
   detect_face config' image = true -> detect_face config image = true).
Proof.
  assert (Hiff : forall c, detect_face c image = true <->
            exists score, score ∈ image /\
                          default 700 (face_detection_confidence c) < score).
  { intros c. unfold detect_face. rewrite existsb_exists. split.
    - intros (x & Hin & Hx). exists x. rewrite list_elem_of_In.
      split; [exact Hin | now apply Z.ltb_lt].
    - intros (x & Hin & Hx). exists x. rewrite <- list_elem_of_In.
      split; [exact Hin | now apply Z.ltb_lt]. }
  split; [apply Hiff|]. intros Hle H.
  apply Hiff in H as (x & Hin & Hx). apply Hiff. exists x. split; [exact Hin | lia].
Qed.

Lemma detect_face_threshold_witness :
  detect_face (mkConfig None None None None None) [950; 100] = true.
Proof.
  apply (proj2 (detect_face_threshold (mkConfig None None None None None)
                  (mkConfig None None None None (Some 900)) [950; 100])).
  - simpl. lia.
  - reflexivity.
Defined.

(** ** [is_obs_active], [disconnect_obs], [get_source_screenshot] *)

Lemma daemon_disconnect_run st :
  Daemon.disconnect_obs st =
  (Return tt, if obs_ws st
              then with_obs_ws false (emit (Log INFO MDisconnected) st)
              else st).
Proof.
  unfold Daemon.disconnect_obs. erewrite bind_run by reflexivity.
  destruct (obs_ws st); reflexivity.
Qed.

Lemma is_obs_active_run st :
  Daemon.is_obs_active st =
  if obs_ws st then
    if responsive (obs st) then (Return true, emit (Request GetVersion) st)
    else (Return false,
          with_obs_ws false
            (emit (Log INFO MDisconnected)
               (emit (Log DEBUG MNotResponsive) (emit (Request GetVersion) st))))
  else (Return false, st).
Proof.
  destruct (obs_ws st) eqn:Hws; [destruct (responsive (obs st)) eqn:Hup|].
  - apply is_obs_active_ok. split; assumption.
  - unfold Daemon.is_obs_active. erewrite bind_run by reflexivity.
    rewrite Hws. change (negb true) with false. cbv iota.
    erewrite try_except_error; cycle 1.
    { unfold call_GetVersion, call.
      erewrite bind_raise; [reflexivity|].
      erewrite bind_run by reflexivity. rewrite Hws.
      erewrite bind_run by reflexivity. erewrite bind_run by reflexivity.
      change (responsive (obs (emit (Request GetVersion) st)))
        with (responsive (obs st)). rewrite Hup. reflexivity. }
    erewrite bind_run by reflexivity.
    erewrite bind_run by apply daemon_disconnect_run.
    change (obs_ws (emit (Log DEBUG MNotResponsive) (emit (Request GetVersion) st)))
      with (obs_ws st). rewrite Hws. reflexivity.
  - unfold Daemon.is_obs_active. erewrite bind_run by reflexivity.
    now rewrite Hws.
Qed.

(** X2: [is_obs_active] never raises.  It answers [True] exactly when a
    handle is held and OBS answers the version request, and afterwards the
    handle is held exactly when it answered [True]: a failed probe drops
    the connection.  It changes neither the remote nor the presence. *)
Theorem is_obs_active_answer st :
  let r := Daemon.is_obs_active st in
  fst r = Return (obs_ws st && responsive (obs st)) /\
  obs_ws (snd r) = obs_ws st && responsive (obs st) /\
  obs (snd r) = obs st /\
  face_detected (snd r) = face_detected st.
Proof.
  cbv zeta. rewrite is_obs_active_run.
  destruct (obs_ws st) eqn:Hws; [destruct (responsive (obs st)) eqn:Hup|];
    simpl; rewrite ?Hws; auto.
Qed.

(** X3: The daemon's [disconnect_obs] never raises, leaves no handle, does
    not touch the remote, and is idempotent; a synchronisation called
    after it answers [False] and sends nothing. *)
Theorem daemon_disconnect_then_sync t v exs st :
  let st1 := snd (Daemon.disconnect_obs st) in
  fst (Daemon.disconnect_obs st) = Return tt /\
  obs_ws st1 = false /\
  obs st1 = obs st /\
  Daemon.disconnect_obs st1 = (Return tt, st1) /\
  fst (Daemon.set_source_visibility_global t v exs st1) = Return false /\
  requests (trace (snd (Daemon.set_source_visibility_global t v exs st1))) =
    requests (trace st).
Proof.
  cbv zeta. rewrite daemon_disconnect_run. simpl.
  assert (Hws : obs_ws (if obs_ws st
                        then with_obs_ws false (emit (Log INFO MDisconnected) st)
                        else st) = false).
  { destruct (obs_ws st) eqn:H; [reflexivity | exact H]. }
  split; [reflexivity|]. split; [exact Hws|].
  split; [now destruct (obs_ws st)|].
  split; [rewrite daemon_disconnect_run; now rewrite Hws|].
  rewrite daemon_sync_unconnected by exact Hws. simpl.
  split; [reflexivity|].
  unfold requests. rewrite omap_app. simpl. rewrite app_nil_r.
  destruct (obs_ws st); [|reflexivity]. simpl. rewrite omap_app. simpl.
  now rewrite app_nil_r.
Qed.

(** X4: [get_source_screenshot], the same in both files, contains its
    failures: it never raises, answers the frame exactly when a handle is
    held, OBS answers and the screenshot can be taken, answers [None]
    otherwise, and changes nothing but the trace. *)
Theorem get_source_screenshot_contained source st :
  let d := Daemon.get_source_screenshot source st in
  let s := Switcher.get_source_screenshot source st in
  d = s /\
  fst d = Return (if obs_ws st && responsive (obs st)
                  then screenshot (obs st) else None) /\
  backdrop (snd d) = backdrop st /\
  face_detected (snd d) = face_detected st /\
  obs (snd d) = obs st /\
  calls (trace (snd d)) = calls (trace st).
Proof.
  cbv zeta. split; [reflexivity|].
  unfold Daemon.get_source_screenshot, call_GetSourceScreenshot, call,
    try_except, bind, gets, modify, log, ret, raise. simpl.
  destruct (obs_ws st) eqn:Hws; simpl; [destruct (responsive (obs st)) eqn:Hup|];
    simpl; [destruct (screenshot (obs st)) eqn:Hshot|..]; simpl;
    rewrite ?calls_app; simpl; rewrite ?app_nil_r; repeat split; auto.
Qed.

(** ** Standby: [connect_obs] and [standby_mode] of the daemon *)

Lemma loop_again {A} (body : M (option A)) n st st2 :
  body st = (Return None, st2) -> loop (S n) body st = loop n body st2.
Proof. intros H. simpl. unfold bind. now rewrite H. Qed.

Lemma loop_done {A} (body : M (option A)) n st a st2 :
  body st = (Return (Some a), st2) -> loop (S n) body st = (Return a, st2).
Proof. intros H. simpl. unfold bind. now rewrite H. Qed.

Lemma while_true_step {A} (body : M (option A)) st st2 :
  body st = (Return None, st2) ->
  length (script st) = S (length (script st2)) ->
  while_true body st = while_true body st2.
Proof.
  intros Hb Hl. unfold while_true. rewrite Hl. now apply loop_again.
Qed.

Lemma daemon_connect_refused st :
  accepting (obs st) = false ->
  exists st',
    Daemon.connect_obs st = (Return false, st') /\
    obs_ws st' = false /\ obs st' = obs st /\
    reconnect_attempts st' = S (reconnect_attempts st) /\
    trace st' = trace st ++ failure_record (S (reconnect_attempts st)) /\
    script st' = script st /\ clock st' = clock st /\
    face_detected st' = face_detected st.
Proof.
  intros Hacc.
  unfold Daemon.connect_obs, try_except, bind, modify, gets, log, ret, raise,
    failure_record.
  cbn -[Nat.modulo Nat.leb Nat.eqb]. rewrite Hacc.
  cbn -[Nat.modulo Nat.leb Nat.eqb].
  destruct (Nat.leb (S (reconnect_attempts st)) 3);
    [|destruct (Nat.eqb (S (reconnect_attempts st) mod 12) 0)];
    cbn -[Nat.modulo Nat.leb Nat.eqb]; eexists; repeat split;
    cbn -[Nat.modulo Nat.leb Nat.eqb]; rewrite ?app_nil_r; reflexivity.
Qed.

Lemma daemon_connect_accepted st :
  accepting (obs st) = true ->
  Daemon.connect_obs st =
  (Return true,
   with_reconnect_attempts 0 (emit (Log INFO MConnected) (with_obs_ws true st))).
Proof.
  intros Hacc.
  unfold Daemon.connect_obs, try_except, bind, modify, gets, log, ret, raise.
  cbn. rewrite Hacc. reflexivity.
Qed.

Lemma standby_pass_away e rest st :
  away st -> script st = e :: rest ->
  exists st2,
    Daemon.standby_pass st = (Return None, st2) /\
    obs_ws st2 = false /\ obs st2 = remote_env e (obs st) /\
    reconnect_attempts st2 = S (reconnect_attempts st) /\
    trace st2 = trace st ++ failure_record (S (reconnect_attempts st)) /\
    script st2 = rest /\ clock st2 = S (clock st) /\
    face_detected st2 = face_detected st.
Proof.
  intros [Hws Hacc] Hscript.
  destruct (daemon_connect_refused st Hacc)
    as (s1 & Hc & Hws1 & Hobs1 & Hre1 & Htr1 & Hsc1 & Hcl1 & Hfd1).
  exists (elapse e rest s1). split.
  - unfold Daemon.standby_pass. erewrite bind_run by reflexivity.
    rewrite Hws. change (negb false) with true. cbv iota.
    rewrite (bind_run _ _ st tt s1);
      [|now rewrite (bind_run _ _ st false s1 Hc)].
    erewrite bind_run by reflexivity. rewrite Hws1.
    erewrite bind_run by reflexivity. cbv iota.
    rewrite (bind_run _ _ s1 tt (elapse e rest s1)); [reflexivity|].
    apply sleep_next. now rewrite Hsc1.
  - simpl. rewrite Hobs1. auto 10.
Qed.

Lemma standby_pass_up st :
  obs_ws st = false -> accepting (obs st) = true -> responsive (obs st) = true ->
  exists st',
    Daemon.standby_pass st = (Return (Some true), st') /\
    online st' /\ obs st' = obs st /\ reconnect_attempts st' = 0%nat /\
    trace st' = trace st ++ reconnected /\
    script st' = script st /\ clock st' = clock st /\
    face_detected st' = face_detected st.
Proof.
  intros Hws Hacc Hup.
  unfold Daemon.standby_pass. erewrite bind_run by reflexivity.
  rewrite Hws. change (negb false) with true. cbv iota.
  set (s1 := with_reconnect_attempts 0 (emit (Log INFO MConnected) (with_obs_ws true st))).
  set (s2 := emit (Log INFO MConnectionEstablished) s1).
  rewrite (bind_run _ _ st tt s2);
    [|now rewrite (bind_run _ _ st true s1 (daemon_connect_accepted st Hacc))].
  erewrite bind_run by reflexivity. change (obs_ws s2) with true. cbv iota.
  assert (Hon : online s2) by (split; [reflexivity | exact Hup]).
  erewrite bind_run by (apply is_obs_active_ok; exact Hon).
  cbv beta iota. erewrite bind_run by reflexivity.
  eexists. split; [reflexivity|]. split; [exact Hon|].
  simpl. rewrite <- !app_assoc. auto 10.
Qed.

Lemma standby_loop_outage downs :
  forall st up rest,
    away st -> script st = downs ++ up :: rest ->
    Forall (fun e => env_accepting e = false) downs ->
    env_accepting up = true -> env_responsive up = true ->
    exists st',
      while_true Daemon.standby_pass st = (Return true, st') /\
      online st' /\ obs st' = remote_env up (obs st) /\
      reconnect_attempts st' = 0%nat /\
      trace st' = trace st ++
                  outage_log (reconnect_attempts st) (S (length downs)) ++
                  reconnected /\
      script st' = rest /\
      clock st' = (clock st + S (length downs))%nat /\
      face_detected st' = face_detected st.
Proof.
  induction downs as [|d ds IH]; intros st up rest Haway Hscript Hdowns Hacc Hup.
  - destruct (standby_pass_away up rest st Haway Hscript)
      as (s2 & Hp & Hws2 & Hobs2 & Hre2 & Htr2 & Hsc2 & Hcl2 & Hfd2).
    rewrite (while_true_step _ st s2 Hp) by (rewrite Hscript, Hsc2; reflexivity).
    destruct (standby_pass_up s2 Hws2) as
      (s3 & Hq & Hon3 & Hobs3 & Hre3 & Htr3 & Hsc3 & Hcl3 & Hfd3).
    { now rewrite Hobs2. }
    { now rewrite Hobs2. }
    exists s3. unfold while_true. rewrite (loop_done _ _ s2 true s3 Hq).
    split; [reflexivity|]. split; [exact Hon3|].
    rewrite Hobs3, Hobs2, Hre3, Htr3, Htr2, Hsc3, Hsc2, Hcl3, Hcl2, Hfd3, Hfd2.
    simpl. rewrite app_nil_r, <- app_assoc.
    repeat split; try reflexivity. lia.
  - destruct (standby_pass_away d (ds ++ up :: rest) st Haway Hscript)
      as (s2 & Hp & Hws2 & Hobs2 & Hre2 & Htr2 & Hsc2 & Hcl2 & Hfd2).
    rewrite (while_true_step _ st s2 Hp) by (rewrite Hscript, Hsc2; reflexivity).
    apply Forall_cons in Hdowns as [Hd Hds].
    destruct (IH s2 up rest) as
      (s3 & Hq & Hon3 & Hobs3 & Hre3 & Htr3 & Hsc3 & Hcl3 & Hfd3); auto.
    { split; [exact Hws2 | now rewrite Hobs2]. }
    exists s3. split; [exact Hq|]. split; [exact Hon3|].
    rewrite Hobs3, Hobs2, Hre3, Htr3, Htr2, Hre2, Hsc3, Hcl3, Hcl2, Hfd3, Hfd2.
    simpl. rewrite <- !app_assoc.
    repeat split; try reflexivity. lia.
Qed.

Lemma standby_mode_outage_run downs up rest st :
  away st -> script st = downs ++ up :: rest ->
  Forall (fun e => env_accepting e = false) downs ->
  env_accepting up = true -> env_responsive up = true ->
  exists st',
    Daemon.standby_mode st = (Return true, st') /\
    online st' /\ obs st' = remote_env up (obs st) /\
    reconnect_attempts st' = 0%nat /\
    trace st' = trace st ++ [Log INFO MStandbyMode] ++
                outage_log (reconnect_attempts st) (S (length downs)) ++
                reconnected /\
    script st' = rest /\
    clock st' = (clock st + S (length downs))%nat /\
    face_detected st' = face_detected st.
Proof.
  intros Haway Hscript Hdowns Hacc Hup.
  unfold Daemon.standby_mode. erewrite bind_run by reflexivity.
  destruct (standby_loop_outage downs (emit (Log INFO MStandbyMode) st) up rest)
    as (s3 & Hq & Hon3 & Hobs3 & Hre3 & Htr3 & Hsc3 & Hcl3 & Hfd3); auto.
  exists s3. split; [exact Hq|]. split; [exact Hon3|].
  rewrite Hobs3, Hre3, Htr3, Hsc3, Hcl3, Hfd3. simpl. rewrite <- !app_assoc.
  repeat split; reflexivity.
Qed.

Lemma requests_app a b : requests (a ++ b) = requests a ++ requests b.
Proof. unfold requests. apply omap_app. Qed.

Lemma errors_logged_app a b : errors_logged (a ++ b) = errors_logged a ++ errors_logged b.
Proof. unfold errors_logged. apply omap_app. Qed.

Lemma warnings_logged_app a b :
  warnings_logged (a ++ b) = warnings_logged a ++ warnings_logged b.
Proof. unfold warnings_logged. apply omap_app. Qed.

Lemma outage_log_quiet a k :
  requests (outage_log a k) = [] /\ calls (outage_log a k) = [] /\
  transitions (outage_log a k) = [].
Proof.
  revert a. induction k as [|k IH]; intros a; [now simpl|].
  destruct (IH (S a)) as (H1 & H2 & H3).
  simpl outage_log. rewrite requests_app, calls_app, transitions_app, H1, H2, H3.
  unfold failure_record.
  destruct (Nat.leb (S a) 3); [|destruct (Nat.eqb (S a mod 12) 0)]; now simpl.
Qed.

Lemma outage_log_errors a k :
  errors_logged (outage_log a k) =
  MConnectFailed <$> seq (S a) (Nat.min (a + k) 3 - Nat.min a 3).
Proof.
  revert a. induction k as [|k IH]; intros a.
  - simpl. replace (Nat.min (a + 0) 3 - Nat.min a 3)%nat with 0%nat by lia.
    reflexivity.
  - simpl outage_log. rewrite errors_logged_app, IH. unfold failure_record.
    destruct (Nat.leb (S a) 3) eqn:Hle.
    + apply Nat.leb_le in Hle.
      replace (Nat.min (a + S k) 3 - Nat.min a 3)%nat
        with (S (Nat.min (S a + k) 3 - Nat.min (S a) 3)) by lia.
      reflexivity.
    + apply Nat.leb_gt in Hle.
      replace (Nat.min (a + S k) 3 - Nat.min a 3)%nat with 0%nat by lia.
      replace (Nat.min (S a + k) 3 - Nat.min (S a) 3)%nat with 0%nat by lia.
      now destruct (Nat.eqb (S a mod 12) 0).
Qed.

Lemma outage_log_warnings a k :
  length (warnings_logged (outage_log a k)) = ((a + k) / 12 - a / 12)%nat.
Proof.
  revert a. induction k as [|k IH]; intros a.
  - simpl. replace (a + 0)%nat with a by lia. lia.
  - simpl outage_log. rewrite warnings_logged_app, length_app, IH.
    replace (a + S k)%nat with (S a + k)%nat by lia.
    pose proof (Nat.div_mod_eq a 12) as Ha.
    pose proof (Nat.div_mod_eq (S a) 12) as HSa.
    pose proof (Nat.mod_upper_bound a 12 ltac:(lia)) as Hra.
    pose proof (Nat.mod_upper_bound (S a) 12 ltac:(lia)) as HrSa.
    assert (Hmono : (S a / 12 <= (S a + k) / 12)%nat)
      by (apply Nat.Div0.div_le_mono; lia).
    unfold failure_record.
    destruct (Nat.leb (S a) 3) eqn:Hle.
    + apply Nat.leb_le in Hle. simpl length. lia.
    + apply Nat.leb_gt in Hle.
      destruct (Nat.eqb (S a mod 12) 0) eqn:Hmod.
      * apply Nat.eqb_eq in Hmod. simpl length. lia.
      * apply Nat.eqb_neq in Hmod. simpl length. lia.
Qed.

(** X5: After an outage the daemon's [standby_mode] reconnects by itself.
    Started with no handle while OBS refuses connections, and OBS keeps
    refusing through the sleeps [downs] and comes back (accepting and
    answering) during the next one, [standby_mode] returns [True] after
    exactly one sleep per failed attempt, holding a handle to an OBS that
    answers, with [reconnect_attempts] back at 0.  On the way it sent one
    request, the final [GetVersion]; it asked for no synchronisation and
    changed neither a scene item nor the stored presence. *)
Theorem standby_rides_out_outage downs up rest st :
  away st -> script st = downs ++ up :: rest ->
  Forall (fun e => env_accepting e = false) downs ->
  env_accepting up = true -> env_responsive up = true ->
  exists st',
    Daemon.standby_mode st = (Return true, st') /\
    online st' /\
    reconnect_attempts st' = 0%nat /\
    script st' = rest /\
    clock st' = (clock st + S (length downs))%nat /\
    requests (trace st') = requests (trace st) ++ [GetVersion] /\
    calls (trace st') = calls (trace st) /\
    scene_items (obs st') = scene_items (obs st) /\
    face_detected st' = face_detected st.
Proof.
  intros Haway Hscript Hdowns Hacc Hup.
  destruct (standby_mode_outage_run downs up rest st Haway Hscript Hdowns Hacc Hup)
    as (st' & Hrun & Hon & Hobs & Hre & Htr & Hsc & Hcl & Hfd).
  exists st'. split; [exact Hrun|]. split; [exact Hon|].
  destruct (outage_log_quiet (reconnect_attempts st) (S (length downs)))
    as (Hq1 & Hq2 & _).
  rewrite Htr, Hobs, !requests_app, !calls_app, Hq1, Hq2.
  repeat split; auto. simpl. now rewrite app_nil_r.
Qed.

Lemma standby_rides_out_outage_witness :
  let down := mkEnv false false None in
  let st := Daemon.init (remote_env down stage)
              [down; down; mkEnv true true (Some face); capture_fails] in
  exists st',
    Daemon.standby_mode st = (Return true, st') /\
    online st' /\
    reconnect_attempts st' = 0%nat /\
    script st' = [capture_fails] /\
    clock st' = (clock st + 3)%nat /\
    requests (trace st') = requests (trace st) ++ [GetVersion] /\
    calls (trace st') = calls (trace st) /\
    scene_items (obs st') = scene_items (obs st) /\
    face_detected st' = face_detected st.
Proof.
  cbv zeta.
  apply (standby_rides_out_outage
           [mkEnv false false None; mkEnv false false None]
           (mkEnv true true (Some face)) [capture_fails]).
  - split; reflexivity.
  - reflexivity.
  - repeat constructor.
  - reflexivity.
  - reflexivity.
Defined.

(** X6: The failure log of [connect_obs] is throttled.  Over an outage of [k]
    failed attempts in a row, counted from a daemon that had none, the
    first three are logged at [ERROR], with their attempt numbers, and
    after that one [WARNING] is logged at every twelfth attempt: [min k 3]
    errors and [k / 12] warnings, however long the outage. *)
Theorem standby_log_throttle downs up rest st :
  away st -> reconnect_attempts st = 0%nat ->
  script st = downs ++ up :: rest ->
  Forall (fun e => env_accepting e = false) downs ->
  env_accepting up = true -> env_responsive up = true ->
  let k := S (length downs) in
  let st' := snd (Daemon.standby_mode st) in
  errors_logged (trace st') =
    errors_logged (trace st) ++ (MConnectFailed <$> seq 1 (Nat.min k 3)) /\
  length (warnings_logged (trace st')) =
    (length (warnings_logged (trace st)) + k / 12)%nat.
Proof.
  intros Haway Hzero Hscript Hdowns Hacc Hup.
  destruct (standby_mode_outage_run downs up rest st Haway Hscript Hdowns Hacc Hup)
    as (st' & Hrun & _ & _ & _ & Htr & _).
  cbv zeta. rewrite Hrun. simpl snd. rewrite Htr, Hzero.
  rewrite !errors_logged_app, !warnings_logged_app, !length_app.
  rewrite outage_log_errors, outage_log_warnings.
  replace (Nat.min (0 + S (length downs)) 3 - Nat.min 0 3)%nat
    with (Nat.min (S (length downs)) 3) by lia.
  replace ((0 + S (length downs)) / 12 - 0 / 12)%nat
    with (S (length downs) / 12)%nat by (rewrite Nat.Div0.div_0_l; simpl; lia).
  split.
  - change (errors_logged [Log INFO MStandbyMode]) with (@nil message).
    change (errors_logged reconnected) with (@nil message).
    now rewrite app_nil_r.
  - change (warnings_logged [Log INFO MStandbyMode]) with (@nil message).
    change (warnings_logged reconnected) with (@nil message).
    simpl length. lia.
Qed.

Lemma standby_log_throttle_witness :
  let down := mkEnv false false None in
  let st := Daemon.init (remote_env down stage)
              (replicate 12 down ++ [mkEnv true true (Some face)]) in
  let st' := snd (Daemon.standby_mode st) in
  errors_logged (trace st') =
    [MConnectFailed 1; MConnectFailed 2; MConnectFailed 3] /\
  length (warnings_logged (trace st')) = 1%nat.
Proof.
  cbv zeta.
  apply (standby_log_throttle (replicate 12 (mkEnv false false None))
           (mkEnv true true (Some face)) []).
  - split; reflexivity.
  - reflexivity.
  - reflexivity.
  - repeat constructor.
  - reflexivity.
  - reflexivity.
Defined.

(** ** What a run can add to the trace *)

Lemma emits_ret {A} P (a : A) : emits P (ret a).
Proof. intros st. exists []. split; [symmetry; apply app_nil_r | constructor]. Qed.

Lemma emits_raise {A} P e : emits P (@raise A e).
Proof. intros st. exists []. split; [symmetry; apply app_nil_r | constructor]. Qed.

Lemma emits_gets {A} P (f : State -> A) : emits P (gets f).
Proof. intros st. exists []. split; [symmetry; apply app_nil_r | constructor]. Qed.

Lemma emits_quiet P (f : State -> State) :
  (forall st, trace (f st) = trace st) -> emits P (modify f).
Proof.
  intros Hf st. exists []. simpl. rewrite Hf.
  split; [symmetry; apply app_nil_r | constructor].
Qed.

Lemma emits_emit (P : event -> Prop) e : P e -> emits P (modify (emit e)).
Proof. intros He st. exists [e]. split; [reflexivity | now repeat constructor]. Qed.

Lemma emits_sleep P : emits P sleep.
Proof.
  intros st. exists []. unfold sleep.
  destruct (script st); (split; [symmetry; apply app_nil_r | constructor]).
Qed.

Lemma emits_then (P : event -> Prop) (a b c : State) :
  (exists evs, trace b = trace a ++ evs /\ Forall P evs) ->
  (exists evs, trace c = trace b ++ evs /\ Forall P evs) ->
  exists evs, trace c = trace a ++ evs /\ Forall P evs.
Proof.
  intros (e1 & H1 & F1) (e2 & H2 & F2). exists (e1 ++ e2).
  rewrite H2, H1, <- app_assoc. split; [reflexivity | now apply Forall_app].
Qed.

Lemma emits_bind {A B} P (m : M A) (k : A -> M B) :
  emits P m -> (forall a, emits P (k a)) -> emits P (bind m k).
Proof.
  intros Hm Hk st. unfold bind. specialize (Hm st).
  destruct (m st) as [[a|e] st1]; simpl in *; [|exact Hm].
  eapply emits_then; [exact Hm | apply Hk].
Qed.

Lemma emits_try_except {A} P (m h : M A) :
  emits P m -> emits P h -> emits P (try_except m h).
Proof.
  intros Hm Hh st. unfold try_except. specialize (Hm st).
  destruct (m st) as [[a|[|]] st1]; simpl in *; try exact Hm.
  eapply emits_then; [exact Hm | apply Hh].
Qed.

Lemma emits_try_bare {A} P (m h : M A) :
  emits P m -> emits P h -> emits P (try_bare m h).
Proof.
  intros Hm Hh st. unfold try_bare. specialize (Hm st).
  destruct (m st) as [[a|e] st1]; simpl in *; try exact Hm.
  eapply emits_then; [exact Hm | apply Hh].
Qed.

Lemma emits_try_except_both {A} P (m hk he : M A) :
  emits P m -> emits P hk -> emits P he -> emits P (try_except_both m hk he).
Proof.
  intros Hm Hk He st. unfold try_except_both. specialize (Hm st).
  destruct (m st) as [[a|[|]] st1]; simpl in *; try exact Hm.
  - eapply emits_then; [exact Hm | apply He].
  - eapply emits_then; [exact Hm | apply Hk].
Qed.

Lemma emits_try_finally {A} P (m : M A) (f : M unit) :
  emits P m -> emits P f -> emits P (try_finally m f).
Proof.
  intros Hm Hf st. unfold try_finally. specialize (Hm st).
  destruct (m st) as [r st1]. specialize (Hf st1). simpl in *.
  destruct (f st1) as [[u|e] st2]; simpl in *; eapply emits_then; eauto.
Qed.

Lemma emits_for_each {A} P (l : list A) (body : A -> M unit) :
  (forall x, emits P (body x)) -> emits P (for_each l body).
Proof.
  intros Hb. induction l as [|x l IH]; simpl; [apply emits_ret|].
  apply emits_bind; auto.
Qed.

Lemma emits_loop {A} P (body : M (option A)) n : emits P body -> emits P (loop n body).
Proof.
  intros Hb. induction n as [|n IH]; simpl; [apply emits_raise|].
  apply emits_bind; [exact Hb|]. intros [a|]; [apply emits_ret | exact IH].
Qed.

Lemma emits_while_true {A} P (body : M (option A)) :
  emits P body -> emits P (while_true body).
Proof. intros Hb st. unfold while_true. now apply emits_loop. Qed.

Ltac emits_basic :=
  match goal with
  | |- emits _ (ret _) => apply emits_ret
  | |- emits _ (raise _) => apply emits_raise
  | |- emits _ (gets _) => apply emits_gets
  | |- emits _ sleep => apply emits_sleep
  | |- emits _ (log _ _) => apply emits_emit; exact I
  | |- emits _ (modify (emit _)) => apply emits_emit; exact I
  | |- emits _ (modify _) => apply emits_quiet; intros ?; reflexivity
  | |- emits _ (bind _ _) => apply emits_bind; [|intros ?]
  | |- emits _ (try_except _ _) => apply emits_try_except
  | |- emits _ (try_bare _ _) => apply emits_try_bare
  | |- emits _ (try_except_both _ _ _) => apply emits_try_except_both
  | |- emits _ (try_finally _ _) => apply emits_try_finally
  | |- emits _ (for_each _ _) => apply emits_for_each; intros ?
  | |- emits _ (while_true _) => apply emits_while_true
  | |- emits _ (match ?x with _ => _ end) => destruct x
  end.

Lemma emits_call (P : event -> Prop) r : P (Request r) -> emits P (call r).
Proof.
  intros Hr. unfold call.
  apply emits_bind; [apply emits_gets|]. intros [|]; [|apply emits_raise].
  apply emits_bind; [now apply emits_emit|]. intros _.
  repeat emits_basic.
Qed.

Lemma probing_connect_obs : emits probing Daemon.connect_obs.
Proof. unfold Daemon.connect_obs. repeat emits_basic. Qed.

Lemma probing_disconnect_obs : emits probing Daemon.disconnect_obs.
Proof. unfold Daemon.disconnect_obs. repeat emits_basic. Qed.

Lemma probing_is_obs_active : emits probing Daemon.is_obs_active.
Proof.
  unfold Daemon.is_obs_active, call_GetVersion.
  repeat emits_basic;
    first [apply emits_call; exact I | apply probing_disconnect_obs].
Qed.

Lemma probing_standby_mode : emits probing Daemon.standby_mode.
Proof.
  unfold Daemon.standby_mode, Daemon.standby_pass.
  repeat first [emits_basic | apply probing_connect_obs | apply probing_is_obs_active].
Qed.

Lemma standby_mode_returns_true st b st' :
  Daemon.standby_mode st = (Return b, st') -> b = true.
Proof.
  unfold Daemon.standby_mode. erewrite bind_run by reflexivity.
  unfold while_true. intros H. apply loop_returned in H as (s & H).
  unfold Daemon.standby_pass in H.
  apply bind_returned in H as (ws & s1 & _ & H).
  apply bind_returned in H as (u & s2 & _ & H). erewrite bind_run in H by reflexivity.
  apply bind_returned in H as (active & s3 & Hact & H).
  destruct active.
  - erewrite bind_run in H by reflexivity. now injection H as <- _.
  - apply bind_returned in H as (u' & s4 & _ & H). discriminate.
Qed.

(** X7: While it waits for OBS, the daemon does nothing but try to connect
    and probe: whatever OBS does and however long it takes,
    [standby_mode] adds to the trace only log records and [GetVersion]
    requests (no scene list, no item, no screenshot request, no
    synchronisation), and it has no way out but [return True], taken with
    a handle held to an OBS that has just answered. *)
Theorem standby_only_probes :
  emits probing Daemon.standby_mode /\
  forall st b st', Daemon.standby_mode st = (Return b, st') -> b = true /\ online st'.
Proof.
  split; [apply probing_standby_mode|]. intros st b st' H. split.
  - eapply standby_mode_returns_true; eauto.
  - eapply standby_mode_returns_online; eauto.
Qed.

Lemma probing_active_mode_unconfigured config :
  truthy (monitor_source_name config) = false ->
  emits probing (Daemon.active_mode config).
Proof.
  intros H. unfold Daemon.active_mode.
  destruct (monitor_source_name config) as [mon|].
  - rewrite H. change (negb false) with true. cbv iota. repeat emits_basic.
  - repeat emits_basic.
Qed.

(** X8: Without a monitor source ([monitor_source_name] missing or empty) the
    daemon never looks at a picture and never changes a scene: for the
    whole of [run], through every connect, refusal, disconnect and sleep,
    the trace gains only log records and [GetVersion] requests. *)
Theorem daemon_unconfigured_only_probes config :
  truthy (monitor_source_name config) = false ->
  emits probing (Daemon.run config).
Proof.
  intros H. unfold Daemon.run, Daemon.run_cycle.
  repeat first [ emits_basic
               | apply probing_standby_mode
               | apply probing_disconnect_obs
               | apply (probing_active_mode_unconfigured config H) ].
Qed.

Lemma daemon_unconfigured_only_probes_witness :
  emits probing (Daemon.run (mkConfig (Some "") (Some "Overlay") (Some "Idle") None None)).
Proof.
  apply (daemon_unconfigured_only_probes
           (mkConfig (Some "") (Some "Overlay") (Some "Idle") None None)).
  reflexivity.
Defined.

(** ** Runs that only the stop signal ends *)












































(** ** What a run leaves as it was *)

Lemma preserves_ret {A B} (f : State -> B) (a : A) : preserves f (ret a).
Proof. intros st. reflexivity. Qed.

Lemma preserves_raise {A B} (f : State -> B) e : preserves f (@raise A e).
Proof. intros st. reflexivity. Qed.

Lemma preserves_gets {A B} (f : State -> B) (g : State -> A) : preserves f (gets g).
Proof. intros st. reflexivity. Qed.

Lemma preserves_modify {B} (f : State -> B) (g : State -> State) :
  (forall st, f (g st) = f st) -> preserves f (modify g).
Proof. intros H st. apply H. Qed.

Lemma preserves_sleep {B} (f : State -> B) :
  (forall e rest st, f (elapse e rest st) = f st) -> preserves f sleep.
Proof. intros H st. unfold sleep. destruct (script st); [reflexivity | apply H]. Qed.

Lemma preserves_bind {A B C} (f : State -> C) (m : M A) (k : A -> M B) :
  preserves f m -> (forall a, preserves f (k a)) -> preserves f (bind m k).
Proof.
  intros Hm Hk st. unfold bind. specialize (Hm st).
  destruct (m st) as [[a|e] st1]; simpl in *; [|exact Hm].
  now rewrite Hk.
Qed.

Lemma preserves_try_except {A C} (f : State -> C) (m h : M A) :
  preserves f m -> preserves f h -> preserves f (try_except m h).
Proof.
  intros Hm Hh st. unfold try_except. specialize (Hm st).
  destruct (m st) as [[a|[|]] st1]; simpl in *; try exact Hm.
  now rewrite Hh.
Qed.

Lemma preserves_for_each {A C} (f : State -> C) (l : list A) (body : A -> M unit) :
  (forall x, preserves f (body x)) -> preserves f (for_each l body).
Proof.
  intros Hb. induction l as [|x l IH]; simpl; [apply preserves_ret|].
  apply preserves_bind; auto.
Qed.

Lemma preserves_loop {A C} (f : State -> C) (body : M (option A)) n :
  preserves f body -> preserves f (loop n body).
Proof.
  intros Hb. induction n as [|n IH]; simpl; [apply preserves_raise|].
  apply preserves_bind; [exact Hb|]. intros [a|]; [apply preserves_ret | exact IH].
Qed.

Lemma preserves_while_true {A C} (f : State -> C) (body : M (option A)) :
  preserves f body -> preserves f (while_true body).
Proof. intros Hb st. unfold while_true. now apply preserves_loop. Qed.

Ltac preserves_step :=
  match goal with
  | |- preserves _ (ret _) => apply preserves_ret
  | |- preserves _ (raise _) => apply preserves_raise
  | |- preserves _ (gets _) => apply preserves_gets
  | |- preserves _ sleep => apply preserves_sleep; intros ? ? ?; reflexivity
  | |- preserves _ (log _ _) => apply preserves_modify; intros ?; reflexivity
  | |- preserves _ (modify _) => apply preserves_modify; intros ?; reflexivity
  | |- preserves _ (bind _ _) => apply preserves_bind; [|intros ?]
  | |- preserves _ (try_except _ _) => apply preserves_try_except
  | |- preserves _ (for_each _ _) => apply preserves_for_each; intros ?
  | |- preserves _ (while_true _) => apply preserves_while_true
  | |- preserves _ (match ?x with _ => _ end) => destruct x
  end.









Lemma switcher_connect_refused st :
  accepting (obs st) = false ->
  Switcher.connect_obs st =
  (Return false, emit (Log ERROR (MConnectFailed 0)) (with_obs_ws true st)).
Proof.
  intros Hacc. unfold Switcher.connect_obs.
  erewrite try_except_error; [reflexivity|].
  erewrite bind_run by reflexivity. erewrite bind_run by reflexivity.
  change (accepting (obs (with_obs_ws true st))) with (accepting (obs st)).
  rewrite Hacc. reflexivity.
Qed.



(** The other two ways out, both at the preview window: the key q leaves
    the loop of fs_source.py with the script unread and nothing logged
    but the disconnect; a window that cannot be drawn ends the daemon's
    session with "Runtime error in active mode". *)
Lemma preview_q_ends_run :
  let r := Switcher.run config_preview
             (Switcher.init stage [press_q; mkEnv true true (Some face)]) in
  fst r = Return tt /\
  script (snd r) = [press_q; mkEnv true true (Some face)] /\
  errors_logged (trace (snd r)) = [] /\
  last (trace (snd r)) = Some (Log INFO MDisconnected) /\
  transitions (trace (snd r)) = [true].
Proof. vm_compute. repeat split. Qed.

Lemma preview_failure_ends_session :
  let r := Daemon.active_mode config_preview
             (mkState stage true false 0 0 0 0 [] [no_display] 0) in
  fst r = Return false /\
  script (snd r) = [no_display] /\
  face_detected (snd r) = true /\
  last (trace (snd r)) = Some (Log ERROR MRuntimeError).
Proof. vm_compute. repeat split. Qed.


(** X11: [run] of fs_source.py gives up at once when it cannot start: if OBS
    refuses the connection, or if no monitor source is configured, it
    returns without a single sleep and without a single request; the
    remote, the stored presence and the script are as they were.  (The
    daemon, in the first case, keeps trying instead.) *)
Theorem switcher_run_gives_up config st :
  accepting (obs st) = false \/ truthy (monitor_source_name config) = false ->
  exists st',
    Switcher.run config st = (Return tt, st') /\
    script st' = script st /\
    obs st' = obs st /\
    face_detected st' = face_detected st /\
    requests (trace st') = requests (trace st) /\
    calls (trace st') = calls (trace st).
Proof.
  intros H. unfold Switcher.run. erewrite bind_run by reflexivity.
  destruct (accepting (obs st)) eqn:Hacc.
  - destruct H as [H|H]; [discriminate|].
    erewrite bind_run by (apply switcher_connect_ok; exact Hacc).
    change (negb true) with false. cbv iota.
    destruct (monitor_source_name config) as [mon|].
    + rewrite H. change (negb false) with true. cbv iota.
      erewrite bind_run by reflexivity.
      eexists. split; [reflexivity|]. simpl.
      rewrite !requests_app, !calls_app. simpl. rewrite !app_nil_r. auto.
    + erewrite bind_run by reflexivity.
      eexists. split; [reflexivity|]. simpl.
      rewrite !requests_app, !calls_app. simpl. rewrite !app_nil_r. auto.
  - erewrite bind_run by (apply switcher_connect_refused; exact Hacc).
    change (negb false) with true. cbv iota.
    eexists. split; [reflexivity|]. simpl.
    rewrite !requests_app, !calls_app. simpl. rewrite !app_nil_r. auto.
Qed.

Lemma switcher_run_gives_up_witness :
  exists st',
    Switcher.run (mkConfig None (Some "Overlay") None None None)
                 (Switcher.init stage (showing [nobody])) = (Return tt, st') /\
    script st' = script (Switcher.init stage (showing [nobody])) /\
    obs st' = obs (Switcher.init stage (showing [nobody])) /\
    face_detected st' = face_detected (Switcher.init stage (showing [nobody])) /\
    requests (trace st') = requests (trace (Switcher.init stage (showing [nobody]))) /\
    calls (trace st') = calls (trace (Switcher.init stage (showing [nobody]))).
Proof.
  apply (switcher_run_gives_up (mkConfig None (Some "Overlay") None None None)
           (Switcher.init stage (showing [nobody]))).
  right. reflexivity.
Defined.

(** ** The passes of [active_mode] *)

Lemma daemon_screenshot_fails source st :
  online st -> screenshot (obs st) = None ->
  Daemon.get_source_screenshot source st =
  (Return None,
   emit (Log ERROR MScreenshotFailed) (emit (Request (GetSourceScreenshot source)) st)).
Proof.
  intros [Hws Hup] Hshot.
  unfold Daemon.get_source_screenshot, call_GetSourceScreenshot, call,
    try_except, bind, gets, modify, log, ret, raise. simpl.
  rewrite Hws. simpl. rewrite Hup. simpl. rewrite Hshot. reflexivity.
Qed.

Lemma counting_daemon_sync t v exs :
  preserves consecutive_errors (Daemon.set_source_visibility_global t v exs).
Proof.
  intros st. pose proof (daemon_sync_backdrop t v exs st) as H.
  now apply backdrop_fields in H as (_ & _ & _ & _ & H & _).
Qed.

Lemma on_frame_resets config f st :
  consecutive_errors (snd (Daemon.on_frame config f st)) = 0%nat.
Proof.
  unfold Daemon.on_frame.
  rewrite (bind_run _ _ st tt (with_consecutive_errors 0 st) eq_refl). cbv zeta.
  match goal with
  | |- consecutive_errors (snd (?m ?s)) = _ =>
      assert (H : preserves consecutive_errors m)
  end.
  { unfold Daemon.sync_if_set.
    repeat first [apply counting_daemon_sync | preserves_step]. }
  now rewrite H.
Qed.

Lemma active_pass_frame config mon f st :
  watching f st ->
  Daemon.active_pass config mon st =
  (Daemon.on_frame config f ;;
   quit <- preview config ;;
   if quit : bool then ret (Some false) else sleep ;; ret None)
    (emit (Request (GetSourceScreenshot mon)) (emit (Request GetVersion) st)).
Proof.
  intros (Hws & Hup & Hshot). unfold Daemon.active_pass.
  erewrite bind_run by (apply is_obs_active_ok; split; assumption).
  change (negb true) with false. cbv iota.
  assert (Hw1 : watching f (emit (Request GetVersion) st))
    by (repeat split; assumption).
  rewrite (bind_run _ _ _ (Some f) _ (daemon_screenshot_ok mon f _ Hw1)).
  reflexivity.
Qed.

(** X12: The capture-error counter of [active_mode] counts failures in a row.
    While OBS answers, a pass that gets a frame puts the counter back to 0
    and stores the verdict on that frame; it leaves the loop exactly when
    [show_preview] is on and the preview window reads the key q (the
    [break]).  A pass whose screenshot fails adds one to the counter, asks
    for no synchronisation, keeps the stored presence, and ends the
    session (with [False]) exactly when that was the fifth failure in a
    row. *)
Theorem capture_error_counter config mon st :
  online st ->
  let r := Daemon.active_pass config mon st in
  match screenshot (obs st) with
  | Some f =>
      consecutive_errors (snd r) = 0%nat /\
      face_detected (snd r) = detect_face config f /\
      ((exists b, fst r = Return (Some b)) <->
       show_preview config && q_pressed st = true)
  | None =>
      consecutive_errors (snd r) = S (consecutive_errors st) /\
      face_detected (snd r) = face_detected st /\
      calls (trace (snd r)) = calls (trace st) /\
      (fst r = Return (Some false) <-> (4 <= consecutive_errors st)%nat) /\
      forall b, fst r = Return (Some b) -> b = false
  end.
Proof.
  intros Hon. cbv zeta. destruct (screenshot (obs st)) as [f|] eqn:Hshot.
  - assert (Hw : watching f st) by (destruct Hon; repeat split; assumption).
    rewrite (active_pass_frame config mon f st Hw).
    set (s2 := emit (Request (GetSourceScreenshot mon)) (emit (Request GetVersion) st)).
    pose proof (on_frame_resets config f s2) as Hreset.
    destruct (daemon_on_frame_spec config f s2) as (s3 & Hrun & Hfd & Hs & _).
    rewrite Hrun in Hreset. simpl in Hreset.
    apply surroundings_fields in Hs as (_ & Hsc & _).
    change (script s2) with (script st) in Hsc.
    rewrite (bind_run _ _ s2 tt s3 Hrun).
    unfold q_pressed. rewrite <- Hsc. clear Hsc.
    unfold bind, sleep, ret. rewrite preview_run. cbv beta.
    destruct (script s3) as [|e rest] eqn:Hs3;
      destruct (show_preview config);
      try (destruct (env_window_ok e), (env_key_q e));
      simpl; rewrite ?Hs3; simpl;
      (split; [exact Hreset|]); (split; [exact Hfd|]);
      (split; [intros [b H]; try discriminate | intros H; try discriminate]).
    + reflexivity.
    + now exists false.
  - unfold Daemon.active_pass.
    erewrite bind_run by (apply is_obs_active_ok; exact Hon).
    change (negb true) with false. cbv iota.
    erewrite bind_run by (apply daemon_screenshot_fails; [exact Hon | exact Hshot]).
    cbv iota. erewrite bind_run by reflexivity. erewrite bind_run by reflexivity.
    match goal with |- context [Nat.leb 5 ?n] =>
      change n with (S (consecutive_errors st)) end.
    destruct (Nat.leb 5 (S (consecutive_errors st))) eqn:Hle.
    + apply Nat.leb_le in Hle. erewrite bind_run by reflexivity. simpl.
      rewrite !calls_app. simpl. rewrite !app_nil_r.
      repeat split; auto; try lia. now intros b [= <-].
    + apply Nat.leb_gt in Hle. unfold bind, sleep.
      match goal with |- context [script ?s] =>
        destruct (script s) as [|e rest] end; simpl;
        rewrite !calls_app; simpl; rewrite !app_nil_r;
        repeat split; auto; try discriminate; lia.
Qed.

Lemma capture_error_counter_witness :
  let st := mkState (remote_env capture_fails stage) true true 0 0 0 4 [] [capture_fails] 0 in
  let r := Daemon.active_pass config_both "Webcam" st in
  consecutive_errors (snd r) = 5%nat /\
  face_detected (snd r) = true /\
  calls (trace (snd r)) = [] /\
  (fst r = Return (Some false) <-> (4 <= 4)%nat) /\
  forall b, fst r = Return (Some b) -> b = false.
Proof.
  cbv zeta.
  apply (capture_error_counter config_both "Webcam"
           (mkState (remote_env capture_fails stage) true true 0 0 0 4 []
                    [capture_fails] 0)).
  split; reflexivity.
Defined.

(** X13: No loop of the two files spins: in [standby_mode], in [active_mode],
    in the daemon's [run] and in [run] of fs_source.py, a pass that goes
    round again has slept at least once (the surroundings change only
    during a sleep). *)
Theorem no_loop_spins config mon ex :
  winds_down Daemon.standby_pass /\
  winds_down (Daemon.active_pass config mon) /\
  winds_down (Daemon.run_cycle config) /\
  winds_down (Switcher.run_pass config mon ex).
Proof.
  split; [apply standby_pass_winds_down|].
  split; [apply active_pass_winds_down|].
  split; [apply run_cycle_winds_down | apply run_pass_winds_down].
Qed.

Lemma sync_if_set_unconnected_run name v exs st :
  obs_ws st = false ->
  Daemon.sync_if_set name v exs st =
  (Return tt,
   match name with
   | Some source =>
       if truthy (Some source)
       then emit (Call source v (Daemon.excluded exs)) st else st
   | None => st
   end).
Proof.
  intros H. unfold Daemon.sync_if_set. destruct name as [s|]; [|reflexivity].
  destruct (truthy (Some s)); [|reflexivity].
  erewrite bind_run by (apply daemon_sync_unconnected; exact H). reflexivity.
Qed.

(** X14: When [active_mode] finds that OBS no longer answers, its two reset
    calls reach nothing.  The failed probe has already dropped the handle
    ([is_obs_active] disconnects), so both synchronisations return at
    their first line: the session ends with [True] and the stored presence
    [False], but the only request sent is the probe itself, and the remote
    is exactly as it was. *)
Theorem liveness_exit_writes_nothing config mon st :
  obs_ws st = false \/ responsive (obs st) = false ->
  exists st',
    Daemon.active_pass config mon st = (Return (Some true), st') /\
    face_detected st' = false /\
    obs_ws st' = false /\
    obs st' = obs st /\
    calls (trace st') =
      calls (trace st) ++ request_for (show_source_name config) false [] ++
      request_for (hide_source_name config) true [] /\
    requests (trace st') =
      requests (trace st) ++ (if obs_ws st then [GetVersion] else []).
Proof.
  intros Hdown.
  assert (Hprobe : exists s1,
             Daemon.is_obs_active st = (Return false, s1) /\
             obs_ws s1 = false /\ obs s1 = obs st /\
             calls (trace s1) = calls (trace st) /\
             requests (trace s1) =
               requests (trace st) ++ (if obs_ws st then [GetVersion] else [])).
  { rewrite is_obs_active_run. destruct (obs_ws st) eqn:Hws.
    - destruct Hdown as [Hdown|Hdown]; [discriminate|]. rewrite Hdown.
      eexists. split; [reflexivity|]. simpl.
      rewrite !calls_app, !requests_app. simpl. rewrite !app_nil_r. auto.
    - eexists. split; [reflexivity|]. rewrite app_nil_r. auto. }
  destruct Hprobe as (s1 & Hact & Hws1 & Hobs1 & Hc1 & Hr1).
  unfold Daemon.active_pass. rewrite (bind_run _ _ st false s1 Hact).
  change (negb false) with true. cbv iota.
  erewrite bind_run by reflexivity.
  erewrite bind_run by (apply sync_if_set_unconnected_run; exact Hws1).
  erewrite bind_run.
  2:{ apply sync_if_set_unconnected_run.
      destruct (show_source_name config) as [s|]; [destruct (truthy (Some s))|];
        exact Hws1. }
  erewrite bind_run by reflexivity.
  eexists. split; [reflexivity|].
  unfold request_for.
  destruct (show_source_name config) as [s|]; [destruct (truthy (Some s))|];
    (destruct (hide_source_name config) as [h|]; [destruct (truthy (Some h))|]);
    simpl; rewrite ?calls_app, ?requests_app, ?Hc1, ?Hr1; simpl;
    rewrite ?app_nil_r, <- ?app_assoc; auto.
Qed.

Lemma liveness_exit_writes_nothing_witness :
  let st := mkState (remote_env (mkEnv false true None) stage) true true 0 0 0 0 [] [] 0 in
  exists st',
    Daemon.active_pass config_both "Webcam" st = (Return (Some true), st') /\
    face_detected st' = false /\
    obs_ws st' = false /\
    obs st' = obs st /\
    calls (trace st') =
      calls (trace st) ++ request_for (show_source_name config_both) false [] ++
      request_for (hide_source_name config_both) true [] /\
    requests (trace st') =
      requests (trace st) ++ (if obs_ws st then [GetVersion] else []).
Proof.
  cbv zeta.
  apply (liveness_exit_writes_nothing config_both "Webcam"
           (mkState (remote_env (mkEnv false true None) stage) true true 0 0 0 0 [] [] 0)).
  right. reflexivity.
Defined.

(** ** Synchronisations of two targets *)

Lemma synced_by_name t v its :
  NoDup (sceneItemId <$> its) -> synced t v its = by_name t v its.
Proof.
  intros Hnd. unfold synced, by_name. apply list_fmap_ext. intros k c Hc.
  assert (hit t its (sceneItemId c) = matches t c) as ->; [|reflexivity].
  apply eq_true_iff_eq. rewrite hit_spec. split.
  - intros (s & Hs & Hname & Hid).
    assert (s = c) as ->.
    { eapply NoDup_ids_inj; eauto. eapply list_elem_of_lookup_2; eauto. }
    unfold matches. now apply String.eqb_eq.
  - intros Hm. exists c. split; [eapply list_elem_of_lookup_2; eauto|].
    split; [|reflexivity]. unfold matches in Hm. now apply String.eqb_eq.
Qed.

Lemma by_name_ids t v its : sceneItemId <$> by_name t v its = sceneItemId <$> its.
Proof.
  unfold by_name. rewrite <- list_fmap_compose. apply list_fmap_ext.
  intros k c _. simpl. now destruct (matches t c).
Qed.

Lemma by_name_comm t1 v1 t2 v2 its :
  t1 <> t2 ->
  by_name t1 v1 (by_name t2 v2 its) = by_name t2 v2 (by_name t1 v1 its).
Proof.
  intros Hne. unfold by_name. rewrite <- !list_fmap_compose.
  apply list_fmap_ext. intros k c _. simpl. unfold matches.
  destruct (String.eqb (sourceName c) t1) eqn:E1;
    destruct (String.eqb (sourceName c) t2) eqn:E2; simpl;
    rewrite ?E1, ?E2; try reflexivity.
  apply String.eqb_eq in E1, E2. congruence.
Qed.

Lemma synced_comm t1 v1 t2 v2 its :
  NoDup (sceneItemId <$> its) -> t1 <> t2 ->
  synced t1 v1 (synced t2 v2 its) = synced t2 v2 (synced t1 v1 its).
Proof.
  intros Hnd Hne.
  rewrite (synced_by_name t2 v2 its Hnd), (synced_by_name t1 v1 its Hnd).
  rewrite !synced_by_name by (now rewrite by_name_ids).
  now apply by_name_comm.
Qed.

Lemma sync_items_comm t1 v1 t2 v2 l1 l2 (m : gmap string (list SceneItem)) :
  map_Forall (fun _ its => NoDup (sceneItemId <$> its)) m -> t1 <> t2 ->
  sync_items t1 v1 l1 (sync_items t2 v2 l2 m) =
  sync_items t2 v2 l2 (sync_items t1 v1 l1 m).
Proof.
  intros Hnd Hne. apply map_eq. intros n. rewrite !sync_items_lookup.
  destruct (m !! n) as [its|] eqn:Hn;
    destruct (bool_decide (n ∈ l1)), (bool_decide (n ∈ l2)); simpl; try reflexivity.
  f_equal. apply synced_comm; [|exact Hne]. exact (Hnd n its Hn).
Qed.

Lemma remote_sync_comm t1 v1 t2 v2 l1 l2 r :
  scoped_ids r -> t1 <> t2 ->
  remote_sync t1 v1 l1 (remote_sync t2 v2 l2 r) =
  remote_sync t2 v2 l2 (remote_sync t1 v1 l1 r).
Proof.
  intros Hnd Hne. unfold remote_sync. simpl. f_equal.
  now apply sync_items_comm.
Qed.

(** X15: Synchronising two different targets gives the same remote in either
    order, provided scene item ids are unique within each scene: the
    order in which a transition shows one source and hides the other does
    not matter.  For fs_source.py this holds in every state; for the
    daemon, whose call stops at a scene it cannot fetch, when OBS answers
    and every scene it writes to can be fetched. *)
Theorem sync_targets_commute t1 v1 t2 v2 ex1 ex2 exs1 exs2 st :
  scoped_ids (obs st) -> t1 <> t2 ->
  let S1 := Switcher.set_source_visibility_global t1 v1 ex1 in
  let S2 := Switcher.set_source_visibility_global t2 v2 ex2 in
  let D1 := Daemon.set_source_visibility_global t1 v1 exs1 in
  let D2 := Daemon.set_source_visibility_global t2 v2 exs2 in
  obs (snd (S2 (snd (S1 st)))) = obs (snd (S1 (snd (S2 st)))) /\
  (online st -> t1 <> "" -> t2 <> "" ->
   fetchable (Daemon.excluded exs1) (obs st) ->
   fetchable (Daemon.excluded exs2) (obs st) ->
   obs (snd (D2 (snd (D1 st)))) = obs (snd (D1 (snd (D2 st))))).
Proof.
  intros Hnd Hne. cbv zeta. split.
  - pose proof (switcher_sync_backdrop t1 v1 ex1 st) as B1.
    pose proof (switcher_sync_backdrop t2 v2 ex2 st) as B2.
    apply backdrop_fields in B1 as (W1 & _ & _ & _ & _ & _ & _ & R1 & _ & _ & L1).
    apply backdrop_fields in B2 as (W2 & _ & _ & _ & _ & _ & _ & R2 & _ & _ & L2).
    rewrite (switcher_sync_obs t2 v2 ex2 (snd _)), (switcher_sync_obs t1 v1 ex1 (snd _)).
    rewrite W1, R1, L1, W2, R2, L2, !switcher_sync_obs.
    destruct (obs_ws st && responsive (obs st));
      destruct (String.eqb t1 ""), (String.eqb t2 ""); simpl; try reflexivity.
    now apply remote_sync_comm.
  - intros Hon Hn1 Hn2 Hf1 Hf2.
    pose proof (daemon_sync_backdrop t1 v1 exs1 st) as B1.
    pose proof (daemon_sync_backdrop t2 v2 exs2 st) as B2.
    pose proof (online_backdrop _ _ B1 Hon) as Hon1.
    pose proof (online_backdrop _ _ B2 Hon) as Hon2.
    apply backdrop_fields in B1 as (_ & _ & _ & _ & _ & _ & _ & _ & _ & _ & L1).
    apply backdrop_fields in B2 as (_ & _ & _ & _ & _ & _ & _ & _ & _ & _ & L2).
    pose proof (daemon_sync_obs_healthy t1 v1 exs1 st Hon Hn1 Hf1) as O1.
    pose proof (daemon_sync_obs_healthy t2 v2 exs2 st Hon Hn2 Hf2) as O2.
    rewrite (daemon_sync_obs_healthy t2 v2 exs2 (snd _) Hon1 Hn2)
      by (rewrite O1; now apply fetchable_remote_sync).
    rewrite (daemon_sync_obs_healthy t1 v1 exs1 (snd _) Hon2 Hn1)
      by (rewrite O2; now apply fetchable_remote_sync).
    rewrite L1, L2, O1, O2. now apply remote_sync_comm.
Qed.

Lemma sync_targets_commute_witness :
  let st := connected stage in
  let S1 := Switcher.set_source_visibility_global "Overlay" true [] in
  let S2 := Switcher.set_source_visibility_global "Idle" false ["Monitor"] in
  let D1 := Daemon.set_source_visibility_global "Overlay" true None in
  let D2 := Daemon.set_source_visibility_global "Idle" false (Some "Monitor") in
  obs (snd (S2 (snd (S1 st)))) = obs (snd (S1 (snd (S2 st)))) /\
  obs (snd (D2 (snd (D1 st)))) = obs (snd (D1 (snd (D2 st)))).
Proof.
  cbv zeta.
  destruct (sync_targets_commute "Overlay" true "Idle" false [] ["Monitor"]
              None (Some "Monitor") (connected stage)) as [Hs Hd].
  - unfold scoped_ids. apply (bool_decide_unpack _). vm_compute. exact I.
  - discriminate.
  - split; [exact Hs|]. apply Hd.
    + split; reflexivity.
    + discriminate.
    + discriminate.
    + unfold fetchable. apply (bool_decide_unpack _). vm_compute. exact I.
    + unfold fetchable. apply (bool_decide_unpack _). vm_compute. exact I.
Defined.

(** ** Where a transition leaves the remote *)

Lemma fetchable_all ex r : fetchable [] r -> fetchable ex r.
Proof.
  unfold fetchable. intros H. eapply Forall_impl; [exact H|].
  intros n Hn _. apply Hn. apply not_elem_of_nil.
Qed.

Lemma sync_if_set_healthy s v exs st :
  s <> "" -> online st -> fetchable (Daemon.excluded exs) (obs st) ->
  exists st',
    Daemon.sync_if_set (Some s) v exs st = (Return tt, st') /\
    online st' /\
    obs st' = remote_sync s v (written (Daemon.excluded exs) (scene_list (obs st)))
                (obs st).
Proof.
  intros Hne Hon Hf. unfold Daemon.sync_if_set.
  assert (truthy (Some s) = true) as ->.
  { unfold truthy. apply String.eqb_neq in Hne. now rewrite Hne. }
  destruct (daemon_sync_returns s v exs st) as (b & st' & Hr & _).
  rewrite (bind_run _ _ _ _ _ Hr). exists st'. split; [reflexivity|].
  pose proof (daemon_sync_backdrop s v exs st) as Hb.
  pose proof (daemon_sync_obs_healthy s v exs st Hon Hne Hf) as Ho.
  rewrite Hr in Hb, Ho. simpl in Hb, Ho.
  split; [eapply online_backdrop; eauto | exact Ho].
Qed.

Lemma daemon_on_frame_remote config f s h st :
  online st -> fetchable [] (obs st) ->
  show_source_name config = Some s -> hide_source_name config = Some h ->
  s <> "" -> h <> "" ->
  detect_face config f <> face_detected st ->
  obs (snd (Daemon.on_frame config f st)) =
  remote_sync h (negb (detect_face config f)) (written [] (scene_list (obs st)))
    (remote_sync s (detect_face config f)
       (written (if detect_face config f then []
                 else Daemon.excluded (detection_scene_name config))
                (scene_list (obs st)))
       (obs st)).
Proof.
  intros Hon Hf Hshow Hhide Hs Hh Hedge.
  unfold Daemon.on_frame. rewrite Hshow, Hhide.
  erewrite bind_run by reflexivity. cbv zeta.
  erewrite bind_run by reflexivity.
  change (face_detected (with_consecutive_errors 0 st)) with (face_detected st).
  assert (eqb (detect_face config f) (face_detected st) = false) as ->.
  { destruct (detect_face config f), (face_detected st); simpl; congruence. }
  change (negb false) with true. cbv iota.
  erewrite bind_run by reflexivity. erewrite bind_run by reflexivity.
  erewrite bind_run by reflexivity.
  destruct (detect_face config f); cbv iota.
  - erewrite bind_run by reflexivity.
    match goal with |- context [bind _ _ ?x] =>
      destruct (sync_if_set_healthy s true None x Hs Hon Hf) as (s1 & H1 & Hon1 & Ho1)
    end.
    rewrite (bind_run _ _ _ _ _ H1).
    destruct (sync_if_set_healthy h false None s1 Hh Hon1) as (s2 & H2 & _ & Ho2).
    { rewrite Ho1. now apply fetchable_remote_sync. }
    rewrite H2. simpl snd. rewrite Ho2, Ho1. reflexivity.
  - erewrite bind_run by reflexivity.
    match goal with
    | |- context [bind _ _ ?x] =>
        destruct (sync_if_set_healthy s false (detection_scene_name config) x Hs Hon)
          as (s1 & H1 & Hon1 & Ho1); [now apply fetchable_all|]
    end.
    rewrite (bind_run _ _ _ _ _ H1).
    destruct (sync_if_set_healthy h true None s1 Hh Hon1) as (s2 & H2 & _ & Ho2).
    { rewrite Ho1. now apply fetchable_remote_sync. }
    rewrite H2. simpl snd. rewrite Ho2, Ho1. reflexivity.
Qed.

(** X16: A transition of the daemon settles the remote.  With OBS answering,
    every listed scene fetchable, item ids unique within each scene, and
    two different targets configured, after [active_mode] has handled a
    frame whose verdict [b] differs from the stored presence: every item
    of the hide target, in every listed scene, has visibility [not b];
    every item of the show target has visibility [b] in every listed scene
    outside the exclusion (none when [b] is present, the detection scene
    when it is absent) -- the second synchronisation does not undo the
    first; and in the excluded scene the show target's items are exactly
    as they were. *)
Theorem daemon_transition_settles config f s h st :
  online st -> scoped_ids (obs st) -> fetchable [] (obs st) ->
  show_source_name config = Some s -> hide_source_name config = Some h ->
  s <> "" -> h <> "" -> s <> h ->
  detect_face config f <> face_detected st ->
  let b := detect_face config f in
  let ex := if b then [] else Daemon.excluded (detection_scene_name config) in
  let st' := snd (Daemon.on_frame config f st) in
  (forall n its it,
     n ∈ scene_list (obs st) -> scene_items (obs st') !! n = Some its -> it ∈ its ->
     (sourceName it = h -> sceneItemEnabled it = negb b) /\
     (sourceName it = s -> (n ∉ ex) -> sceneItemEnabled it = b)) /\
  (forall n its k it,
     n ∈ ex -> scene_items (obs st) !! n = Some its -> its !! k = Some it ->
     sourceName it = s ->
     exists its', scene_items (obs st') !! n = Some its' /\ its' !! k = Some it).
Proof.
  intros Hon Hids Hf Hshow Hhide Hs Hh Hsh Hedge. cbv zeta.
  rewrite (daemon_on_frame_remote config f s h st Hon Hf Hshow Hhide Hs Hh Hedge).
  set (b := detect_face config f).
  set (ex := if b then [] else Daemon.excluded (detection_scene_name config)).
  set (L := scene_list (obs st)).
  split.
  - intros n its it Hn Hlook Hin. split.
    + intros Hname.
      eapply (remote_sync_converges h (negb b) (written [] L) _ n its it);
        [|exact Hlook | exact Hin | exact Hname].
      apply written_spec. split; [exact Hn | apply not_elem_of_nil].
    + intros Hname Hex.
      rewrite remote_sync_comm in Hlook by (auto; congruence).
      eapply (remote_sync_converges s b (written ex L) _ n its it);
        [|exact Hlook | exact Hin | exact Hname].
      apply written_spec. split; assumption.
  - intros n its k it Hex Hlook Hk Hname. simpl.
    rewrite !sync_items_lookup.
    rewrite (bool_decide_eq_false_2 (n ∈ written ex L))
      by (rewrite written_spec; tauto).
    rewrite Hlook.
    destruct (bool_decide (n ∈ written [] L)); simpl.
    + exists (synced h (negb b) its). split; [reflexivity|].
      apply synced_frame; [exact (Hids n its Hlook) | exact Hk | congruence].
    + exists its. auto.
Qed.

Lemma daemon_transition_settles_witness :
  let st := mkState stage true false 0 0 0 0 [] [] 0 in
  let st' := snd (Daemon.on_frame config_both face st) in
  (forall n its it,
     n ∈ scene_list (obs st) -> scene_items (obs st') !! n = Some its -> it ∈ its ->
     (sourceName it = "Idle" -> sceneItemEnabled it = negb (detect_face config_both face)) /\
     (sourceName it = "Overlay" ->
      (n ∉ (if detect_face config_both face then []
            else Daemon.excluded (detection_scene_name config_both))) ->
      sceneItemEnabled it = detect_face config_both face)) /\
  (forall n its k it,
     n ∈ (if detect_face config_both face then []
          else Daemon.excluded (detection_scene_name config_both)) ->
     scene_items (obs st) !! n = Some its -> its !! k = Some it ->
     sourceName it = "Overlay" ->
     exists its', scene_items (obs st') !! n = Some its' /\ its' !! k = Some it).
Proof.
  cbv zeta.
  apply (daemon_transition_settles config_both face "Overlay" "Idle"
           (mkState stage true false 0 0 0 0 [] [] 0)).
  - split; reflexivity.
  - unfold scoped_ids. apply (bool_decide_unpack _). vm_compute. exact I.
  - unfold fetchable. apply (bool_decide_unpack _). vm_compute. exact I.
  - reflexivity.
  - reflexivity.
  - discriminate.
  - discriminate.
  - discriminate.
  - vm_compute. discriminate.
Defined.
